(** * PromptGallery: a shallow embedding of the prompt CRUD backend

    The development follows the layering of the Go program:

    - [GoStrings], [GoErrors], [GoInt]: the fragments of the Go runtime the
      program relies on ([strings.Contains], [strings.ToLower],
      [errors.New], [fmt.Errorf] with [%w], 64-bit [int] arithmetic);
    - [Sql]: the [LIKE] operator the search filter is written with;
    - [Models]: [internal/models/prompt.go] and [internal/models/request.go];
    - [Repositories]: [internal/repositories/prompt_repository.go] over a
      table of rows with soft deletion;
    - [Services]: the prompt service;
    - [Handlers]: the HTTP handlers of the prompt endpoints;
    - [Users]: [internal/models/user.go];
    - [Finders]: the finders of the repository by language, difficulty and
      popularity, and the service of the popular prompts;
    - [Config]: [internal/config].

    Text is a sequence of bytes ([string]); instants are integers. *)

From Stdlib Require Import ZArith NArith Bool List Ascii String Lia.
From Stdlib Require Import Sorting.Sorted Sorting.Permutation.
Import ListNotations.

Local Open Scope string_scope.
Local Open Scope Z_scope.

(* ================================================================== *)
(** ** Go strings *)

Module GoStrings.

(** [len(s)]: the number of bytes of [s]. *)
Definition len (s : string) : Z := Z.of_nat (String.length s).

(** A byte starts a character unless it is a UTF-8 continuation byte
    ([10xxxxxx]). *)
Definition starts_rune (c : ascii) : bool :=
  negb (N.land (N_of_ascii c) 192 =? 128)%N.

(** The number of characters of UTF-8 text. *)
Fixpoint RuneCount (s : string) : nat :=
  match s with
  | EmptyString => O
  | String c s' => ((if starts_rune c then 1 else 0) + RuneCount s')%nat
  end.

(** [strings.HasPrefix]. *)
Fixpoint HasPrefix (s prefix : string) {struct prefix} : bool :=
  match prefix with
  | EmptyString => true
  | String p prefix' =>
      match s with
      | EmptyString => false
      | String c s' => Ascii.eqb c p && HasPrefix s' prefix'
      end
  end.

(** [strings.Contains]: [substr] occurs in [s]. *)
Fixpoint Contains (s substr : string) : bool :=
  HasPrefix s substr ||
  match s with
  | EmptyString => false
  | String _ s' => Contains s' substr
  end.

Definition lower_byte (c : ascii) : ascii :=
  let n := N_of_ascii c in
  if ((65 <=? n) && (n <=? 90))%N then ascii_of_N (n + 32) else c.

(** [strings.ToLower] on ASCII text: the letters [A]..[Z] are mapped to
    [a]..[z], every other byte is kept. *)
Fixpoint ToLower (s : string) : string :=
  match s with
  | EmptyString => EmptyString
  | String c s' => String (lower_byte c) (ToLower s')
  end.

End GoStrings.

(* ================================================================== *)
(** ** Go errors *)

Module GoErrors.

(** An error value is either the ORM's sentinel [gorm.ErrRecordNotFound],
    a value made by [errors.New], or a value made by [fmt.Errorf] with the
    verb [%w], which keeps the error it wraps. *)
Inductive error : Type :=
| ErrRecordNotFound : error
| errorString (s : string) : error
| wrapError (msg : string) (err : error) : error.

(** The method [Error()]. *)
Definition Error (e : error) : string :=
  match e with
  | ErrRecordNotFound => "record not found"
  | errorString s => s
  | wrapError msg _ => msg
  end.

Definition New (text : string) : error := errorString text.

(** [fmt.Errorf(prefix + "%w", err)]. *)
Definition Errorf (prefix : string) (err : error) : error :=
  wrapError (prefix ++ Error err) err.

(** [errors.Is(err, gorm.ErrRecordNotFound)]: the sentinel is reached by
    unwrapping. *)
Fixpoint IsRecordNotFound (e : error) : bool :=
  match e with
  | ErrRecordNotFound => true
  | errorString _ => false
  | wrapError _ inner => IsRecordNotFound inner
  end.

End GoErrors.

(* ================================================================== *)
(** ** Go integers *)

Module GoInt.

Definition MaxInt64 : Z := 2 ^ 63 - 1.
Definition MinInt64 : Z := - 2 ^ 63.

(** The value of a 64-bit signed result: arithmetic wraps around. *)
Definition wrap (z : Z) : Z := (z + 2 ^ 63) mod 2 ^ 64 - 2 ^ 63.

Definition in_range (z : Z) : Prop := MinInt64 <= z <= MaxInt64.

Definition sub (a b : Z) : Z := wrap (a - b).
Definition add (a b : Z) : Z := wrap (a + b).
Definition mul (a b : Z) : Z := wrap (a * b).

(** Integer division truncates toward zero. *)
Definition div (a b : Z) : Z := wrap (Z.quot a b).

End GoInt.

(* ================================================================== *)
(** ** SQL pattern matching *)

Module Sql.

(** [text LIKE pattern]: [%] matches any sequence of characters, [_] any
    single character, and a backslash makes the next pattern character
    literal.  A pattern that ends in a lone backslash matches nothing; the
    patterns built by the repository always end in [%].  A character is a
    byte here, as it is in ASCII text. *)
Fixpoint like (pattern : string) : string -> bool :=
  match pattern with
  | EmptyString =>
      fun text => match text with EmptyString => true | _ => false end
  | String p pattern' =>
      if Ascii.eqb p "%" then
        fix any (text : string) : bool :=
          like pattern' text ||
          match text with
          | EmptyString => false
          | String _ text' => any text'
          end
      else if Ascii.eqb p "_" then
        fun text =>
          match text with
          | EmptyString => false
          | String _ text' => like pattern' text'
          end
      else if Ascii.eqb p "\" then
        match pattern' with
        | EmptyString => fun _ => false
        | String q pattern'' =>
            fun text =>
              match text with
              | EmptyString => false
              | String c text' => Ascii.eqb c q && like pattern'' text'
              end
        end
      else
        fun text =>
          match text with
          | EmptyString => false
          | String c text' => Ascii.eqb c p && like pattern' text'
          end
  end.

(** A character with no special meaning in a pattern. *)
Definition plain (c : ascii) : bool :=
  negb (Ascii.eqb c "%" || Ascii.eqb c "_" || Ascii.eqb c "\").

Fixpoint literal (s : string) : bool :=
  match s with
  | EmptyString => true
  | String c s' => plain c && literal s'
  end.

End Sql.

(* ================================================================== *)
(** ** Models: [internal/models] *)

(** The projections of the records of a module share one name space: where
    two structs have a field of the same name, the fields of the later one
    carry a letter in front ([F] for the filter, [C] for the create request,
    [R] and [Q] for the prompt request and its form). *)

Module Models.

Import GoErrors.

(** *** [prompt.go] *)

Definition DifficultyLevel : Type := string.

Definition DifficultyBeginner : DifficultyLevel := "beginner".
Definition DifficultyIntermediate : DifficultyLevel := "intermediate".
Definition DifficultyAdvanced : DifficultyLevel := "advanced".
Definition DifficultyExpert : DifficultyLevel := "expert".

(** [DifficultyLevel.Valid]. *)
Definition DifficultyLevel_Valid (d : DifficultyLevel) : bool :=
  String.eqb d DifficultyBeginner || String.eqb d DifficultyIntermediate ||
  String.eqb d DifficultyAdvanced || String.eqb d DifficultyExpert.

(** The struct [Prompt]; the first four fields are those of the embedded
    [gorm.Model].  [DeletedAt] is the soft-delete marker. *)
Record Prompt : Type := mkPrompt {
  ID : Z;
  CreatedAt : Z;
  UpdatedAt : Z;
  DeletedAt : option Z;
  Title : string;
  Description : string;
  Language : string;
  Difficulty : DifficultyLevel;
  Category : string;
  ProblemStatement : string;
  IsVerified : bool;
  VerifiedBy : option Z;
  VerifiedAt : option Z;
  ViewCount : Z;
  LikeCount : Z;
  DifficultyVote : Z;
  Tags : string;
  AuthorID : option Z;
  AuthorName : string;
  AuthorEmail : string
}.

Definition with_Difficulty (d : DifficultyLevel) (p : Prompt) : Prompt :=
  mkPrompt (ID p) (CreatedAt p) (UpdatedAt p) (DeletedAt p) (Title p)
    (Description p) (Language p) d (Category p) (ProblemStatement p)
    (IsVerified p) (VerifiedBy p) (VerifiedAt p) (ViewCount p) (LikeCount p)
    (DifficultyVote p) (Tags p) (AuthorID p) (AuthorName p) (AuthorEmail p).

Definition with_ViewCount (n : Z) (p : Prompt) : Prompt :=
  mkPrompt (ID p) (CreatedAt p) (UpdatedAt p) (DeletedAt p) (Title p)
    (Description p) (Language p) (Difficulty p) (Category p)
    (ProblemStatement p) (IsVerified p) (VerifiedBy p) (VerifiedAt p) n
    (LikeCount p) (DifficultyVote p) (Tags p) (AuthorID p) (AuthorName p)
    (AuthorEmail p).

Definition with_DeletedAt (t : option Z) (p : Prompt) : Prompt :=
  mkPrompt (ID p) (CreatedAt p) (UpdatedAt p) t (Title p) (Description p)
    (Language p) (Difficulty p) (Category p) (ProblemStatement p)
    (IsVerified p) (VerifiedBy p) (VerifiedAt p) (ViewCount p) (LikeCount p)
    (DifficultyVote p) (Tags p) (AuthorID p) (AuthorName p) (AuthorEmail p).

(** The fields the ORM fills in when a row is inserted. *)
Definition with_identity (id now : Z) (p : Prompt) : Prompt :=
  mkPrompt id now now (DeletedAt p) (Title p) (Description p) (Language p)
    (Difficulty p) (Category p) (ProblemStatement p) (IsVerified p)
    (VerifiedBy p) (VerifiedAt p) (ViewCount p) (LikeCount p)
    (DifficultyVote p) (Tags p) (AuthorID p) (AuthorName p) (AuthorEmail p).

(** [Prompt.BeforeCreate]: the hook never fails. *)
Definition Prompt_BeforeCreate (p : Prompt) : Prompt * option error :=
  let p := if negb (DifficultyLevel_Valid (Difficulty p))
           then with_Difficulty DifficultyBeginner p
           else p in
  (p, None).

(** [PromptFilter]; [FIsVerified] is the pointer field: [None] is [nil]. *)
Record PromptFilter : Type := mkPromptFilter {
  FLanguage : string;
  FDifficulty : DifficultyLevel;
  FCategory : string;
  FIsVerified : option bool;
  FSearch : string;
  FPage : Z;
  FLimit : Z
}.

Record PromptCreateRequest : Type := mkPromptCreateRequest {
  CTitle : string;
  CDescription : string;
  CLanguage : string;
  CDifficulty : DifficultyLevel;
  CCategory : string;
  CProblemStatement : string;
  CExamples : string;
  CHints : string;
  CTags : string;
  CEstimatedTime : Z;
  CAuthorName : string;
  CAuthorEmail : string
}.

(** [PromptCreateRequest.ToPrompt]: the fields not listed in the composite
    literal keep their zero value. *)
Definition ToPrompt (req : PromptCreateRequest) : Prompt :=
  {| ID := 0; CreatedAt := 0; UpdatedAt := 0; DeletedAt := None;
     Title := CTitle req;
     Description := CDescription req;
     Language := CLanguage req;
     Difficulty := CDifficulty req;
     Category := CCategory req;
     ProblemStatement := CProblemStatement req;
     IsVerified := false; VerifiedBy := None; VerifiedAt := None;
     ViewCount := 0; LikeCount := 0; DifficultyVote := 0;
     Tags := CTags req;
     AuthorID := None;
     AuthorName := CAuthorName req;
     AuthorEmail := CAuthorEmail req |}.

(** *** [request.go] *)

Definition RequestStatus : Type := string.

Definition StatusPending : RequestStatus := "pending".
Definition StatusInReview : RequestStatus := "in_review".
Definition StatusApproved : RequestStatus := "approved".
Definition StatusAssigned : RequestStatus := "assigned".
Definition StatusInProgress : RequestStatus := "in_progress".
Definition StatusCompleted : RequestStatus := "completed".
Definition StatusRejected : RequestStatus := "rejected".
Definition StatusOnHold : RequestStatus := "on_hold".

Definition RequestStatus_Valid (s : RequestStatus) : bool :=
  String.eqb s StatusPending || String.eqb s StatusInReview ||
  String.eqb s StatusApproved || String.eqb s StatusAssigned ||
  String.eqb s StatusInProgress || String.eqb s StatusCompleted ||
  String.eqb s StatusRejected || String.eqb s StatusOnHold.

Definition Priority : Type := string.

Definition PriorityLow : Priority := "low".
Definition PriorityNormal : Priority := "normal".
Definition PriorityHigh : Priority := "high".
Definition PriorityUrgent : Priority := "urgent".

Definition Priority_Valid (p : Priority) : bool :=
  String.eqb p PriorityLow || String.eqb p PriorityNormal ||
  String.eqb p PriorityHigh || String.eqb p PriorityUrgent.

Record PromptRequest : Type := mkPromptRequest {
  RID : Z;
  RCreatedAt : Z;
  RUpdatedAt : Z;
  RDeletedAt : option Z;
  RequesterName : string;
  RequesterEmail : string;
  RequestedTitle : string;
  RequestedLanguage : string;
  RequestedDifficulty : DifficultyLevel;
  RequestedCategory : string;
  RDescription : string;
  SpecificRequirements : string;
  UseCase : string;
  PreferredTopics : string;
  Status : RequestStatus;
  RPriority : Priority;
  AssignedToID : option Z;
  AssignedBy : option Z;
  AssignedAt : option Z;
  CompletedPromptID : option Z;
  CompletedAt : option Z;
  AdminNotes : string;
  ResponseMessage : string;
  IsUrgent : bool;
  IsRejected : bool;
  EstimatedHours : Z
}.

Definition with_Status (s : RequestStatus) (pr : PromptRequest) :=
  mkPromptRequest (RID pr) (RCreatedAt pr) (RUpdatedAt pr) (RDeletedAt pr)
    (RequesterName pr) (RequesterEmail pr) (RequestedTitle pr)
    (RequestedLanguage pr) (RequestedDifficulty pr) (RequestedCategory pr)
    (RDescription pr) (SpecificRequirements pr) (UseCase pr)
    (PreferredTopics pr) s (RPriority pr) (AssignedToID pr) (AssignedBy pr)
    (AssignedAt pr) (CompletedPromptID pr) (CompletedAt pr) (AdminNotes pr)
    (ResponseMessage pr) (IsUrgent pr) (IsRejected pr) (EstimatedHours pr).

Definition with_Priority (p : Priority) (pr : PromptRequest) :=
  mkPromptRequest (RID pr) (RCreatedAt pr) (RUpdatedAt pr) (RDeletedAt pr)
    (RequesterName pr) (RequesterEmail pr) (RequestedTitle pr)
    (RequestedLanguage pr) (RequestedDifficulty pr) (RequestedCategory pr)
    (RDescription pr) (SpecificRequirements pr) (UseCase pr)
    (PreferredTopics pr) (Status pr) p (AssignedToID pr) (AssignedBy pr)
    (AssignedAt pr) (CompletedPromptID pr) (CompletedAt pr) (AdminNotes pr)
    (ResponseMessage pr) (IsUrgent pr) (IsRejected pr) (EstimatedHours pr).

Definition with_RequestedDifficulty (d : DifficultyLevel)
  (pr : PromptRequest) :=
  mkPromptRequest (RID pr) (RCreatedAt pr) (RUpdatedAt pr) (RDeletedAt pr)
    (RequesterName pr) (RequesterEmail pr) (RequestedTitle pr)
    (RequestedLanguage pr) d (RequestedCategory pr)
    (RDescription pr) (SpecificRequirements pr) (UseCase pr)
    (PreferredTopics pr) (Status pr) (RPriority pr) (AssignedToID pr)
    (AssignedBy pr) (AssignedAt pr) (CompletedPromptID pr) (CompletedAt pr)
    (AdminNotes pr) (ResponseMessage pr) (IsUrgent pr) (IsRejected pr)
    (EstimatedHours pr).

(** [PromptRequest.BeforeCreate]: the four assignments in program order. *)
Definition PromptRequest_BeforeCreate (pr : PromptRequest)
  : PromptRequest * option error :=
  let pr := if negb (RequestStatus_Valid (Status pr))
            then with_Status StatusPending pr else pr in
  let pr := if negb (Priority_Valid (RPriority pr))
            then with_Priority PriorityNormal pr else pr in
  let pr := if negb (DifficultyLevel_Valid (RequestedDifficulty pr))
            then with_RequestedDifficulty DifficultyBeginner pr else pr in
  let pr := if IsUrgent pr && String.eqb (RPriority pr) PriorityNormal
            then with_Priority PriorityHigh pr else pr in
  (pr, None).

Record PromptRequestCreateRequest : Type := mkPromptRequestCreateRequest {
  QRequesterName : string;
  QRequesterEmail : string;
  QRequestedTitle : string;
  QRequestedLanguage : string;
  QRequestedDifficulty : DifficultyLevel;
  QRequestedCategory : string;
  QDescription : string;
  QSpecificRequirements : string;
  QUseCase : string;
  QPreferredTopics : string;
  QIsUrgent : bool
}.

(** [PromptRequestCreateRequest.ToPromptRequest]. *)
Definition ToPromptRequest (req : PromptRequestCreateRequest)
  : PromptRequest :=
  let priority := if QIsUrgent req then PriorityHigh else PriorityNormal in
  {| RID := 0; RCreatedAt := 0; RUpdatedAt := 0; RDeletedAt := None;
     RequesterName := QRequesterName req;
     RequesterEmail := QRequesterEmail req;
     RequestedTitle := QRequestedTitle req;
     RequestedLanguage := QRequestedLanguage req;
     RequestedDifficulty := QRequestedDifficulty req;
     RequestedCategory := QRequestedCategory req;
     RDescription := QDescription req;
     SpecificRequirements := QSpecificRequirements req;
     UseCase := QUseCase req;
     PreferredTopics := QPreferredTopics req;
     Status := StatusPending;
     RPriority := priority;
     AssignedToID := None; AssignedBy := None; AssignedAt := None;
     CompletedPromptID := None; CompletedAt := None;
     AdminNotes := ""; ResponseMessage := "";
     IsUrgent := QIsUrgent req;
     IsRejected := false;
     EstimatedHours := 0 |}.

End Models.

(* ================================================================== *)
(** ** Repositories: [internal/repositories/prompt_repository.go] *)

Module Repositories.

Import GoStrings GoErrors Models.

(** The table [prompts]: its rows, soft-deleted ones included, and the next
    value of the id sequence. *)
Record Store : Type := mkStore {
  rows : list Prompt;
  next_id : Z
}.

(** A row is visible to the queries of the ORM while its soft-delete marker
    is unset. *)
Definition live (p : Prompt) : bool :=
  match DeletedAt p with None => true | Some _ => false end.

Definition live_rows (s : Store) : list Prompt := filter live (rows s).

(** The conditions the repository adds to a query with [Where]. *)
Inductive Cond : Type :=
| LanguageEq (v : string)          (* language = ? *)
| DifficultyEq (v : DifficultyLevel) (* difficulty = ? *)
| CategoryEq (v : string)          (* category = ? *)
| IsVerifiedEq (v : bool)          (* is_verified = ? *)
| SearchLike (term : string).
  (* LOWER(title) LIKE ? OR LOWER(description) LIKE ?
     OR LOWER(problem_statement) LIKE ?, the three arguments being term *)

(** The value of a condition on a row.  The SQL function [LOWER] is read
    as [ToLower]: both lower the letters of ASCII text. *)
Definition eval_cond (c : Cond) (p : Prompt) : bool :=
  match c with
  | LanguageEq v => String.eqb (Language p) v
  | DifficultyEq v => String.eqb (Difficulty p) v
  | CategoryEq v => String.eqb (Category p) v
  | IsVerifiedEq v => Bool.eqb (IsVerified p) v
  | SearchLike term =>
      Sql.like term (ToLower (Title p)) ||
      Sql.like term (ToLower (Description p)) ||
      Sql.like term (ToLower (ProblemStatement p))
  end.

(** A query under construction: successive [Where] calls are joined by
    [AND]. *)
Definition Query : Type := list Cond.

Definition Where (q : Query) (c : Cond) : Query := (q ++ [c])%list.

Definition holds (q : Query) (p : Prompt) : bool :=
  forallb (fun c => eval_cond c p) q.

(** The rows a query selects, in table order. *)
Definition select (q : Query) (s : Store) : list Prompt :=
  filter (holds q) (live_rows s).

(** [applyFilters]. *)
Definition applyFilters (query : Query) (f : PromptFilter) : Query :=
  let query := if negb (String.eqb (FLanguage f) "")
               then Where query (LanguageEq (FLanguage f)) else query in
  let query := if negb (String.eqb (FDifficulty f) "")
               then Where query (DifficultyEq (FDifficulty f)) else query in
  let query := if negb (String.eqb (FCategory f) "")
               then Where query (CategoryEq (FCategory f)) else query in
  let query := match FIsVerified f with
               | Some v => Where query (IsVerifiedEq v)
               | None => query
               end in
  let query := if negb (String.eqb (FSearch f) "")
               then
                 let searchTerm := "%" ++ ToLower (FSearch f) ++ "%" in
                 Where query (SearchLike searchTerm)
               else query in
  query.

(** [ORDER BY created_at DESC], by insertion; of rows created at the same
    instant, the later one in the table comes first. *)
Fixpoint insert_desc (p : Prompt) (l : list Prompt) : list Prompt :=
  match l with
  | [] => [p]
  | q :: l' =>
      if CreatedAt q <? CreatedAt p then p :: l else q :: insert_desc p l'
  end.

Fixpoint order_created_at_desc (l : list Prompt) : list Prompt :=
  match l with
  | [] => []
  | p :: l' => insert_desc p (order_created_at_desc l')
  end.

(** [Offset(n)]: an [OFFSET] clause is emitted only for a positive [n]. *)
Definition Offset (n : Z) (l : list Prompt) : list Prompt :=
  if 0 <? n then skipn (Z.to_nat n) l else l.

(** [Limit(n)]: a [LIMIT] clause is emitted unless [n] is negative. *)
Definition Limit (n : Z) (l : list Prompt) : list Prompt :=
  if n <? 0 then l else firstn (Z.to_nat n) l.

(** Every statement sent to the store may fail; the outcome of a statement
    is given by an argument of type [option error], [None] meaning that the
    store carried the statement out. *)
Definition Fault : Type := option error.

(** [FindAll]; [fcount] and [ffind] are the outcomes of the counting and of
    the fetching statement.  [page] and [limit] are Go [int]s. *)
Definition FindAll (s : Store) (fcount ffind : Fault)
  (filter : PromptFilter) (page limit : Z)
  : list Prompt * Z * option error :=
  let query := applyFilters [] filter in
  match fcount with
  | Some err => ([], 0, Some err)
  | None =>
      let total := Z.of_nat (List.length (select query s)) in
      let offset := GoInt.mul (GoInt.sub page 1) limit in
      match ffind with
      | Some err => ([], 0, Some err)
      | None =>
          let prompts :=
            Limit limit (Offset offset
              (order_created_at_desc (select query s))) in
          (prompts, total, None)
      end
  end.

(** [FindByID]. *)
Definition FindByID (s : Store) (f : Fault) (id : Z)
  : option Prompt * option error :=
  let first :=
    match f with
    | Some err => inr err
    | None =>
        match find (fun p => ID p =? id) (live_rows s) with
        | Some p => inl p
        | None => inr ErrRecordNotFound
        end
    end in
  match first with
  | inr err =>
      if IsRecordNotFound err
      then (None, Some (New "prompt not found"))
      else (None, Some err)
  | inl p => (Some p, None)
  end.

(** [Create]: the ORM runs the hook, draws the id from the sequence and
    stamps the row.  The records that reach [Create] have a zero [ID]. *)
Definition Create (s : Store) (now : Z) (f : Fault) (prompt : Prompt)
  : Store * option Prompt * option error :=
  match Prompt_BeforeCreate prompt with
  | (_, Some err) => (s, None, Some err)
  | (prompt, None) =>
      match f with
      | Some err => (s, None, Some err)
      | None =>
          let prompt := with_identity (next_id s) now prompt in
          (mkStore (rows s ++ [prompt])%list (next_id s + 1),
           Some prompt, None)
      end
  end.

(** The soft-deleting [UPDATE] of [db.Delete]: the live rows with the given
    id are marked. *)
Definition mark_deleted (now id : Z) (p : Prompt) : Prompt :=
  if live p && (ID p =? id) then with_DeletedAt (Some now) p else p.

Definition affected (s : Store) (id : Z) : nat :=
  List.length (filter (fun p => ID p =? id) (live_rows s)).

(** [Delete]. *)
Definition Delete (s : Store) (now : Z) (f : Fault) (id : Z)
  : Store * option error :=
  match f with
  | Some err => (s, Some err)
  | None =>
      let RowsAffected := affected s id in
      let s' := mkStore (map (mark_deleted now id) (rows s)) (next_id s) in
      if Nat.eqb RowsAffected 0
      then (s', Some (New "prompt not found"))
      else (s', None)
  end.

(** [IncrementViewCount]. *)
Definition IncrementViewCount (s : Store) (f : Fault) (id : Z)
  : Store * option error :=
  match f with
  | Some err => (s, Some err)
  | None =>
      let bump p :=
        if live p && (ID p =? id)
        then with_ViewCount (ViewCount p + 1) p else p in
      (mkStore (map bump (rows s)) (next_id s), None)
  end.

(** [Exists]: on a failure the count keeps its zero value. *)
Definition Exists (s : Store) (f : Fault) (id : Z) : bool * option error :=
  match f with
  | Some err => (false, Some err)
  | None => (Nat.ltb 0 (affected s id), None)
  end.

End Repositories.

(* ================================================================== *)
(** ** Services: the prompt service *)

Module Services.

Import GoStrings GoErrors Models Repositories.

(** [PromptResponse].  The two instants are rendered by the service with a
    fixed layout; the response keeps the instant that is rendered. *)
Record PromptResponse : Type := mkPromptResponse {
  PID : Z;
  PTitle : string;
  PDescription : string;
  PLanguage : string;
  PDifficulty : DifficultyLevel;
  PCategory : string;
  PProblemStatement : string;
  PIsVerified : bool;
  PViewCount : Z;
  PLikeCount : Z;
  PTags : string;
  PAuthorName : string;
  PCreatedAt : Z;
  PUpdatedAt : Z
}.

Record PaginationPromptResponse : Type := mkPaginationPromptResponse {
  Data : list PromptResponse;
  Total : Z;
  Page : Z;
  PLimit : Z;
  TotalPages : Z
}.

(** [transformToResponse]. *)
Definition transformToResponse (prompt : Prompt) : PromptResponse :=
  {| PID := ID prompt;
     PTitle := Title prompt;
     PDescription := Description prompt;
     PLanguage := Language prompt;
     PDifficulty := Difficulty prompt;
     PCategory := Category prompt;
     PProblemStatement := ProblemStatement prompt;
     PIsVerified := IsVerified prompt;
     PViewCount := ViewCount prompt;
     PLikeCount := LikeCount prompt;
     PTags := Tags prompt;
     PAuthorName := AuthorName prompt;
     PCreatedAt := CreatedAt prompt;
     PUpdatedAt := UpdatedAt prompt |}.

(** The page and the limit the service applies. *)
Definition applied_page (page : Z) : Z := if page <? 1 then 1 else page.

Definition applied_limit (limit : Z) : Z :=
  if (limit <? 1) || (100 <? limit) then 10 else limit.

(** [GetAllPrompts]. *)
Definition GetAllPrompts (s : Store) (fcount ffind : Fault)
  (filter : PromptFilter) (page limit : Z)
  : option PaginationPromptResponse * option error :=
  let page := applied_page page in
  let limit := applied_limit limit in
  if negb (String.eqb (FDifficulty filter) "") &&
     negb (DifficultyLevel_Valid (FDifficulty filter))
  then (None, Some (New "invalid difficulty"))
  else
    match FindAll s fcount ffind filter page limit with
    | (_, _, Some err) => (None, Some err)
    | (prompts, total, None) =>
        let promptResponses := map transformToResponse prompts in
        let totalPages :=
          GoInt.div (GoInt.sub (GoInt.add total limit) 1) limit in
        (Some {| Data := promptResponses;
                 Total := total;
                 Page := page;
                 PLimit := limit;
                 TotalPages := totalPages |}, None)
    end.

(** The goroutines a service call starts. *)
Inductive Goroutine : Type :=
| GoIncrementViewCount (id : Z).

(** Running a goroutine to its end: the error of the update is dropped. *)
Definition run (s : Store) (f : Fault) (g : Goroutine) : Store :=
  match g with
  | GoIncrementViewCount id => fst (IncrementViewCount s f id)
  end.

(** [GetPromptByID]; the third component lists the goroutines started by
    the call. *)
Definition GetPromptByID (s : Store) (f : Fault) (id : Z)
  : option PromptResponse * option error * list Goroutine :=
  if id =? 0 then (None, Some (New "invalid prompt id"), [])
  else
    match FindByID s f id with
    | (Some prompt, None) =>
        (Some (transformToResponse prompt), None, [GoIncrementViewCount id])
    | (_, Some err) =>
        (None, Some (Errorf "failed to find prompt: " err), [])
    | (None, None) => (None, None, [])
    end.

(** [validateCreateRequest]. *)
Definition validateCreateRequest (req : PromptCreateRequest)
  : option error :=
  if String.eqb (CTitle req) "" then Some (New "title is required")
  else if 200 <? len (CTitle req)
  then Some (New "title must be less than 200 characters")
  else if String.eqb (CDescription req) ""
  then Some (New "description is required")
  else if String.eqb (CLanguage req) ""
  then Some (New "language is required")
  else if String.eqb (CCategory req) ""
  then Some (New "category is required")
  else if String.eqb (CProblemStatement req) ""
  then Some (New "problem statement is required")
  else if negb (String.eqb (CDifficulty req) "") &&
          negb (DifficultyLevel_Valid (CDifficulty req))
  then Some (New "invalid difficulty level")
  else None.

(** [CreatePrompt]. *)
Definition CreatePrompt (s : Store) (now : Z) (f : Fault)
  (createReq : PromptCreateRequest)
  : Store * option PromptResponse * option error :=
  match validateCreateRequest createReq with
  | Some err => (s, None, Some err)
  | None =>
      let prompt := ToPrompt createReq in
      let prompt := if String.eqb (Difficulty prompt) ""
                    then with_Difficulty DifficultyBeginner prompt
                    else prompt in
      match Create s now f prompt with
      | (s', _, Some err) =>
          (s', None, Some (Errorf "failed to create prompt: " err))
      | (s', Some createdPrompt, None) =>
          (s', Some (transformToResponse createdPrompt), None)
      | (s', None, None) => (s', None, None)
      end
  end.

(** [DeletePrompt]; [fexists] and [fdelete] are the outcomes of the two
    statements. *)
Definition DeletePrompt (s : Store) (now : Z) (fexists fdelete : Fault)
  (id : Z) : Store * option error :=
  if id =? 0 then (s, Some (New "invalid prompt id"))
  else
    match Exists s fexists id with
    | (_, Some err) =>
        (s, Some (Errorf "failed to check if prompt exists: " err))
    | (false, None) => (s, Some (New "prompt not found"))
    | (true, None) =>
        match Delete s now fdelete id with
        | (s', Some err) =>
            (s', Some (Errorf "failed to delete prompt: " err))
        | (s', None) => (s', None)
        end
    end.

End Services.

(* ================================================================== *)
(** ** Handlers: the HTTP handlers of the prompt endpoints *)

Module Handlers.

Import GoStrings GoErrors Models Repositories Services.

(** *** The fragments of [strconv] the handlers call *)

Definition digit (c : ascii) : option Z :=
  let n := Z.of_N (N_of_ascii c) in
  if (48 <=? n) && (n <=? 57) then Some (n - 48) else None.

(** The value of a non-empty run of decimal digits. *)
Fixpoint digits (s : string) (acc : Z) : option Z :=
  match s with
  | EmptyString => Some acc
  | String c s' =>
      match digit c with
      | Some d => digits s' (10 * acc + d)
      | None => None
      end
  end.

Definition decimal (s : string) : option Z :=
  match s with
  | EmptyString => None
  | _ => digits s 0
  end.

Definition dquote : string := String (ascii_of_nat 34) EmptyString.

Definition NumError (fn s reason : string) : error :=
  New ("strconv." ++ fn ++ ": parsing " ++ dquote ++ s ++ dquote ++ ": " ++
       reason).

(** [strconv.ParseUint(s, 10, 32)]. *)
Definition ParseUint32 (s : string) : Z + error :=
  match decimal s with
  | None => inr (NumError "ParseUint" s "invalid syntax")
  | Some v =>
      if v <? 2 ^ 32 then inl v
      else inr (NumError "ParseUint" s "value out of range")
  end.

(** [strconv.Atoi]: an optional sign, then decimal digits. *)
Definition Atoi (s : string) : Z + error :=
  let signed :=
    match s with
    | String "+" s' => decimal s'
    | String "-" s' => option_map Z.opp (decimal s')
    | _ => decimal s
    end in
  match signed with
  | None => inr (NumError "Atoi" s "invalid syntax")
  | Some v =>
      if (GoInt.MinInt64 <=? v) && (v <=? GoInt.MaxInt64) then inl v
      else inr (NumError "Atoi" s "value out of range")
  end.

(** [strconv.ParseBool]. *)
Definition ParseBool (str : string) : bool + error :=
  if existsb (String.eqb str) ["1"; "t"; "T"; "TRUE"; "true"; "True"]
  then inl true
  else if existsb (String.eqb str) ["0"; "f"; "F"; "FALSE"; "false"; "False"]
  then inl false
  else inr (NumError "ParseBool" str "invalid syntax").

(** *** Requests and responses *)

(** What a handler reads of [*fiber.Ctx]: route parameters and query
    parameters (an absent one reads as the empty text) and the outcome of
    decoding the body. *)
Record Ctx : Type := mkCtx {
  Params : string -> string;
  QueryParam : string -> string;
  BodyParser : PromptCreateRequest + error
}.

Inductive Payload : Type :=
| NoData
| PromptData (r : PromptResponse)
| PageData (r : PaginationPromptResponse).

Record APIResponse : Type := mkAPIResponse {
  AStatus : string;
  AMessage : string;
  AData : Payload;
  AError : string
}.

(** [c.Status(code).JSON(body)]. *)
Record Reply : Type := mkReply {
  StatusCode : Z;
  Body : APIResponse
}.

(** [parseUintParam]. *)
Definition parseUintParam (c : Ctx) (param : string) : Z + error :=
  let paramStr := Params c param in
  if String.eqb paramStr "" then inr (New "Parameter is required")
  else
    match ParseUint32 paramStr with
    | inr _ => inr (New "Invalid parameter format")
    | inl value => inl value
    end.

(** [parseIntQuery]. *)
Definition parseIntQuery (c : Ctx) (key : string) (defaultValue : Z) : Z :=
  let valueStr := QueryParam c key in
  if String.eqb valueStr "" then defaultValue
  else
    match Atoi valueStr with
    | inr _ => defaultValue
    | inl value => if value <? 1 then defaultValue else value
    end.

(** [parsePromptQuery]. *)
Definition parsePromptQuery (c : Ctx)
  : PromptFilter * Z * Z * option error :=
  let filter lang cat search verified :=
    {| FLanguage := lang; FDifficulty := ""; FCategory := cat;
       FIsVerified := verified; FSearch := search;
       FPage := 0; FLimit := 0 |} in
  let language := QueryParam c "language" in
  let category := QueryParam c "category" in
  let search := QueryParam c "search" in
  let verifiedStr := QueryParam c "is_verified" in
  let parsed :=
    if negb (String.eqb verifiedStr "") then
      match ParseBool verifiedStr with
      | inr err => inr err
      | inl verified => inl (Some verified)
      end
    else inl None in
  match parsed with
  | inr err => (filter language category search None, 0, 0, Some err)
  | inl verified =>
      let page := parseIntQuery c "page" 1 in
      let limit := parseIntQuery c "limit" 10 in
      (filter language category search verified, page, limit, None)
  end.

(** [PromptHandler.GetPrompts]. *)
Definition GetPrompts (s : Store) (fcount ffind : Fault) (c : Ctx) : Reply :=
  match parsePromptQuery c with
  | (_, _, _, Some err) =>
      mkReply 400
        (mkAPIResponse "error" "Invalid query parameters" NoData (Error err))
  | (filter, page, limit, None) =>
      match Services.GetAllPrompts s fcount ffind filter page limit with
      | (_, Some err) =>
          mkReply 500 (mkAPIResponse "error" "Internal server error" NoData "")
      | (Some result, None) =>
          mkReply 200
            (mkAPIResponse "success" "Prompts fetched successfully"
               (PageData result) "")
      | (None, None) =>
          mkReply 200
            (mkAPIResponse "success" "Prompts fetched successfully" NoData "")
      end
  end.

(** [PromptHandler.GetPromptByID]; the goroutines the service started are
    handed back with the reply. *)
Definition GetPromptByID (s : Store) (f : Fault) (c : Ctx)
  : Reply * list Goroutine :=
  match parseUintParam c "id" with
  | inr _ =>
      (mkReply 400 (mkAPIResponse "error" "" NoData "Invalid prompt ID"), [])
  | inl id =>
      match Services.GetPromptByID s f id with
      | (_, Some err, gs) =>
          (mkReply 404 (mkAPIResponse "error" "Prompt not found" NoData ""),
           gs)
      | (Some prompt, None, gs) =>
          (mkReply 200
             (mkAPIResponse "success" "Prompt fetched successfully"
                (PromptData prompt) ""), gs)
      | (None, None, gs) =>
          (mkReply 200
             (mkAPIResponse "success" "Prompt fetched successfully" NoData ""),
           gs)
      end
  end.

(** [PromptHandler.CreatePrompt]. *)
Definition CreatePrompt (s : Store) (now : Z) (f : Fault) (c : Ctx)
  : Store * Reply :=
  match BodyParser c with
  | inr err =>
      (s, mkReply 400
            (mkAPIResponse "error" "Invalid request body" NoData (Error err)))
  | inl createReq =>
      match Services.CreatePrompt s now f createReq with
      | (s', _, Some err) =>
          if Contains (Error err) "required" ||
             Contains (Error err) "invalid"
          then (s', mkReply 400 (mkAPIResponse "error" "" NoData (Error err)))
          else (s', mkReply 500
                      (mkAPIResponse "error" "" NoData
                         "Failed to create prompt"))
      | (s', Some prompt, None) =>
          (s', mkReply 201
                 (mkAPIResponse "success" "Prompt created successfully"
                    (PromptData prompt) ""))
      | (s', None, None) =>
          (s', mkReply 201
                 (mkAPIResponse "success" "Prompt created successfully"
                    NoData ""))
      end
  end.

(** [PromptHandler.DeletePrompt]. *)
Definition DeletePrompt (s : Store) (now : Z) (fexists fdelete : Fault)
  (c : Ctx) : Store * Reply :=
  match parseUintParam c "id" with
  | inr _ =>
      (s, mkReply 400 (mkAPIResponse "error" "" NoData "Invalid prompt ID"))
  | inl id =>
      match Services.DeletePrompt s now fexists fdelete id with
      | (s', Some err) =>
          if Contains (Error err) "not found"
          then (s', mkReply 404
                      (mkAPIResponse "error" "" NoData "Prompt not found"))
          else (s', mkReply 500
                      (mkAPIResponse "error" "" NoData
                         "Failed to delete prompt"))
      | (s', None) =>
          (s', mkReply 200
                 (mkAPIResponse "success" "Prompt deleted successfully"
                    NoData ""))
      end
  end.

End Handlers.

(* ================================================================== *)
(** ** The specification's reading of the operations *)

Module Spec.

Import GoStrings GoErrors Models Repositories Services.

(** The search predicate in the specification's words: the search text
    occurs, letter case ignored, in the title, in the description or in the
    problem statement. *)
Definition search_matches (search : string) (p : Prompt) : bool :=
  let needle := ToLower search in
  Contains (ToLower (Title p)) needle ||
  Contains (ToLower (Description p)) needle ||
  Contains (ToLower (ProblemStatement p)) needle.

(** The filter predicate in the specification's words: the conjunction of
    the predicates of the fields that are supplied. *)
Definition matches (f : PromptFilter) (p : Prompt) : bool :=
  (String.eqb (FLanguage f) "" || String.eqb (Language p) (FLanguage f)) &&
  (String.eqb (FDifficulty f) "" ||
   String.eqb (Difficulty p) (FDifficulty f)) &&
  (String.eqb (FCategory f) "" || String.eqb (Category p) (FCategory f)) &&
  match FIsVerified f with
  | None => true
  | Some v => Bool.eqb (IsVerified p) v
  end &&
  (String.eqb (FSearch f) "" || search_matches (FSearch f) p).

(** Rows in creation order, latest first. *)
Definition created_desc (p q : Prompt) : Prop := CreatedAt q <= CreatedAt p.

(** The page of a listing in the specification's words: at most [limit]
    rows, starting at the unbounded offset [(page - 1) * limit]. *)
Definition page_of (page limit : Z) (l : list Prompt) : list Prompt :=
  firstn (Z.to_nat limit) (skipn (Z.to_nat ((page - 1) * limit)) l).

(** [ceil(total / limit)]: the quotient, and one more when the division
    leaves a remainder. *)
Definition ceiling (total limit : Z) : Z :=
  total / limit + (if total mod limit =? 0 then 0 else 1).

(** The status the specification attaches to an error message. *)
Definition status_of_error (e : error) : Z :=
  if Contains (Error e) "required" || Contains (Error e) "invalid" then 400
  else if Contains (Error e) "not found" then 404
  else 500.

(** A live row of the table carries the id. *)
Definition present (s : Store) (id : Z) : bool :=
  existsb (fun p => ID p =? id) (live_rows s).

(** Every row of the table has an enumerated difficulty. *)
Definition difficulties_valid (s : Store) : Prop :=
  Forall (fun p => DifficultyLevel_Valid (Difficulty p) = true) (rows s).

(** The table is small enough for its row count, a 64-bit integer, to be
    rounded up to a multiple of any page size. *)
Definition countable (s : Store) : Prop :=
  Z.of_nat (List.length (rows s)) <= GoInt.MaxInt64 - 100.

(** The required fields of a create request are filled in and the title
    has at most 200 bytes. *)
Definition required_present (req : PromptCreateRequest) : Prop :=
  CTitle req <> "" /\ len (CTitle req) <= 200 /\ CDescription req <> "" /\
  CLanguage req <> "" /\ CCategory req <> "" /\ CProblemStatement req <> "".

(** Two create requests that agree on every field but the examples, the
    hints and the estimated time. *)
Definition same_but_extras (a b : PromptCreateRequest) : Prop :=
  CTitle a = CTitle b /\ CDescription a = CDescription b /\
  CLanguage a = CLanguage b /\ CDifficulty a = CDifficulty b /\
  CCategory a = CCategory b /\ CProblemStatement a = CProblemStatement b /\
  CTags a = CTags b /\ CAuthorName a = CAuthorName b /\
  CAuthorEmail a = CAuthorEmail b.

End Spec.

(* ================================================================== *)
(** ** Sample data *)

Module Samples.

Import Models Repositories Handlers.

Definition prompt (id : Z) (language title : string) : Prompt :=
  {| ID := id; CreatedAt := 1000 + id; UpdatedAt := 1000 + id;
     DeletedAt := None;
     Title := title; Description := "d"; Language := language;
     Difficulty := DifficultyBeginner; Category := "algorithms";
     ProblemStatement := "e";
     IsVerified := false; VerifiedBy := None; VerifiedAt := None;
     ViewCount := 0; LikeCount := 0; DifficultyVote := 0;
     Tags := ""; AuthorID := None; AuthorName := ""; AuthorEmail := "" |}.

Definition empty : Store := mkStore [] 1.

(** One row, titled [abc]. *)
Definition single : Store := mkStore [prompt 1 "go" "abc"] 2.

(** Sixteen rows with ids 1 to 16, created in that order; the rows whose id
    is a multiple of four are in Go, the twelve others in Python. *)
Definition gallery : Store :=
  mkStore
    (map (fun i => prompt i (if i mod 4 =? 0 then "go" else "python") "sum")
       (map Z.of_nat (seq 1 16)))
    17.

Definition no_filter : PromptFilter :=
  {| FLanguage := ""; FDifficulty := ""; FCategory := "";
     FIsVerified := None; FSearch := ""; FPage := 0; FLimit := 0 |}.

Definition by_language (language : string) : PromptFilter :=
  {| FLanguage := language; FDifficulty := ""; FCategory := "";
     FIsVerified := None; FSearch := ""; FPage := 0; FLimit := 0 |}.

Definition by_search (search : string) : PromptFilter :=
  {| FLanguage := ""; FDifficulty := ""; FCategory := "";
     FIsVerified := None; FSearch := search; FPage := 0; FLimit := 0 |}.

Definition create_request (title : string) (difficulty : DifficultyLevel)
  : PromptCreateRequest :=
  {| CTitle := title; CDescription := "d"; CLanguage := "go";
     CDifficulty := difficulty; CCategory := "algorithms";
     CProblemStatement := "e"; CExamples := ""; CHints := ""; CTags := "";
     CEstimatedTime := 0; CAuthorName := ""; CAuthorEmail := "" |}.

(** The same request with examples, hints and an estimated time. *)
Definition with_extras (req : PromptCreateRequest) : PromptCreateRequest :=
  {| CTitle := CTitle req; CDescription := CDescription req;
     CLanguage := CLanguage req; CDifficulty := CDifficulty req;
     CCategory := CCategory req;
     CProblemStatement := CProblemStatement req;
     CExamples := "f(2) = 4"; CHints := "double it"; CTags := CTags req;
     CEstimatedTime := 30; CAuthorName := CAuthorName req;
     CAuthorEmail := CAuthorEmail req |}.

(** A request for [/api/v1/prompts/:id]. *)
Definition ctx_id (id : string) : Ctx :=
  {| Params := fun k => if String.eqb k "id" then id else "";
     QueryParam := fun _ => "";
     BodyParser := inr (GoErrors.New "unexpected end of JSON input") |}.

(** A request for [/api/v1/prompts] with the query parameters [page],
    [limit] and [search]. *)
Definition ctx_query (page limit search : string) : Ctx :=
  {| Params := fun _ => "";
     QueryParam := fun k =>
       if String.eqb k "page" then page
       else if String.eqb k "limit" then limit
       else if String.eqb k "search" then search
       else "";
     BodyParser := inr (GoErrors.New "unexpected end of JSON input") |}.

(** A request that carries a body. *)
Definition ctx_body (req : PromptCreateRequest) : Ctx :=
  {| Params := fun _ => ""; QueryParam := fun _ => "";
     BodyParser := inl req |}.

Definition urgent_request : PromptRequestCreateRequest :=
  {| QRequesterName := "ada"; QRequesterEmail := "ada@example.org";
     QRequestedTitle := "tries"; QRequestedLanguage := "go";
     QRequestedDifficulty := "bogus"; QRequestedCategory := "trees";
     QDescription := "a prompt on tries"; QSpecificRequirements := "";
     QUseCase := ""; QPreferredTopics := ""; QIsUrgent := true |}.

End Samples.

(* ================================================================== *)
(** ** Intermediate values of the operations *)

Module Derived.

Import GoStrings GoErrors Models Repositories Services.

(** The filter passes the service's check of the difficulty. *)
Definition difficulty_admitted (f : PromptFilter) : bool :=
  String.eqb (FDifficulty f) "" || DifficultyLevel_Valid (FDifficulty f).

(** The record the service hands to the repository. *)
Definition defaulted (req : PromptCreateRequest) : Prompt :=
  let prompt := ToPrompt req in
  if String.eqb (Difficulty prompt) ""
  then with_Difficulty DifficultyBeginner prompt else prompt.

(** The row a creation stores. *)
Definition stored_row (s : Store) (now : Z) (req : PromptCreateRequest)
  : Prompt :=
  with_identity (next_id s) now (fst (Prompt_BeforeCreate (defaulted req))).

(** The four steps of the creation hook of a prompt request. *)
Definition default_status (pr : PromptRequest) : PromptRequest :=
  if negb (RequestStatus_Valid (Status pr))
  then with_Status StatusPending pr else pr.

Definition default_priority (pr : PromptRequest) : PromptRequest :=
  if negb (Priority_Valid (RPriority pr))
  then with_Priority PriorityNormal pr else pr.

Definition default_difficulty (pr : PromptRequest) : PromptRequest :=
  if negb (DifficultyLevel_Valid (RequestedDifficulty pr))
  then with_RequestedDifficulty DifficultyBeginner pr else pr.

Definition promote (pr : PromptRequest) : PromptRequest :=
  if IsUrgent pr && String.eqb (RPriority pr) PriorityNormal
  then with_Priority PriorityHigh pr else pr.

(** The priority of a request once the default is applied. *)
Definition coerced_priority (pr : PromptRequest) : Priority :=
  if Priority_Valid (RPriority pr) then RPriority pr else PriorityNormal.

End Derived.

(* ================================================================== *)
(** ** Users: [internal/models/user.go] *)

Module Users.

Import GoErrors.

Definition UserRole : Type := string.

Definition RoleContributor : UserRole := "contributor".
Definition RoleModerator : UserRole := "moderator".
Definition RoleAdmin : UserRole := "admin".
Definition RoleSuperAdmin : UserRole := "super_admin".

(** [UserRole.Valid]. *)
Definition UserRole_Valid (r : UserRole) : bool :=
  String.eqb r RoleContributor || String.eqb r RoleModerator ||
  String.eqb r RoleAdmin || String.eqb r RoleSuperAdmin.

(** [UserRole.CanCreatePrompts]. *)
Definition CanCreatePrompts (r : UserRole) : bool :=
  String.eqb r RoleContributor || String.eqb r RoleModerator ||
  String.eqb r RoleAdmin || String.eqb r RoleSuperAdmin.

(** [UserRole.CanVerifyPrompts]. *)
Definition CanVerifyPrompts (r : UserRole) : bool :=
  String.eqb r RoleModerator || String.eqb r RoleAdmin ||
  String.eqb r RoleSuperAdmin.

(** [UserRole.CanManageRequests]. *)
Definition CanManageRequests (r : UserRole) : bool :=
  String.eqb r RoleModerator || String.eqb r RoleAdmin ||
  String.eqb r RoleSuperAdmin.

(** [UserRole.CanManageUsers]. *)
Definition CanManageUsers (r : UserRole) : bool :=
  String.eqb r RoleAdmin || String.eqb r RoleSuperAdmin.

(** The struct [User]; the first four fields are those of the embedded
    [gorm.Model]. *)
Record User : Type := mkUser {
  UID : Z;
  UCreatedAt : Z;
  UUpdatedAt : Z;
  UDeletedAt : option Z;
  Name : string;
  Email : string;
  Username : string;
  PasswordHash : string;
  Role : UserRole;
  IsActive : bool;
  Bio : string;
  Website : string;
  Avatar : string;
  Location : string;
  Specialties : string;
  GithubUsername : string;
  TwitterUsername : string;
  LinkedinProfile : string;
  PromptsCreated : Z;
  PromptsVerified : Z;
  RequestsHandled : Z
}.

Definition with_Role (r : UserRole) (u : User) : User :=
  mkUser (UID u) (UCreatedAt u) (UUpdatedAt u) (UDeletedAt u) (Name u)
    (Email u) (Username u) (PasswordHash u) r (IsActive u) (Bio u)
    (Website u) (Avatar u) (Location u) (Specialties u) (GithubUsername u)
    (TwitterUsername u) (LinkedinProfile u) (PromptsCreated u)
    (PromptsVerified u) (RequestsHandled u).

(** [User.BeforeCreate]. *)
Definition User_BeforeCreate (u : User) : User * option error :=
  let u := if negb (UserRole_Valid (Role u))
           then with_Role RoleContributor u else u in
  (u, None).

Record UserCreateRequest : Type := mkUserCreateRequest {
  NName : string;
  NEmail : string;
  NUsername : string;
  NPassword : string;
  NRole : UserRole;
  NBio : string;
  NWebsite : string
}.

(** [UserCreateRequest.ToUser]: the fields not listed in the composite
    literal, the password hash among them, keep their zero value. *)
Definition ToUser (req : UserCreateRequest) : User :=
  {| UID := 0; UCreatedAt := 0; UUpdatedAt := 0; UDeletedAt := None;
     Name := NName req;
     Email := NEmail req;
     Username := NUsername req;
     PasswordHash := "";
     Role := NRole req;
     IsActive := false;
     Bio := NBio req;
     Website := NWebsite req;
     Avatar := ""; Location := ""; Specialties := "";
     GithubUsername := ""; TwitterUsername := ""; LinkedinProfile := "";
     PromptsCreated := 0; PromptsVerified := 0; RequestsHandled := 0 |}.

End Users.

(* ================================================================== *)
(** ** The other finders of the repository, and the service on them *)

Module Finders.

Import GoStrings GoErrors Models Repositories Services.

(** [ORDER BY view_count DESC], by insertion; rows with the same count
    keep their table order. *)
Fixpoint insert_by_views (p : Prompt) (l : list Prompt) : list Prompt :=
  match l with
  | [] => [p]
  | q :: l' =>
      if ViewCount q <=? ViewCount p then p :: l
      else q :: insert_by_views p l'
  end.

Fixpoint order_view_count_desc (l : list Prompt) : list Prompt :=
  match l with
  | [] => []
  | p :: l' => insert_by_views p (order_view_count_desc l')
  end.

(** [FindByLanguage]: on a failure the slice keeps its zero value. *)
Definition FindByLanguage (s : Store) (f : Fault) (language : string)
  (limit : Z) : list Prompt * option error :=
  match f with
  | Some err => ([], Some err)
  | None =>
      (Limit limit
         (order_created_at_desc
            (select (Where [] (LanguageEq language)) s)), None)
  end.

(** [FindPopular]. *)
Definition FindPopular (s : Store) (f : Fault) (limit : Z)
  : list Prompt * option error :=
  match f with
  | Some err => ([], Some err)
  | None => (Limit limit (order_view_count_desc (select [] s)), None)
  end.

(** [FindByDifficulty]. *)
Definition FindByDifficulty (s : Store) (f : Fault)
  (difficulty : DifficultyLevel) (limit : Z)
  : list Prompt * option error :=
  match f with
  | Some err => ([], Some err)
  | None =>
      (Limit limit
         (order_created_at_desc
            (select (Where [] (DifficultyEq difficulty)) s)), None)
  end.

(** [PromptService.GetPopularPrompts]. *)
Definition GetPopularPrompts (s : Store) (f : Fault) (limit : Z)
  : list PromptResponse * option error :=
  let limit := if (limit <? 1) || (50 <? limit) then 10 else limit in
  match FindPopular s f limit with
  | (_, Some err) =>
      ([], Some (Errorf "failed to fetch popular prompts: " err))
  | (prompts, None) => (map transformToResponse prompts, None)
  end.

End Finders.

(* ================================================================== *)
(** ** Configuration: [internal/config] *)

Module Config.

(** The environment of the process: an unset variable reads as the empty
    text. *)
Definition Environ : Type := string -> string.

Record Config : Type := mkConfig {
  Port : string;
  DatabaseURL : string;
  Environment : string
}.

(** [getEnv]. *)
Definition getEnv (env : Environ) (key defaultValue : string) : string :=
  let value := env key in
  if negb (String.eqb value "") then value else defaultValue.

(** [LoadConfig]; [loaded] tells whether the [.env] file could be loaded
    and [env] is the environment once it is.  [log.Fatal] ends the process
    with its message, given on the right. *)
Definition LoadConfig (loaded : bool) (env : Environ) : Config + string :=
  if negb loaded then inr "Error loading .env file"
  else
    let config :=
      {| Port := getEnv env "PORT" "8080";
         DatabaseURL := getEnv env "DATABASE_URL" "";
         Environment := getEnv env "ENVIRONMENT" "development" |} in
    if String.eqb (DatabaseURL config) "" then inr "DATABASE_URL is not set"
    else inl config.

End Config.

(* ================================================================== *)
(** ** Well-formed tables and further sample data *)

Module Tables.

Import GoStrings GoErrors Models Repositories Services Handlers.

(** The ids of the rows are positive, below the next value of the sequence
    and pairwise different. *)
Definition well_formed (s : Store) : Prop :=
  0 < next_id s /\
  Forall (fun p => 0 < ID p < next_id s) (rows s) /\
  NoDup (map ID (rows s)).

(** The view-count update of [IncrementViewCount] on one row. *)
Definition bump (id : Z) (p : Prompt) : Prompt :=
  if live p && (ID p =? id) then with_ViewCount (ViewCount p + 1) p else p.

(** The goroutines started by [n] successful fetches of [id], run to their
    end one after the other. *)
Fixpoint run_all (s : Store) (id : Z) (n : nat) : Store :=
  match n with
  | O => s
  | S n' => run_all (run s None (GoIncrementViewCount id)) id n'
  end.

(** Rows by view count, most viewed first. *)
Definition views_desc (p q : Prompt) : Prop := ViewCount q <= ViewCount p.

(** The limit [GetPopularPrompts] applies. *)
Definition popular_limit (limit : Z) : Z :=
  if (limit <? 1) || (50 <? limit) then 10 else limit.

(** A title of 201 bytes. *)
Definition long_title : string :=
  string_of_list_ascii (repeat "a"%char 201).

(** The number a text of decimal digits writes: every digit counts for its
    place. *)
Fixpoint place_value (str : string) : Z :=
  match str with
  | EmptyString => 0
  | String c str' =>
      (Z.of_N (N_of_ascii c) - 48) * 10 ^ Z.of_nat (String.length str') +
      place_value str'
  end.

(** A text made of decimal digits only. *)
Definition all_digits (str : string) : bool :=
  forallb (fun c => match digit c with Some _ => true | None => false end)
    (list_ascii_of_string str).

(** The texts [strconv.ParseBool] accepts. *)
Definition bool_literal (str : string) : bool :=
  existsb (String.eqb str)
    ["1"; "t"; "T"; "TRUE"; "true"; "True";
     "0"; "f"; "F"; "FALSE"; "false"; "False"].

(** Two requests agree on the query parameters the listing reads. *)
Definition same_listing_query (c c' : Ctx) : Prop :=
  QueryParam c "language" = QueryParam c' "language" /\
  QueryParam c "category" = QueryParam c' "category" /\
  QueryParam c "search" = QueryParam c' "search" /\
  QueryParam c "is_verified" = QueryParam c' "is_verified" /\
  QueryParam c "page" = QueryParam c' "page" /\
  QueryParam c "limit" = QueryParam c' "limit".

(** A listing request with a [difficulty] parameter. *)
Definition ctx_difficulty (difficulty : string) : Ctx :=
  {| Params := fun _ => "";
     QueryParam := fun k =>
       if String.eqb k "difficulty" then difficulty else "";
     BodyParser := inr (GoErrors.New "unexpected end of JSON input") |}.

(** A listing request with an [is_verified] parameter. *)
Definition ctx_verified (verified : string) : Ctx :=
  {| Params := fun _ => "";
     QueryParam := fun k =>
       if String.eqb k "is_verified" then verified else "";
     BodyParser := inr (GoErrors.New "unexpected end of JSON input") |}.

(** A table whose rows have been viewed. *)
Definition viewed : Store :=
  mkStore
    (map (fun i => with_ViewCount (i mod 5) (Samples.prompt i "go" "sum"))
       (map Z.of_nat (seq 1 8)))
    9.

Definition environ (url : string) : Config.Environ :=
  fun k => if String.eqb k "DATABASE_URL" then url else "".

Definition user_request (password : string) (role : Users.UserRole)
  : Users.UserCreateRequest :=
  {| Users.NName := "ada"; Users.NEmail := "ada@example.org";
     Users.NUsername := "ada"; Users.NPassword := password;
     Users.NRole := role; Users.NBio := ""; Users.NWebsite := "" |}.

End Tables.

(* ================================================================== *)
(** * Properties *)

(** ** Text *)

Module StringFacts.

Import GoStrings.

Lemma HasPrefix_spec (s t : string) :
  HasPrefix s t = true <-> exists post, s = t ++ post.
Proof.
  revert s; induction t as [|p t IH]; intros s; simpl.
  - split; [intros _; now exists s | reflexivity].
  - destruct s as [|c s]; simpl.
    + split; [discriminate | intros [post H]; discriminate].
    + rewrite andb_true_iff, Ascii.eqb_eq, IH. split.
      * intros [-> [post ->]]. now exists post.
      * intros [post H]. injection H as -> ->. split; [reflexivity|now exists post].
Qed.

Lemma Contains_spec (s t : string) :
  Contains s t = true <-> exists pre post, s = pre ++ t ++ post.
Proof.
  induction s as [|c s IH]; simpl.
  - rewrite orb_false_r, HasPrefix_spec. split.
    + intros [post H]. now exists "", post.
    + intros [pre [post H]]. destruct pre; simpl in H; [now exists post | discriminate].
  - rewrite orb_true_iff, IH. split.
    + intros [H | [pre [post ->]]].
      * apply (HasPrefix_spec (String c s)) in H. destruct H as [post H].
        now exists "", post.
      * now exists (String c pre), post.
    + intros [pre [post H]]. destruct pre as [|d pre]; simpl in H.
      * left. apply (HasPrefix_spec (String c s)). now exists post.
      * right. injection H as _ ->. now exists pre, post.
Qed.

Lemma RuneCount_le_length (s : string) :
  (RuneCount s <= String.length s)%nat.
Proof.
  induction s as [|c s IH]; simpl; [lia|].
  destruct (starts_rune c); lia.
Qed.

Lemma lower_byte_plain (c : ascii) :
  Sql.plain (lower_byte c) = Sql.plain c.
Proof.
  destruct c as [[] [] [] [] [] [] [] []]; reflexivity.
Qed.

Lemma literal_ToLower (s : string) :
  Sql.literal (ToLower s) = Sql.literal s.
Proof.
  induction s as [|c s IH]; simpl; [reflexivity|].
  now rewrite lower_byte_plain, IH.
Qed.

Lemma like_any (pattern text : string) :
  Sql.like (String "%" pattern) text =
  Sql.like pattern text ||
  match text with
  | EmptyString => false
  | String _ text' => Sql.like (String "%" pattern) text'
  end.
Proof. destruct text; reflexivity. Qed.

Lemma like_any_end (text : string) : Sql.like "%" text = true.
Proof.
  induction text as [|c text IH]; [reflexivity|].
  rewrite like_any, IH. apply orb_true_r.
Qed.

Lemma like_plain (c : ascii) (pattern text : string) :
  Sql.plain c = true ->
  Sql.like (String c pattern) text =
  match text with
  | EmptyString => false
  | String d text' => Ascii.eqb d c && Sql.like pattern text'
  end.
Proof.
  unfold Sql.plain. intros H. apply negb_true_iff in H.
  apply orb_false_iff in H as [H H3]. apply orb_false_iff in H as [H1 H2].
  simpl. rewrite H1, H2, H3. reflexivity.
Qed.

(** A pattern made of a literal text followed by [%] matches the texts
    that start with it. *)
Lemma like_literal_prefix (t text : string) :
  Sql.literal t = true -> Sql.like (t ++ "%") text = HasPrefix text t.
Proof.
  revert text; induction t as [|c t IH]; intros text H.
  - apply like_any_end.
  - simpl in H. apply andb_true_iff in H as [Hc Ht].
    change (String c t ++ "%") with (String c (t ++ "%")).
    rewrite like_plain by assumption.
    destruct text as [|d text]; simpl; [reflexivity|].
    now rewrite IH.
Qed.

(** A literal text between two [%] matches the texts it occurs in. *)
Lemma like_literal_substring (t text : string) :
  Sql.literal t = true ->
  Sql.like ("%" ++ t ++ "%") text = Contains text t.
Proof.
  intros H. change ("%" ++ t ++ "%") with (String "%" (t ++ "%")).
  induction text as [|c text IH].
  - rewrite like_any, like_literal_prefix by assumption. reflexivity.
  - rewrite like_any, like_literal_prefix by assumption.
    simpl Contains. now rewrite IH.
Qed.

End StringFacts.

(** ** Integers *)

Module IntFacts.

Lemma wrap_small (z : Z) : GoInt.in_range z -> GoInt.wrap z = z.
Proof.
  unfold GoInt.in_range, GoInt.MinInt64, GoInt.MaxInt64, GoInt.wrap.
  intros H. rewrite Z.mod_small; lia.
Qed.

Lemma wrap_in_range (z : Z) : GoInt.in_range (GoInt.wrap z).
Proof.
  unfold GoInt.in_range, GoInt.MinInt64, GoInt.MaxInt64, GoInt.wrap.
  pose proof (Z.mod_pos_bound (z + 2 ^ 63) (2 ^ 64)). lia.
Qed.

End IntFacts.

(** ** The repository *)

Module RepositoryFacts.

Import GoStrings GoErrors Models Repositories StringFacts.

Lemma holds_Where (q : Query) (c : Cond) (p : Prompt) :
  holds (Where q c) p = holds q p && eval_cond c p.
Proof.
  unfold holds, Where. rewrite forallb_app. simpl. now rewrite andb_true_r.
Qed.

Lemma eval_SearchLike (search : string) (p : Prompt) :
  Sql.literal search = true ->
  eval_cond (SearchLike ("%" ++ ToLower search ++ "%")) p =
  Spec.search_matches search p.
Proof.
  intros H. unfold eval_cond, Spec.search_matches.
  now rewrite !like_literal_substring by (now rewrite literal_ToLower).
Qed.

(** The query built from a filter whose search text has no pattern
    character selects by the specification's predicate. *)
Lemma holds_applyFilters (q : Query) (f : PromptFilter) (p : Prompt) :
  Sql.literal (FSearch f) = true ->
  holds (applyFilters q f) p = holds q p && Spec.matches f p.
Proof.
  intros H. unfold applyFilters, Spec.matches.
  destruct (String.eqb (FLanguage f) ""), (String.eqb (FDifficulty f) ""),
    (String.eqb (FCategory f) ""), (FIsVerified f),
    (String.eqb (FSearch f) "");
    cbn [negb orb];
    rewrite ?holds_Where, ?eval_SearchLike by assumption;
    cbn [eval_cond];
    repeat (rewrite andb_true_r || rewrite andb_true_l || rewrite andb_assoc);
    reflexivity.
Qed.

Lemma select_matches (f : PromptFilter) (s : Store) :
  Sql.literal (FSearch f) = true ->
  select (applyFilters [] f) s = filter (Spec.matches f) (live_rows s).
Proof.
  intros H. unfold select. apply filter_ext. intros p.
  now rewrite holds_applyFilters.
Qed.

(** *** Ordering *)

Lemma insert_desc_perm (p : Prompt) (l : list Prompt) :
  Permutation (insert_desc p l) (p :: l).
Proof.
  induction l as [|q l IH]; simpl; [apply Permutation_refl|].
  destruct (CreatedAt q <? CreatedAt p); [apply Permutation_refl|].
  eapply perm_trans; [apply perm_skip, IH | apply perm_swap].
Qed.

Lemma order_perm (l : list Prompt) :
  Permutation (order_created_at_desc l) l.
Proof.
  induction l as [|p l IH]; simpl; [constructor|].
  eapply perm_trans; [apply insert_desc_perm | now apply perm_skip].
Qed.

Lemma insert_desc_HdRel (a p : Prompt) (l : list Prompt) :
  Spec.created_desc a p -> HdRel Spec.created_desc a l ->
  HdRel Spec.created_desc a (insert_desc p l).
Proof.
  intros Hap Hal. destruct l as [|q l]; simpl; [now constructor|].
  destruct (CreatedAt q <? CreatedAt p); constructor;
    [assumption | now inversion Hal].
Qed.

Lemma insert_desc_sorted (p : Prompt) (l : list Prompt) :
  Sorted Spec.created_desc l -> Sorted Spec.created_desc (insert_desc p l).
Proof.
  induction l as [|q l IH]; intros Hs; simpl.
  - repeat constructor.
  - inversion Hs as [|? ? Hl Hq]; subst.
    destruct (CreatedAt q <? CreatedAt p) eqn:E.
    + constructor; [assumption|]. constructor.
      unfold Spec.created_desc. apply Z.ltb_lt in E. lia.
    + constructor; [now apply IH|].
      apply insert_desc_HdRel; [|assumption].
      unfold Spec.created_desc. apply Z.ltb_ge in E. lia.
Qed.

Lemma order_sorted (l : list Prompt) :
  Sorted Spec.created_desc (order_created_at_desc l).
Proof.
  induction l as [|p l IH]; simpl; [constructor|].
  now apply insert_desc_sorted.
Qed.

(** *** Windows *)

Lemma In_firstn {A : Type} (n : nat) (l : list A) (x : A) :
  In x (firstn n l) -> In x l.
Proof.
  intros H. rewrite <- (firstn_skipn n l). apply in_or_app. now left.
Qed.

Lemma In_skipn {A : Type} (n : nat) (l : list A) (x : A) :
  In x (skipn n l) -> In x l.
Proof.
  intros H. rewrite <- (firstn_skipn n l). apply in_or_app. now right.
Qed.

Lemma In_Limit_Offset (n m : Z) (l : list Prompt) (p : Prompt) :
  In p (Limit n (Offset m l)) -> In p l.
Proof.
  unfold Limit, Offset. intros H.
  destruct (n <? 0); [|apply In_firstn in H];
    (destruct (0 <? m); [now apply In_skipn in H | assumption]).
Qed.

Lemma Limit_Offset_window (page limit : Z) (l : list Prompt) :
  1 <= page -> 1 <= limit ->
  Limit limit (Offset ((page - 1) * limit) l) = Spec.page_of page limit l.
Proof.
  intros Hp Hl. unfold Limit, Offset, Spec.page_of.
  destruct (limit <? 0) eqn:E; [apply Z.ltb_lt in E; lia|].
  destruct (0 <? (page - 1) * limit) eqn:E'; [reflexivity|].
  apply Z.ltb_ge in E'. assert ((page - 1) * limit = 0) as -> by nia.
  reflexivity.
Qed.

(** *** [FindAll] *)

Lemma FindAll_ok (s : Store) (f : PromptFilter) (page limit : Z) :
  FindAll s None None f page limit =
  (Limit limit
     (Offset (GoInt.mul (GoInt.sub page 1) limit)
        (order_created_at_desc (select (applyFilters [] f) s))),
   Z.of_nat (List.length (select (applyFilters [] f) s)), None).
Proof. reflexivity. Qed.

(** With a search text free of pattern characters, [FindAll] counts the
    live rows that satisfy the specification's predicate, and returns a
    window of those rows, latest first. *)
Lemma FindAll_literal_search (s : Store) (f : PromptFilter)
  (page limit : Z) :
  Sql.literal (FSearch f) = true ->
  exists sorted,
    Permutation sorted (filter (Spec.matches f) (live_rows s)) /\
    Sorted Spec.created_desc sorted /\
    FindAll s None None f page limit =
    (Limit limit (Offset (GoInt.mul (GoInt.sub page 1) limit) sorted),
     Z.of_nat (List.length (filter (Spec.matches f) (live_rows s))), None).
Proof.
  intros H. exists (order_created_at_desc (select (applyFilters [] f) s)).
  rewrite FindAll_ok, <- select_matches by assumption.
  split; [apply order_perm | split; [apply order_sorted | reflexivity]].
Qed.

Lemma FindAll_rows_match (s : Store) (f : PromptFilter) (page limit : Z)
  (prompts : list Prompt) (total : Z) (p : Prompt) :
  Sql.literal (FSearch f) = true ->
  FindAll s None None f page limit = (prompts, total, None) ->
  In p prompts ->
  In p (rows s) /\ live p = true /\ Spec.matches f p = true.
Proof.
  intros H HF Hin. rewrite FindAll_ok in HF. injection HF as <- _.
  apply In_Limit_Offset in Hin.
  apply (Permutation_in _ (order_perm _)) in Hin.
  rewrite select_matches in Hin by assumption.
  apply filter_In in Hin as [Hin Hm]. unfold live_rows in Hin.
  apply filter_In in Hin as [Hin Hl]. auto.
Qed.

End RepositoryFacts.

(** ** Listing *)

Module ListingFacts.

Import GoStrings GoErrors Models Repositories Services Derived.
Import StringFacts IntFacts RepositoryFacts.

Lemma applied_page_ge (page : Z) : 1 <= applied_page page.
Proof. unfold applied_page. destruct (page <? 1) eqn:E; lia. Qed.

Lemma applied_limit_bounds (limit : Z) : 1 <= applied_limit limit <= 100.
Proof.
  unfold applied_limit.
  destruct (limit <? 1) eqn:E1, (100 <? limit) eqn:E2; simpl; lia.
Qed.

Lemma GetAllPrompts_ok (s : Store) (f : PromptFilter) (page limit : Z) :
  difficulty_admitted f = true ->
  GetAllPrompts s None None f page limit =
  (Some
     {| Data :=
          map transformToResponse
            (Limit (applied_limit limit)
               (Offset
                  (GoInt.mul (GoInt.sub (applied_page page) 1)
                     (applied_limit limit))
                  (order_created_at_desc (select (applyFilters [] f) s))));
        Total := Z.of_nat (List.length (select (applyFilters [] f) s));
        Page := applied_page page;
        PLimit := applied_limit limit;
        TotalPages :=
          GoInt.div
            (GoInt.sub
               (GoInt.add
                  (Z.of_nat (List.length (select (applyFilters [] f) s)))
                  (applied_limit limit)) 1)
            (applied_limit limit) |}, None).
Proof.
  unfold difficulty_admitted, GetAllPrompts. intros H.
  destruct (String.eqb (FDifficulty f) ""); simpl in H;
    [|rewrite H]; reflexivity.
Qed.

(** A listing that succeeds was carried out by the store and passed the
    difficulty check. *)
Lemma GetAllPrompts_success (s : Store) (fcount ffind : Fault)
  (f : PromptFilter) (page limit : Z) (r : PaginationPromptResponse) :
  GetAllPrompts s fcount ffind f page limit = (Some r, None) ->
  fcount = None /\ ffind = None /\ difficulty_admitted f = true.
Proof.
  unfold GetAllPrompts, difficulty_admitted, FindAll.
  destruct (String.eqb (FDifficulty f) ""); simpl.
  - destruct fcount, ffind; intros H; try discriminate. auto.
  - destruct (DifficultyLevel_Valid (FDifficulty f)); simpl;
      [|discriminate].
    destruct fcount, ffind; intros H; try discriminate. auto.
Qed.

Lemma select_length_le (q : Query) (s : Store) :
  (List.length (select q s) <= List.length (rows s))%nat.
Proof.
  unfold select, live_rows.
  etransitivity; apply filter_length_le.
Qed.

(** Rounding up: the page count computed by the service. *)
Lemma total_pages_bounds (total limit : Z) :
  0 <= total <= GoInt.MaxInt64 - 100 -> 1 <= limit <= 100 ->
  let pages := GoInt.div (GoInt.sub (GoInt.add total limit) 1) limit in
  total <= pages * limit < total + limit.
Proof.
  unfold GoInt.div, GoInt.sub, GoInt.add, GoInt.MaxInt64. intros Ht Hl.
  assert (R : forall z, 0 <= z <= 2 ^ 63 - 1 -> GoInt.wrap z = z).
  { intros z Hz. apply wrap_small.
    unfold GoInt.in_range, GoInt.MinInt64, GoInt.MaxInt64. lia. }
  rewrite (R (total + limit)) by lia.
  rewrite (R (total + limit - 1)) by lia.
  rewrite Z.quot_div_nonneg by lia.
  pose proof (Z.div_mod (total + limit - 1) limit ltac:(lia)) as D.
  pose proof (Z.mod_pos_bound (total + limit - 1) limit ltac:(lia)) as M.
  assert (0 <= (total + limit - 1) / limit <= total + limit - 1).
  { split; [apply Z.div_pos; lia|]. apply Z.div_le_upper_bound; nia. }
  rewrite R by lia. cbv zeta. nia.
Qed.

Lemma ceiling_unique (total limit n : Z) :
  1 <= limit -> total <= n * limit < total + limit ->
  n = Spec.ceiling total limit.
Proof.
  intros Hl Hn. unfold Spec.ceiling.
  pose proof (Z.div_mod total limit ltac:(lia)) as D.
  pose proof (Z.mod_pos_bound total limit ltac:(lia)) as M.
  destruct (Z.eqb_spec (total mod limit) 0); nia.
Qed.

(** Within the range of [int], the service returns the window the
    specification describes. *)
Lemma GetAllPrompts_window (s : Store) (f : PromptFilter) (page limit : Z) :
  Sql.literal (FSearch f) = true ->
  difficulty_admitted f = true ->
  (applied_page page - 1) * applied_limit limit <= GoInt.MaxInt64 ->
  exists sorted r,
    Permutation sorted (filter (Spec.matches f) (live_rows s)) /\
    Sorted Spec.created_desc sorted /\
    GetAllPrompts s None None f page limit = (Some r, None) /\
    Page r = applied_page page /\
    PLimit r = applied_limit limit /\
    Total r =
      Z.of_nat (List.length (filter (Spec.matches f) (live_rows s))) /\
    Data r =
      map transformToResponse
        (Spec.page_of (applied_page page) (applied_limit limit) sorted) /\
    (List.length (Data r) <= Z.to_nat (applied_limit limit))%nat.
Proof.
  intros Hlit Hd Hr.
  pose proof (applied_page_ge page) as Hp.
  pose proof (applied_limit_bounds limit) as Hl.
  exists (order_created_at_desc (select (applyFilters [] f) s)).
  eexists. rewrite GetAllPrompts_ok by assumption.
  rewrite <- select_matches by assumption.
  split; [apply order_perm|]. split; [apply order_sorted|].
  split; [reflexivity|]. cbn [Page PLimit Total Data].
  repeat split.
  - f_equal. unfold GoInt.sub, GoInt.mul.
    rewrite (wrap_small (applied_page page - 1)), wrap_small.
    + now apply Limit_Offset_window.
    + unfold GoInt.in_range, GoInt.MinInt64. nia.
    + unfold GoInt.in_range, GoInt.MinInt64, GoInt.MaxInt64 in *. nia.
  - rewrite length_map. unfold Limit.
    destruct (applied_limit limit <? 0) eqn:E;
      [apply Z.ltb_lt in E; lia | apply firstn_le_length].
Qed.

End ListingFacts.

(** ** Claims on the listing of prompts *)

Module PromptListing.

Import GoStrings GoErrors Models Repositories Services Derived.
Import StringFacts IntFacts RepositoryFacts ListingFacts.

(** C1, evaluated where the code leaves the claim: the search text [_] is
    handed to [LIKE] unescaped, where it stands for any one character.  The
    row titled [abc], whose title, description and problem statement hold no
    underscore, is selected, counted and listed, although the search text
    occurs in none of the three fields. *)
Theorem search_underscore_selects_any_text :
  let f := Samples.by_search "_" in
  let p := Samples.prompt 1 "go" "abc" in
  applyFilters [] f = [SearchLike "%_%"] /\
  FindAll Samples.single None None f 1 10 = ([p], 1, None) /\
  fst (GetAllPrompts Samples.single None None f 1 10) =
    Some {| Data := [transformToResponse p]; Total := 1; Page := 1;
            PLimit := 10; TotalPages := 1 |} /\
  Spec.search_matches "_" p = false /\
  Spec.matches f p = false.
Proof. repeat split. Qed.

(** C2, evaluated where the code leaves the claim: for page [2^62 + 2] and
    limit [4], both accepted by the handler, the product [(page - 1) * limit]
    exceeds the range of [int] and wraps around to [4].  Of sixteen rows the
    listing returns the fifth to the eighth, while the window that starts at
    offset [(page - 1) * limit] is empty. *)
Theorem page_offset_wraps_around :
  let page := 2 ^ 62 + 2 in
  let limit := 4 in
  let c := Samples.ctx_query "4611686018427387906" "4" "" in
  let sorted := order_created_at_desc (live_rows Samples.gallery) in
  Handlers.parsePromptQuery c = (Samples.no_filter, page, limit, None) /\
  GoInt.mul (GoInt.sub (applied_page page) 1) (applied_limit limit) = 4 /\
  (exists r,
     GetAllPrompts Samples.gallery None None Samples.no_filter page limit =
       (Some r, None) /\
     Handlers.StatusCode (Handlers.GetPrompts Samples.gallery None None c) =
       200 /\
     Handlers.AData
       (Handlers.Body (Handlers.GetPrompts Samples.gallery None None c)) =
       Handlers.PageData r /\
     Page r = page /\ PLimit r = limit /\ Total r = 16 /\
     map PID (Data r) = [12; 11; 10; 9]) /\
  List.length sorted = 16%nat /\
  Spec.page_of (applied_page page) (applied_limit limit) sorted = [].
Proof.
  cbv zeta. split; [reflexivity|]. split; [reflexivity|].
  split; [eexists; repeat split|].
  split; [reflexivity|].
  unfold Spec.page_of. rewrite skipn_all2; [reflexivity|].
  change (List.length (order_created_at_desc (live_rows Samples.gallery)))
    with 16%nat.
  change (applied_page (2 ^ 62 + 2)) with (2 ^ 62 + 2).
  change (applied_limit 4) with 4. lia.
Qed.

(** C3: on every successful listing the page count is the count of the
    matching rows divided by the applied limit, rounded up; it is the one
    integer [n] with [total <= n * limit < total + limit].  A listing with
    page 2 and limit 5 over twelve matching rows returns three as page count
    and five rows, the sixth to the tenth of the matching rows taken latest
    first. *)
Theorem total_pages_is_ceiling (s : Store) (fcount ffind : Fault)
  (f : PromptFilter) (page limit : Z) (r : PaginationPromptResponse) :
  Spec.countable s ->
  GetAllPrompts s fcount ffind f page limit = (Some r, None) ->
  PLimit r = applied_limit limit /\ 1 <= PLimit r /\
  Total r = Z.of_nat (List.length (select (applyFilters [] f) s)) /\
  TotalPages r = Spec.ceiling (Total r) (PLimit r) /\
  Total r <= TotalPages r * PLimit r < Total r + PLimit r /\
  (page = 2 -> limit = 5 -> Total r = 12 ->
   TotalPages r = 3 /\ List.length (Data r) = 5%nat /\
   exists sorted,
     Permutation sorted (select (applyFilters [] f) s) /\
     Sorted Spec.created_desc sorted /\
     Data r = map transformToResponse (firstn 5 (skipn 5 sorted))).
Proof.
  intros Hc H.
  destruct (GetAllPrompts_success _ _ _ _ _ _ _ H) as (-> & -> & Hd).
  rewrite GetAllPrompts_ok in H by assumption. injection H as <-.
  cbn [PLimit Total TotalPages Data].
  pose proof (applied_limit_bounds limit) as Hl.
  pose proof (select_length_le (applyFilters [] f) s) as Hn.
  unfold Spec.countable in Hc.
  split; [reflexivity|]. split; [lia|]. split; [reflexivity|].
  assert (HB := total_pages_bounds
                  (Z.of_nat (List.length (select (applyFilters [] f) s)))
                  (applied_limit limit) ltac:(lia) Hl).
  cbv zeta in HB.
  split; [apply ceiling_unique; [lia | exact HB]|].
  split; [exact HB|].
  intros -> -> H12.
  change (applied_limit 5) with 5. change (applied_page 2) with 2.
  rewrite H12.
  change (GoInt.div (GoInt.sub (GoInt.add 12 5) 1) 5) with 3.
  change (GoInt.mul (GoInt.sub 2 1) 5) with 5.
  change (Limit 5 (Offset 5 ?l)) with (firstn 5 (skipn 5 l)).
  split; [reflexivity|]. split.
  - rewrite length_map, length_firstn, length_skipn.
    rewrite (Permutation_length (order_perm _)). lia.
  - eexists. split; [apply order_perm|].
    split; [apply order_sorted | reflexivity].
Qed.

Lemma total_pages_is_ceiling_witness :
  exists r,
    GetAllPrompts Samples.gallery None None (Samples.by_language "python")
      2 5 = (Some r, None) /\
    TotalPages r = 3 /\ map PID (Data r) = [9; 7; 6; 5; 3].
Proof.
  assert (H : exists r,
    GetAllPrompts Samples.gallery None None (Samples.by_language "python")
      2 5 = (Some r, None) /\ Total r = 12 /\
    map PID (Data r) = [9; 7; 6; 5; 3]).
  { eexists. repeat split. }
  destruct H as (r & H & H12 & Hids). exists r.
  split; [assumption|]. split; [|assumption].
  assert (Hc : Spec.countable Samples.gallery).
  { unfold Spec.countable. vm_compute. discriminate. }
  exact (proj1 (proj2 (proj2 (proj2 (proj2 (proj2
    (total_pages_is_ceiling _ _ _ _ _ _ r Hc H))))) eq_refl eq_refl H12)).
Defined.

End PromptListing.

(** ** Deletion *)

Module DeletionFacts.

Import GoStrings GoErrors Models Repositories Services.

Lemma existsb_filter_length {A : Type} (g : A -> bool) (l : list A) :
  Nat.ltb 0 (List.length (filter g l)) = existsb g l.
Proof.
  induction l as [|x l IH]; simpl; [reflexivity|].
  destruct (g x); simpl; [reflexivity | exact IH].
Qed.

Lemma affected_present (s : Store) (id : Z) :
  Nat.ltb 0 (affected s id) = Spec.present s id.
Proof. apply existsb_filter_length. Qed.

Lemma find_existsb {A : Type} (g : A -> bool) (l : list A) :
  existsb g l = false -> find g l = None.
Proof.
  induction l as [|x l IH]; simpl; [reflexivity|].
  destruct (g x); simpl; [discriminate | exact IH].
Qed.

Lemma mark_deleted_Difficulty (now id : Z) (p : Prompt) :
  Difficulty (mark_deleted now id p) = Difficulty p.
Proof. unfold mark_deleted. now destruct (live p && (ID p =? id)). Qed.

Lemma mark_deleted_keep (now id : Z) (p : Prompt) :
  (ID p =? id) = false -> mark_deleted now id p = p.
Proof. unfold mark_deleted. intros ->. now rewrite andb_false_r. Qed.

Lemma live_mark_deleted_row (now id : Z) (p : Prompt) :
  live (mark_deleted now id p) = live p && negb (ID p =? id).
Proof.
  unfold mark_deleted.
  destruct (live p) eqn:Hl, (ID p =? id); simpl; try reflexivity; exact Hl.
Qed.

(** After the soft-deleting update, the live rows are the former live rows
    with another id. *)
Lemma live_mark_deleted (now id : Z) (l : list Prompt) :
  filter live (map (mark_deleted now id) l) =
  filter (fun p => negb (ID p =? id)) (filter live l).
Proof.
  induction l as [|p l IH]; simpl; [reflexivity|].
  rewrite live_mark_deleted_row.
  destruct (live p) eqn:Hl; simpl; [|exact IH].
  destruct (ID p =? id) eqn:Hi; simpl; [exact IH|].
  now rewrite IH, mark_deleted_keep.
Qed.

Lemma present_after_delete (now id : Z) (s : Store) :
  Spec.present (mkStore (map (mark_deleted now id) (rows s)) (next_id s)) id
  = false.
Proof.
  unfold Spec.present, live_rows. simpl. rewrite live_mark_deleted.
  induction (filter live (rows s)) as [|p l IH]; simpl; [reflexivity|].
  destruct (ID p =? id) eqn:Hi; simpl; [exact IH | now rewrite Hi].
Qed.

(** The rows with another id are left as they were. *)
Lemma mark_deleted_other (now id : Z) (p : Prompt) :
  ID p <> id -> mark_deleted now id p = p.
Proof.
  intros H. apply mark_deleted_keep. now apply Z.eqb_neq.
Qed.

Lemma FindByID_absent (s : Store) (id : Z) :
  Spec.present s id = false ->
  FindByID s None id = (None, Some (New "prompt not found")).
Proof.
  unfold Spec.present, FindByID. intros H.
  now rewrite (find_existsb _ _ H).
Qed.

Lemma DeletePrompt_deletes (s : Store) (now id : Z) :
  id <> 0 -> Spec.present s id = true ->
  DeletePrompt s now None None id =
  (mkStore (map (mark_deleted now id) (rows s)) (next_id s), None).
Proof.
  intros H0 Hp. unfold DeletePrompt, Exists, Delete.
  destruct (Z.eqb_spec id 0); [contradiction|].
  rewrite affected_present, Hp.
  pose proof (affected_present s id) as Ha. rewrite Hp in Ha.
  destruct (affected s id); [discriminate | reflexivity].
Qed.

Lemma DeletePrompt_rows (s : Store) (now : Z) (fexists fdelete : Fault)
  (id : Z) :
  rows (fst (DeletePrompt s now fexists fdelete id)) = rows s \/
  rows (fst (DeletePrompt s now fexists fdelete id)) =
    map (mark_deleted now id) (rows s).
Proof.
  unfold DeletePrompt, Exists, Delete.
  destruct (id =? 0); [now left|].
  destruct fexists; [now left|].
  destruct (Nat.ltb 0 (affected s id)); [|now left].
  destruct fdelete; [now left|].
  destruct (Nat.eqb (affected s id) 0); now right.
Qed.

Lemma DeletePrompt_difficulties (s : Store) (now : Z)
  (fexists fdelete : Fault) (id : Z) :
  Spec.difficulties_valid s ->
  Spec.difficulties_valid (fst (DeletePrompt s now fexists fdelete id)).
Proof.
  unfold Spec.difficulties_valid. intros H.
  destruct (DeletePrompt_rows s now fexists fdelete id) as [-> | ->];
    [assumption|].
  apply Forall_map. eapply Forall_impl; [|exact H].
  intros p Hp. now rewrite mark_deleted_Difficulty.
Qed.

Lemma run_difficulties (s : Store) (f : Fault) (g : Goroutine) :
  Spec.difficulties_valid s -> Spec.difficulties_valid (run s f g).
Proof.
  unfold Spec.difficulties_valid. intros H. destruct g as [id].
  unfold run, IncrementViewCount. destruct f; [assumption|]. simpl.
  apply Forall_map. eapply Forall_impl; [|exact H].
  intros p Hp. now destruct (live p && (ID p =? id)).
Qed.

End DeletionFacts.

(** ** Claims on the creation of prompts *)

Module PromptCreation.

Import GoStrings GoErrors Models Repositories Services Derived.
Import StringFacts DeletionFacts.

(** The tests of the validation, in program order. *)
Ltac required_tests req :=
  unfold validateCreateRequest;
  destruct (String.eqb_spec (CTitle req) ""); [now eexists|];
  destruct (Z.ltb_spec 200 (len (CTitle req))); [now eexists|];
  destruct (String.eqb_spec (CDescription req) ""); [now eexists|];
  destruct (String.eqb_spec (CLanguage req) ""); [now eexists|];
  destruct (String.eqb_spec (CCategory req) ""); [now eexists|];
  destruct (String.eqb_spec (CProblemStatement req) ""); [now eexists|].

Lemma CreatePrompt_rejected (s : Store) (now : Z) (f : Fault)
  (req : PromptCreateRequest) (e : error) :
  validateCreateRequest req = Some e ->
  CreatePrompt s now f req = (s, None, Some e).
Proof. unfold CreatePrompt. now intros ->. Qed.

Lemma CreatePrompt_stored (s : Store) (now : Z)
  (req : PromptCreateRequest) :
  validateCreateRequest req = None ->
  CreatePrompt s now None req =
  (mkStore (rows s ++ [stored_row s now req]) (next_id s + 1),
   Some (transformToResponse (stored_row s now req)), None).
Proof. unfold CreatePrompt. now intros ->. Qed.

Lemma CreatePrompt_store_failure (s : Store) (now : Z) (err : error)
  (req : PromptCreateRequest) :
  validateCreateRequest req = None ->
  CreatePrompt s now (Some err) req =
  (s, None, Some (Errorf "failed to create prompt: " err)).
Proof. unfold CreatePrompt. now intros ->. Qed.

Lemma validate_required (req : PromptCreateRequest) :
  CTitle req = "" \/ (200 < RuneCount (CTitle req))%nat \/
  CDescription req = "" \/ CLanguage req = "" \/ CCategory req = "" \/
  CProblemStatement req = "" ->
  exists e, validateCreateRequest req = Some e.
Proof.
  intros H. pose proof (RuneCount_le_length (CTitle req)) as Hr.
  required_tests req.
  exfalso. destruct H as [H|[H|[H|[H|[H|H]]]]]; try contradiction.
  unfold len in *. lia.
Qed.

Lemma validate_present (req : PromptCreateRequest) :
  Spec.required_present req ->
  validateCreateRequest req =
  if negb (String.eqb (CDifficulty req) "") &&
     negb (DifficultyLevel_Valid (CDifficulty req))
  then Some (New "invalid difficulty level") else None.
Proof.
  intros (H1 & H2 & H3 & H4 & H5 & H6). unfold validateCreateRequest.
  destruct (String.eqb_spec (CTitle req) ""); [contradiction|].
  destruct (Z.ltb_spec 200 (len (CTitle req))); [lia|].
  destruct (String.eqb_spec (CDescription req) ""); [contradiction|].
  destruct (String.eqb_spec (CLanguage req) ""); [contradiction|].
  destruct (String.eqb_spec (CCategory req) ""); [contradiction|].
  destruct (String.eqb_spec (CProblemStatement req) ""); [contradiction|].
  reflexivity.
Qed.

Lemma validate_invalid_difficulty (req : PromptCreateRequest) :
  CDifficulty req <> "" -> DifficultyLevel_Valid (CDifficulty req) = false ->
  exists e, validateCreateRequest req = Some e.
Proof.
  intros Hd Hv. required_tests req.
  rewrite Hv. destruct (String.eqb_spec (CDifficulty req) "");
    [contradiction | now eexists].
Qed.

Lemma BeforeCreate_valid (p : Prompt) :
  exists p',
    Prompt_BeforeCreate p = (p', None) /\
    DifficultyLevel_Valid (Difficulty p') = true /\
    (DifficultyLevel_Valid (Difficulty p) = false ->
     p' = with_Difficulty DifficultyBeginner p) /\
    (DifficultyLevel_Valid (Difficulty p) = true -> p' = p).
Proof.
  unfold Prompt_BeforeCreate.
  destruct (DifficultyLevel_Valid (Difficulty p)) eqn:E; simpl;
    eexists; (split; [reflexivity|]); repeat split;
    (assumption || discriminate || reflexivity).
Qed.

Lemma stored_row_difficulty (s : Store) (now : Z)
  (req : PromptCreateRequest) :
  DifficultyLevel_Valid (Difficulty (stored_row s now req)) = true /\
  (CDifficulty req = "" ->
   Difficulty (stored_row s now req) = DifficultyBeginner).
Proof.
  unfold stored_row.
  destruct (BeforeCreate_valid (defaulted req)) as (p' & -> & Hv & _ & Hk).
  simpl. split; [assumption|]. intros H.
  assert (Hb : Difficulty (defaulted req) = DifficultyBeginner).
  { unfold defaulted. simpl. rewrite H. reflexivity. }
  rewrite Hk; [assumption|]. now rewrite Hb.
Qed.

(** C4 fails on the code: the checks of the validation run in order and
    the first one that fails gives the message.  A request with an empty
    title and a difficulty outside the enumeration is answered with [title
    is required], which does not contain [invalid]. *)
Lemma invalid_difficulty_behind_empty_title :
  ~ (forall (s : Store) (now : Z) (f : Fault) (req : PromptCreateRequest),
       CDifficulty req <> "" ->
       DifficultyLevel_Valid (CDifficulty req) = false ->
       exists e,
         CreatePrompt s now f req = (s, None, Some e) /\
         Contains (Error e) "invalid" = true).
Proof.
  intros H.
  destruct (H Samples.single 7 None (Samples.create_request "" "legendary")
              ltac:(discriminate) eq_refl) as (e & He & Hc).
  injection He as <-. discriminate Hc.
Qed.

(** C4, amended: a create request with an empty required field, or with a
    title of more than 200 characters, is answered with the error of the
    validation and leaves the table as it was; an empty title gives [title
    is required]; a difficulty that is given and is not enumerated is
    always rejected by the validation, with the table left as it was, and
    the error is [invalid difficulty level], which contains [invalid],
    when the required fields are filled in and the title has at most 200
    bytes; a request without difficulty is stored with the difficulty
    [beginner] whenever it is stored, which it is when the required fields
    are filled in, the title has at most 200 bytes and the store carries
    the insertion out. *)
Theorem create_validates_request (s : Store) (now : Z) (f : Fault)
  (req : PromptCreateRequest) :
  (CTitle req = "" \/ (200 < RuneCount (CTitle req))%nat \/
   CDescription req = "" \/ CLanguage req = "" \/ CCategory req = "" \/
   CProblemStatement req = "" ->
   exists e, validateCreateRequest req = Some e /\
             CreatePrompt s now f req = (s, None, Some e)) /\
  (CTitle req = "" ->
   CreatePrompt s now f req = (s, None, Some (New "title is required")) /\
   Contains (Error (New "title is required")) "title is required" = true) /\
  (CDifficulty req <> "" ->
   DifficultyLevel_Valid (CDifficulty req) = false ->
   exists e, validateCreateRequest req = Some e /\
             CreatePrompt s now f req = (s, None, Some e) /\
             (Spec.required_present req ->
              e = New "invalid difficulty level" /\
              Contains (Error e) "invalid" = true)) /\
  (CDifficulty req = "" -> Spec.required_present req -> f = None ->
   exists p,
     CreatePrompt s now f req =
       (mkStore (rows s ++ [p]) (next_id s + 1),
        Some (transformToResponse p), None) /\
     Difficulty p = "beginner") /\
  (CDifficulty req = "" ->
   forall s' r,
     CreatePrompt s now f req = (s', Some r, None) ->
     PDifficulty r = "beginner" /\
     exists p,
       rows s' = (rows s ++ [p])%list /\ r = transformToResponse p /\
       Difficulty p = "beginner").
Proof.
  split; [|split; [|split; [|split]]].
  - intros H. destruct (validate_required req H) as [e He].
    exists e. split; [assumption | now apply CreatePrompt_rejected].
  - intros H. split; [|reflexivity]. apply CreatePrompt_rejected.
    unfold validateCreateRequest. now rewrite H.
  - intros Hd Hv. destruct (validate_invalid_difficulty req Hd Hv) as [e He].
    exists e. split; [assumption|].
    split; [now apply CreatePrompt_rejected|].
    intros Hp. rewrite (validate_present req Hp), Hv in He.
    destruct (String.eqb_spec (CDifficulty req) ""); [contradiction|].
    injection He as <-. split; reflexivity.
  - intros Hd Hp ->. exists (stored_row s now req). split.
    + apply CreatePrompt_stored. rewrite (validate_present req Hp), Hd.
      reflexivity.
    + now apply stored_row_difficulty.
  - intros Hd s' r H.
    assert (Hv : validateCreateRequest req = None).
    { unfold CreatePrompt in H.
      destruct (validateCreateRequest req); [discriminate | reflexivity]. }
    assert (Hf : f = None).
    { unfold CreatePrompt in H. rewrite Hv in H.
      destruct f; [discriminate | reflexivity]. }
    subst f. rewrite (CreatePrompt_stored s now req Hv) in H.
    injection H as <- <-.
    destruct (stored_row_difficulty s now req) as [_ Hb].
    split; [exact (Hb Hd)|].
    exists (stored_row s now req).
    split; [reflexivity|]. split; [reflexivity | exact (Hb Hd)].
Qed.

Lemma create_validates_request_witness :
  (exists e,
     validateCreateRequest (Samples.create_request "" "legendary") = Some e /\
     CreatePrompt Samples.single 7 None
       (Samples.create_request "" "legendary") =
     (Samples.single, None, Some e)) /\
  (exists e,
     CreatePrompt Samples.single 7 None
       (Samples.create_request "two sum" "legendary") =
     (Samples.single, None, Some e) /\
     Contains (Error e) "invalid" = true) /\
  (exists p,
     CreatePrompt Samples.single 7 None (Samples.create_request "two sum" "")
     = (mkStore (rows Samples.single ++ [p]) 3,
        Some (transformToResponse p), None) /\
     Difficulty p = "beginner").
Proof.
  assert (Hp : Spec.required_present (Samples.create_request "two sum" "")).
  { unfold Spec.required_present, len. simpl.
    repeat split; (discriminate || lia). }
  assert (Hq : Spec.required_present
                 (Samples.create_request "two sum" "legendary")).
  { unfold Spec.required_present, len. simpl.
    repeat split; (discriminate || lia). }
  split; [|split].
  - exact (proj1 (create_validates_request Samples.single 7 None
             (Samples.create_request "" "legendary")) (or_introl eq_refl)).
  - destruct (proj1 (proj2 (proj2 (create_validates_request Samples.single 7
                None (Samples.create_request "two sum" "legendary"))))
                ltac:(discriminate) eq_refl) as (e & _ & H & Hc).
    exists e. split; [exact H | exact (proj2 (Hc Hq))].
  - exact (proj1 (proj2 (proj2 (proj2 (create_validates_request
             Samples.single 7 None (Samples.create_request "two sum" "")))))
             eq_refl Hp eq_refl).
Defined.

Lemma Create_stores (s : Store) (now : Z) (p : Prompt) :
  exists p',
    Create s now None p =
      (mkStore (rows s ++ [p']) (next_id s + 1), Some p', None) /\
    DifficultyLevel_Valid (Difficulty p') = true.
Proof.
  unfold Create.
  destruct (BeforeCreate_valid p) as (p' & -> & Hv & _).
  eexists. split; [reflexivity | exact Hv].
Qed.

Lemma CreatePrompt_rows (s : Store) (now : Z) (f : Fault)
  (req : PromptCreateRequest) :
  rows (fst (fst (CreatePrompt s now f req))) = rows s \/
  rows (fst (fst (CreatePrompt s now f req))) =
    (rows s ++ [stored_row s now req])%list.
Proof.
  unfold CreatePrompt.
  destruct (validateCreateRequest req); [now left|].
  destruct f; [now left | now right].
Qed.

(** C5 fails on the code: a request that is complete but for a difficulty
    outside the enumeration is not stored with the default; the service
    rejects it. *)
Lemma invalid_difficulty_rejects_creation :
  ~ (forall (s : Store) (now : Z) (req : PromptCreateRequest),
       Spec.required_present req ->
       DifficultyLevel_Valid (CDifficulty req) = false ->
       exists p,
         CreatePrompt s now None req =
           (mkStore (rows s ++ [p]) (next_id s + 1),
            Some (transformToResponse p), None) /\
         Difficulty p = "beginner").
Proof.
  intros H.
  destruct (H Samples.single 7 (Samples.create_request "two sum" "legendary"))
    as (p & Hp & _).
  - unfold Spec.required_present, len. simpl.
    repeat split; (discriminate || lia).
  - reflexivity.
  - discriminate Hp.
Qed.

(** C5, amended: the hook of the model replaces every difficulty outside
    the enumeration by [beginner] and never fails, so that the repository
    stores only enumerated difficulties; the service stores a request
    without difficulty as [beginner] when its required fields are filled
    in, its title has at most 200 bytes and the store carries the insertion
    out; it rejects a request whose difficulty is given and not enumerated
    with an error of the validation, storing nothing, and that error is
    [invalid difficulty level] when the required fields are filled in and
    the title has at most 200 bytes; creations, deletions and the counting
    of views keep every stored difficulty within the enumeration. *)
Theorem stored_difficulty_is_enumerated (s : Store) (now : Z) (f : Fault)
  (req : PromptCreateRequest) :
  (forall p, exists p',
     Prompt_BeforeCreate p = (p', None) /\
     DifficultyLevel_Valid (Difficulty p') = true /\
     (DifficultyLevel_Valid (Difficulty p) = false ->
      Difficulty p' = "beginner")) /\
  (forall p, exists p',
     Create s now None p =
       (mkStore (rows s ++ [p']) (next_id s + 1), Some p', None) /\
     DifficultyLevel_Valid (Difficulty p') = true) /\
  (CDifficulty req = "" -> Spec.required_present req ->
   exists p,
     CreatePrompt s now None req =
       (mkStore (rows s ++ [p]) (next_id s + 1),
        Some (transformToResponse p), None) /\
     Difficulty p = "beginner") /\
  (CDifficulty req <> "" ->
   DifficultyLevel_Valid (CDifficulty req) = false ->
   exists e, validateCreateRequest req = Some e /\
             CreatePrompt s now f req = (s, None, Some e) /\
             (Spec.required_present req ->
              e = New "invalid difficulty level")) /\
  (Spec.difficulties_valid s ->
   Spec.difficulties_valid (fst (fst (CreatePrompt s now f req))) /\
   (forall fexists fdelete id,
      Spec.difficulties_valid
        (fst (DeletePrompt s now fexists fdelete id))) /\
   (forall g, Spec.difficulties_valid (run s f g))).
Proof.
  split; [|split; [|split; [|split]]].
  - intros p. destruct (BeforeCreate_valid p) as (p' & H & Hv & Hd & _).
    exists p'. split; [assumption|]. split; [assumption|].
    intros Hi. now rewrite (Hd Hi).
  - intros p. apply Create_stores.
  - intros Hd Hp. exists (stored_row s now req). split.
    + apply CreatePrompt_stored. rewrite (validate_present req Hp), Hd.
      reflexivity.
    + now apply stored_row_difficulty.
  - intros Hd Hv. destruct (validate_invalid_difficulty req Hd Hv) as [e He].
    exists e. split; [assumption|].
    split; [now apply CreatePrompt_rejected|].
    intros Hp. rewrite (validate_present req Hp), Hv in He.
    destruct (String.eqb_spec (CDifficulty req) ""); [contradiction|].
    now injection He as <-.
  - intros Hs. split; [|split].
    + unfold Spec.difficulties_valid in *.
      destruct (CreatePrompt_rows s now f req) as [-> | ->]; [assumption|].
      apply Forall_app. split; [assumption|]. constructor; [|constructor].
      apply stored_row_difficulty.
    + intros fexists fdelete id. now apply DeletePrompt_difficulties.
    + intros g. now apply run_difficulties.
Qed.

Lemma stored_difficulty_is_enumerated_witness :
  (exists p,
     CreatePrompt Samples.single 7 None (Samples.create_request "two sum" "")
     = (mkStore (rows Samples.single ++ [p]) 3,
        Some (transformToResponse p), None) /\
     Difficulty p = "beginner") /\
  CreatePrompt Samples.single 7 None
    (Samples.create_request "two sum" "legendary") =
  (Samples.single, None, Some (New "invalid difficulty level")) /\
  Spec.difficulties_valid
    (fst (fst (CreatePrompt Samples.single 7 None
                 (Samples.create_request "two sum" "")))).
Proof.
  assert (Hp : Spec.required_present (Samples.create_request "two sum" "")).
  { unfold Spec.required_present, len. simpl.
    repeat split; (discriminate || lia). }
  assert (Hs : Spec.difficulties_valid Samples.single).
  { unfold Spec.difficulties_valid. simpl. repeat constructor. }
  split; [|split].
  - exact (proj1 (proj2 (proj2 (stored_difficulty_is_enumerated
             Samples.single 7 None (Samples.create_request "two sum" ""))))
             eq_refl Hp).
  - assert (Hq : Spec.required_present
                   (Samples.create_request "two sum" "legendary")).
    { unfold Spec.required_present, len. simpl.
      repeat split; (discriminate || lia). }
    destruct (proj1 (proj2 (proj2 (proj2 (stored_difficulty_is_enumerated
                Samples.single 7 None
                (Samples.create_request "two sum" "legendary")))))
                ltac:(discriminate) eq_refl) as (e & _ & H & He).
    rewrite <- (He Hq). exact H.
  - exact (proj1 (proj2 (proj2 (proj2 (proj2
             (stored_difficulty_is_enumerated Samples.single 7 None
                (Samples.create_request "two sum" ""))))) Hs)).
Defined.

(** C10: two create requests that differ at most in their examples, hints
    and estimated time are validated alike and, from the same table, at the
    same instant and with the same outcome of the store, lead to the same
    table, the same response and the same error. *)
Theorem create_ignores_extras (s : Store) (now : Z) (f : Fault)
  (a b : PromptCreateRequest) :
  Spec.same_but_extras a b ->
  ToPrompt a = ToPrompt b /\
  validateCreateRequest a = validateCreateRequest b /\
  CreatePrompt s now f a = CreatePrompt s now f b.
Proof.
  intros (H1 & H2 & H3 & H4 & H5 & H6 & H7 & H8 & H9).
  assert (HP : ToPrompt a = ToPrompt b).
  { unfold ToPrompt. now rewrite H1, H2, H3, H4, H5, H6, H7, H8, H9. }
  assert (HV : validateCreateRequest a = validateCreateRequest b).
  { unfold validateCreateRequest. now rewrite H1, H2, H3, H4, H5, H6. }
  split; [assumption|]. split; [assumption|].
  unfold CreatePrompt. now rewrite HV, HP.
Qed.

Lemma create_ignores_extras_witness :
  let a := Samples.create_request "two sum" "expert" in
  let b := Samples.with_extras a in
  (CExamples a <> CExamples b /\ CHints a <> CHints b /\
   CEstimatedTime a <> CEstimatedTime b) /\
  CreatePrompt Samples.single 7 None a = CreatePrompt Samples.single 7 None b.
Proof.
  cbv zeta. split.
  - repeat split; discriminate.
  - apply (create_ignores_extras Samples.single 7 None
             (Samples.create_request "two sum" "expert")
             (Samples.with_extras
                (Samples.create_request "two sum" "expert"))).
    unfold Spec.same_but_extras. simpl. repeat split.
Defined.

End PromptCreation.

(** ** Claims on the deletion of prompts *)

Module PromptDeletion.

Import GoStrings GoErrors Models Repositories Services.
Import DeletionFacts.

(** C6 fails on the code in two places.  No row has the id 0, and deleting
    it is answered with [invalid prompt id], which is no not-found error.
    And a failure of the store is handed on with its own text behind a
    prefix: a failure whose text holds [not found] gives an error that
    holds [not found] too, the mark by which the program tells not-found
    from other errors. *)
Lemma delete_not_found_is_not_as_claimed :
  ~ (forall (s : Store) (now id : Z),
       Spec.present s id = false ->
       exists e,
         DeletePrompt s now None None id = (s, Some e) /\
         Contains (Error e) "not found" = true) /\
  ~ (forall (s : Store) (now id : Z) (err : error) (fdelete : Fault),
       id <> 0 ->
       exists e,
         DeletePrompt s now (Some err) fdelete id = (s, Some e) /\
         Contains (Error e) "not found" = false).
Proof.
  split.
  - intros H. destruct (H Samples.single 7 0 eq_refl) as (e & He & Hc).
    injection He as <-. discriminate Hc.
  - intros H.
    destruct (H Samples.gallery 7 3 (New "relation not found") None
                ltac:(discriminate)) as (e & He & Hc).
    injection He as <-. discriminate Hc.
Qed.

(** C6, amended: the id 0 is refused as [invalid prompt id]; for any other
    id the existence is checked first: an id that no live row carries is
    answered with [prompt not found] and the table is left as it was; an id
    that a live row carries is deleted, after which fetching it finds
    nothing and the rows with another id are untouched; a failure of the
    store during the check or during the deletion leaves the table as it
    was and is answered with an error that wraps the failure behind a
    prefix, differs from [prompt not found], and holds [not found] exactly
    when the text of the failure does. *)
Theorem delete_checks_existence (s : Store) (now : Z)
  (fexists fdelete : Fault) (id : Z) :
  (id = 0 ->
   DeletePrompt s now fexists fdelete id =
     (s, Some (New "invalid prompt id"))) /\
  (id <> 0 -> fexists = None -> Spec.present s id = false ->
   DeletePrompt s now fexists fdelete id =
     (s, Some (New "prompt not found"))) /\
  (id <> 0 -> fexists = None -> fdelete = None ->
   Spec.present s id = true ->
   exists s',
     DeletePrompt s now fexists fdelete id = (s', None) /\
     Spec.present s' id = false /\
     FindByID s' None id = (None, Some (New "prompt not found")) /\
     (exists e, GetPromptByID s' None id = (None, Some e, []) /\
                Contains (Error e) "not found" = true) /\
     (forall p, In p (rows s) -> ID p <> id -> In p (rows s'))) /\
  (id <> 0 -> forall err, fexists = Some err ->
   exists e,
     DeletePrompt s now fexists fdelete id = (s, Some e) /\
     Error e = "failed to check if prompt exists: " ++ Error err /\
     Error e <> "prompt not found" /\
     Contains (Error e) "not found" = Contains (Error err) "not found") /\
  (id <> 0 -> fexists = None -> Spec.present s id = true ->
   forall err, fdelete = Some err ->
   exists e,
     DeletePrompt s now fexists fdelete id = (s, Some e) /\
     Error e = "failed to delete prompt: " ++ Error err /\
     Error e <> "prompt not found" /\
     Contains (Error e) "not found" = Contains (Error err) "not found").
Proof.
  split; [|split; [|split; [|split]]].
  - intros ->. reflexivity.
  - intros H0 -> Hp. unfold DeletePrompt, Exists.
    destruct (Z.eqb_spec id 0); [contradiction|].
    now rewrite affected_present, Hp.
  - intros H0 -> -> Hp. eexists.
    split; [now apply DeletePrompt_deletes|].
    pose proof (present_after_delete now id s) as Ha.
    split; [exact Ha|]. split; [now apply FindByID_absent|]. split.
    + unfold GetPromptByID. destruct (Z.eqb_spec id 0); [contradiction|].
      rewrite (FindByID_absent _ _ Ha). eexists. split; reflexivity.
    + intros p Hin Hid. simpl. apply in_map_iff. exists p.
      split; [now apply mark_deleted_other | assumption].
  - intros H0 err ->. eexists. unfold DeletePrompt, Exists.
    destruct (Z.eqb_spec id 0); [contradiction|].
    split; [reflexivity|]. split; [reflexivity|].
    split; [discriminate | reflexivity].
  - intros H0 -> Hp err ->. eexists. unfold DeletePrompt, Exists, Delete.
    destruct (Z.eqb_spec id 0); [contradiction|].
    rewrite affected_present, Hp.
    split; [reflexivity|]. split; [reflexivity|].
    split; [discriminate | reflexivity].
Qed.

Lemma delete_checks_existence_witness :
  DeletePrompt Samples.gallery 7 None None 0 =
    (Samples.gallery, Some (New "invalid prompt id")) /\
  DeletePrompt Samples.gallery 7 None None 40 =
    (Samples.gallery, Some (New "prompt not found")) /\
  (exists s',
     DeletePrompt Samples.gallery 7 None None 3 = (s', None) /\
     FindByID s' None 3 = (None, Some (New "prompt not found"))) /\
  (exists e,
     DeletePrompt Samples.gallery 7 (Some (New "connection refused")) None 3
       = (Samples.gallery, Some e) /\
     Error e <> "prompt not found" /\
     Contains (Error e) "not found" = false) /\
  (exists e,
     DeletePrompt Samples.gallery 7 None (Some (New "relation not found")) 3
       = (Samples.gallery, Some e) /\
     Error e <> "prompt not found" /\
     Contains (Error e) "not found" = true).
Proof.
  split; [|split; [|split; [|split]]].
  - exact (proj1 (delete_checks_existence Samples.gallery 7 None None 0)
             eq_refl).
  - apply (proj1 (proj2 (delete_checks_existence Samples.gallery 7 None None
                           40))); [discriminate | reflexivity | reflexivity].
  - destruct (proj1 (proj2 (proj2 (delete_checks_existence Samples.gallery 7
                None None 3))) ltac:(discriminate) eq_refl eq_refl eq_refl)
      as (s' & Hd & _ & Hf & _).
    exists s'. split; assumption.
  - destruct (proj1 (proj2 (proj2 (proj2 (delete_checks_existence
                Samples.gallery 7 (Some (New "connection refused")) None 3))))
                ltac:(discriminate) _ eq_refl) as (e & Hd & _ & Hn & Hc).
    exists e. split; [exact Hd|]. split; [exact Hn|].
    rewrite Hc. reflexivity.
  - destruct (proj2 (proj2 (proj2 (proj2 (delete_checks_existence
                Samples.gallery 7 None (Some (New "relation not found")) 3))))
                ltac:(discriminate) eq_refl eq_refl _ eq_refl)
      as (e & Hd & _ & Hn & Hc).
    exists e. split; [exact Hd|]. split; [exact Hn|].
    rewrite Hc. reflexivity.
Defined.

End PromptDeletion.

(** ** Claims on the status codes of the handlers *)

Module HttpStatus.

Import GoStrings GoErrors Models Repositories Handlers.

(** C7 fails on the code: the four handlers do not share one mapping.
    Deleting the id 0 fails in the service with [invalid prompt id]; the
    message contains [invalid], and the handler answers 500. *)
Lemma handlers_do_not_share_one_mapping :
  ~ ((forall s now f c req s' r e,
        BodyParser c = inl req ->
        Services.CreatePrompt s now f req = (s', r, Some e) ->
        StatusCode (snd (CreatePrompt s now f c)) = Spec.status_of_error e) /\
     (forall s now fexists fdelete c id s' e,
        parseUintParam c "id" = inl id ->
        Services.DeletePrompt s now fexists fdelete id = (s', Some e) ->
        StatusCode (snd (DeletePrompt s now fexists fdelete c)) =
          Spec.status_of_error e) /\
     (forall s f c id r e gs,
        parseUintParam c "id" = inl id ->
        Services.GetPromptByID s f id = (r, Some e, gs) ->
        StatusCode (fst (GetPromptByID s f c)) = Spec.status_of_error e) /\
     (forall s fcount ffind c filter page limit r e,
        parsePromptQuery c = (filter, page, limit, None) ->
        Services.GetAllPrompts s fcount ffind filter page limit =
          (r, Some e) ->
        StatusCode (GetPrompts s fcount ffind c) = Spec.status_of_error e)).
Proof.
  intros (_ & H & _ & _).
  specialize (H Samples.single 7 None None (Samples.ctx_id "0") 0
                Samples.single (New "invalid prompt id") eq_refl eq_refl).
  discriminate H.
Qed.

(** C7, amended: each handler has a mapping of its own.  Creating maps a
    service error whose message contains [required] or [invalid] to 400 and
    any other to 500; deleting maps a service error whose message contains
    [not found] to 404 and any other to 500; fetching by id maps every
    service error to 404; listing maps every service error to 500. *)
Theorem handler_status_by_endpoint :
  (forall s now f c req s' r e,
     BodyParser c = inl req ->
     Services.CreatePrompt s now f req = (s', r, Some e) ->
     StatusCode (snd (CreatePrompt s now f c)) =
       if Contains (Error e) "required" || Contains (Error e) "invalid"
       then 400 else 500) /\
  (forall s now fexists fdelete c id s' e,
     parseUintParam c "id" = inl id ->
     Services.DeletePrompt s now fexists fdelete id = (s', Some e) ->
     StatusCode (snd (DeletePrompt s now fexists fdelete c)) =
       if Contains (Error e) "not found" then 404 else 500) /\
  (forall s f c id r e gs,
     parseUintParam c "id" = inl id ->
     Services.GetPromptByID s f id = (r, Some e, gs) ->
     StatusCode (fst (GetPromptByID s f c)) = 404) /\
  (forall s fcount ffind c filter page limit r e,
     parsePromptQuery c = (filter, page, limit, None) ->
     Services.GetAllPrompts s fcount ffind filter page limit = (r, Some e) ->
     StatusCode (GetPrompts s fcount ffind c) = 500).
Proof.
  split; [|split; [|split]].
  - intros s now f c req s' r e Hb Hs. unfold CreatePrompt.
    rewrite Hb, Hs.
    destruct r;
      now destruct (Contains (Error e) "required" ||
                    Contains (Error e) "invalid").
  - intros s now fexists fdelete c id s' e Hp Hs. unfold DeletePrompt.
    rewrite Hp, Hs. now destruct (Contains (Error e) "not found").
  - intros s f c id r e gs Hp Hs. unfold GetPromptByID.
    rewrite Hp, Hs. now destruct r.
  - intros s fcount ffind c filter page limit r e Hp Hs. unfold GetPrompts.
    rewrite Hp, Hs. now destruct r.
Qed.

Lemma handler_status_by_endpoint_witness :
  StatusCode (snd (CreatePrompt Samples.single 7 None
                     (Samples.ctx_body (Samples.create_request "" ""))))
    = 400 /\
  StatusCode (snd (DeletePrompt Samples.single 7 None None
                     (Samples.ctx_id "0"))) = 500 /\
  StatusCode (snd (DeletePrompt Samples.single 7 None None
                     (Samples.ctx_id "9"))) = 404 /\
  StatusCode (fst (GetPromptByID Samples.single
                     (Some (New "connection refused")) (Samples.ctx_id "1")))
    = 404 /\
  StatusCode (GetPrompts Samples.single (Some (New "connection refused"))
                None (Samples.ctx_query "1" "10" "")) = 500.
Proof.
  destruct handler_status_by_endpoint as (HC & HD & HG & HL).
  split; [|split; [|split; [|split]]].
  - exact (HC Samples.single 7 None
             (Samples.ctx_body (Samples.create_request "" "")) _ _ _ _
             eq_refl eq_refl).
  - exact (HD Samples.single 7 None None (Samples.ctx_id "0") _ _ _
             eq_refl eq_refl).
  - exact (HD Samples.single 7 None None (Samples.ctx_id "9") _ _ _
             eq_refl eq_refl).
  - exact (HG Samples.single (Some (New "connection refused"))
             (Samples.ctx_id "1") _ _ _ _ eq_refl eq_refl).
  - exact (HL Samples.single (Some (New "connection refused")) None
             (Samples.ctx_query "1" "10" "") _ _ _ _ _ eq_refl eq_refl).
Defined.

End HttpStatus.

(** ** Claims on the intake of prompt requests *)

Module RequestIntake.

Import GoStrings GoErrors Models Derived.

Lemma BeforeCreate_steps (pr : PromptRequest) :
  PromptRequest_BeforeCreate pr =
  (promote (default_difficulty (default_priority (default_status pr))),
   None).
Proof. reflexivity. Qed.

Lemma default_status_fields (pr : PromptRequest) :
  Status (default_status pr) =
    (if RequestStatus_Valid (Status pr) then Status pr else "pending") /\
  RPriority (default_status pr) = RPriority pr /\
  RequestedDifficulty (default_status pr) = RequestedDifficulty pr /\
  IsUrgent (default_status pr) = IsUrgent pr.
Proof.
  unfold default_status.
  destruct (RequestStatus_Valid (Status pr)); repeat split.
Qed.

Lemma default_priority_fields (pr : PromptRequest) :
  Status (default_priority pr) = Status pr /\
  RPriority (default_priority pr) = coerced_priority pr /\
  RequestedDifficulty (default_priority pr) = RequestedDifficulty pr /\
  IsUrgent (default_priority pr) = IsUrgent pr.
Proof.
  unfold default_priority, coerced_priority.
  destruct (Priority_Valid (RPriority pr)); repeat split.
Qed.

Lemma default_difficulty_fields (pr : PromptRequest) :
  Status (default_difficulty pr) = Status pr /\
  RPriority (default_difficulty pr) = RPriority pr /\
  RequestedDifficulty (default_difficulty pr) =
    (if DifficultyLevel_Valid (RequestedDifficulty pr)
     then RequestedDifficulty pr else "beginner") /\
  IsUrgent (default_difficulty pr) = IsUrgent pr.
Proof.
  unfold default_difficulty.
  destruct (DifficultyLevel_Valid (RequestedDifficulty pr)); repeat split.
Qed.

Lemma promote_fields (pr : PromptRequest) :
  Status (promote pr) = Status pr /\
  RPriority (promote pr) =
    (if IsUrgent pr && String.eqb (RPriority pr) "normal"
     then "high" else RPriority pr) /\
  RequestedDifficulty (promote pr) = RequestedDifficulty pr /\
  IsUrgent (promote pr) = IsUrgent pr.
Proof.
  unfold promote. change PriorityNormal with "normal".
  destruct (IsUrgent pr && String.eqb (RPriority pr) "normal");
    repeat split.
Qed.

Lemma coerced_priority_valid (pr : PromptRequest) :
  Priority_Valid (coerced_priority pr) = true.
Proof.
  unfold coerced_priority.
  destruct (Priority_Valid (RPriority pr)) eqn:E; [exact E | reflexivity].
Qed.

(** C8: the creation hook of a prompt request never fails.  It replaces a
    status, a priority and a difficulty outside their enumerations by
    [pending], [normal] and [beginner]; then, if the request is urgent and
    its priority is [normal], whether given or put by default, the priority
    becomes [high].  A request converted from an urgent form, which carries
    no priority, is stored with priority [high]. *)
Theorem urgent_request_is_promoted (pr : PromptRequest)
  (req : PromptRequestCreateRequest) :
  (exists pr',
     PromptRequest_BeforeCreate pr = (pr', None) /\
     Status pr' =
       (if RequestStatus_Valid (Status pr) then Status pr else "pending") /\
     RequestedDifficulty pr' =
       (if DifficultyLevel_Valid (RequestedDifficulty pr)
        then RequestedDifficulty pr else "beginner") /\
     RPriority pr' =
       (if IsUrgent pr && String.eqb (coerced_priority pr) "normal"
        then "high" else coerced_priority pr) /\
     (IsUrgent pr = true -> coerced_priority pr = "normal" ->
      RPriority pr' = "high") /\
     (IsUrgent pr = false -> Priority_Valid (RPriority pr) = false ->
      RPriority pr' = "normal") /\
     RequestStatus_Valid (Status pr') = true /\
     Priority_Valid (RPriority pr') = true /\
     DifficultyLevel_Valid (RequestedDifficulty pr') = true /\
     IsUrgent pr' = IsUrgent pr) /\
  (QIsUrgent req = true ->
   exists stored,
     PromptRequest_BeforeCreate (ToPromptRequest req) = (stored, None) /\
     RPriority stored = "high" /\ Status stored = "pending").
Proof.
  split.
  - eexists. split; [apply BeforeCreate_steps|].
    destruct (promote_fields
                (default_difficulty (default_priority (default_status pr))))
      as (S4 & P4 & D4 & U4).
    destruct (default_difficulty_fields
                (default_priority (default_status pr)))
      as (S3 & P3 & D3 & U3).
    destruct (default_priority_fields (default_status pr))
      as (S2 & P2 & D2 & U2).
    destruct (default_status_fields pr) as (S1 & P1 & D1 & U1).
    assert (HC : coerced_priority (default_status pr) = coerced_priority pr).
    { unfold coerced_priority. now rewrite P1. }
    rewrite S4, P4, D4, U4, S3, P3, D3, U3, S2, P2, D2, U2, S1, D1, U1, HC.
    split; [reflexivity|]. split; [reflexivity|]. split; [reflexivity|].
    split; [intros -> ->; reflexivity|].
    split; [intros -> Hv; unfold coerced_priority; now rewrite Hv|].
    split; [now destruct (RequestStatus_Valid (Status pr)) eqn:E|].
    split.
    + destruct (IsUrgent pr && String.eqb (coerced_priority pr) "normal");
        [reflexivity | apply coerced_priority_valid].
    + split; [|reflexivity].
      now destruct (DifficultyLevel_Valid (RequestedDifficulty pr)) eqn:E.
  - intros H. unfold PromptRequest_BeforeCreate, ToPromptRequest.
    rewrite H. simpl.
    destruct (DifficultyLevel_Valid (QRequestedDifficulty req));
      simpl; eexists; repeat split.
Qed.

Lemma urgent_request_is_promoted_witness :
  (exists stored,
     PromptRequest_BeforeCreate (ToPromptRequest Samples.urgent_request) =
       (stored, None) /\
     RPriority stored = "high" /\ Status stored = "pending") /\
  (exists stored,
     PromptRequest_BeforeCreate
       (with_Priority "" (ToPromptRequest Samples.urgent_request)) =
       (stored, None) /\
     RPriority stored = "high").
Proof.
  split.
  - exact (proj2 (urgent_request_is_promoted
                    (ToPromptRequest Samples.urgent_request)
                    Samples.urgent_request) eq_refl).
  - destruct (proj1 (urgent_request_is_promoted
                       (with_Priority ""
                          (ToPromptRequest Samples.urgent_request))
                       Samples.urgent_request))
      as (stored & H & _ & _ & _ & Hu & _).
    exists stored. split; [exact H | exact (Hu eq_refl eq_refl)].
Defined.

End RequestIntake.

(** ** The counting of views *)

Module ViewCounting.

Import GoStrings GoErrors Models Repositories Services.

(** A fetch that finds its row answers with the row as read and starts one
    goroutine; the call itself writes nothing. *)
Lemma GetPromptByID_found (s : Store) (id : Z) (p : Prompt) :
  id <> 0 ->
  find (fun q => ID q =? id) (live_rows s) = Some p ->
  GetPromptByID s None id =
  (Some (transformToResponse p), None, [GoIncrementViewCount id]).
Proof.
  intros H0 Hf. unfold GetPromptByID, FindByID.
  destruct (Z.eqb_spec id 0); [contradiction|]. now rewrite Hf.
Qed.

(** A failed update leaves the table as it was, and [run] has no error to
    hand on. *)
Lemma run_failure (s : Store) (err : error) (g : Goroutine) :
  run s (Some err) g = s.
Proof. now destruct g. Qed.

(** An update that the store carries out adds one view to the live rows
    with the id. *)
Lemma run_counts_one_view (s : Store) (id : Z) (p : Prompt) :
  In p (rows s) -> live p = true -> ID p = id ->
  In (with_ViewCount (ViewCount p + 1) p)
     (rows (run s None (GoIncrementViewCount id))).
Proof.
  intros Hin Hl Hid. simpl. apply in_map_iff. exists p.
  split; [|assumption]. now rewrite Hl, Hid, Z.eqb_refl.
Qed.

End ViewCounting.

(** ** Users *)

Module UserFacts.

Import GoStrings GoErrors Users.

(** X1: the capabilities of the roles are nested: who manages users verifies
    prompts and manages requests, who verifies prompts creates them, the
    roles that create prompts are the valid ones, and a text that is no
    role has no capability. *)
Theorem role_capabilities_nested (r : UserRole) :
  (CanManageUsers r = true -> CanVerifyPrompts r = true) /\
  CanManageRequests r = CanVerifyPrompts r /\
  (CanVerifyPrompts r = true -> CanCreatePrompts r = true) /\
  CanCreatePrompts r = UserRole_Valid r /\
  (UserRole_Valid r = false ->
   CanCreatePrompts r = false /\ CanVerifyPrompts r = false /\
   CanManageRequests r = false /\ CanManageUsers r = false).
Proof.
  unfold CanManageUsers, CanVerifyPrompts, CanManageRequests,
    CanCreatePrompts, UserRole_Valid.
  destruct (String.eqb r RoleContributor), (String.eqb r RoleModerator),
    (String.eqb r RoleAdmin), (String.eqb r RoleSuperAdmin); simpl;
    repeat split; intros; (reflexivity || assumption || discriminate).
Qed.

Lemma role_capabilities_nested_witness :
  CanVerifyPrompts "admin" = true /\
  (CanCreatePrompts "guest" = false /\ CanVerifyPrompts "guest" = false /\
   CanManageRequests "guest" = false /\ CanManageUsers "guest" = false).
Proof.
  split.
  - exact (proj1 (role_capabilities_nested "admin") eq_refl).
  - exact (proj2 (proj2 (proj2 (proj2 (role_capabilities_nested "guest"))))
             eq_refl).
Defined.

(** X2: the creation hook of a user never fails, leaves a user with a valid
    role as it is, gives any other user the role of a contributor, who may
    create prompts and nothing more, and changes nothing when run again. *)
Theorem user_hook_defaults_role (u : User) :
  exists u',
    User_BeforeCreate u = (u', None) /\
    UserRole_Valid (Role u') = true /\
    (UserRole_Valid (Role u) = true -> u' = u) /\
    (UserRole_Valid (Role u) = false ->
     u' = with_Role RoleContributor u /\
     CanCreatePrompts (Role u') = true /\
     CanVerifyPrompts (Role u') = false /\
     CanManageRequests (Role u') = false /\
     CanManageUsers (Role u') = false) /\
    User_BeforeCreate u' = (u', None).
Proof.
  unfold User_BeforeCreate.
  destruct (UserRole_Valid (Role u)) eqn:E; simpl; eexists;
    (split; [reflexivity|]).
  - split; [exact E|]. split; [reflexivity|]. split; [discriminate|].
    now rewrite E.
  - split; [reflexivity|]. split; [discriminate|].
    split; [intros _; repeat split | reflexivity].
Qed.

Lemma user_hook_defaults_role_witness :
  exists u',
    User_BeforeCreate (ToUser (Tables.user_request "s3cret!!" "")) =
      (u', None) /\
    Role u' = "contributor" /\ CanVerifyPrompts (Role u') = false.
Proof.
  destruct (user_hook_defaults_role
              (ToUser (Tables.user_request "s3cret!!" "")))
    as (u' & H & _ & _ & Hd & _).
  exists u'. split; [exact H|].
  destruct (Hd eq_refl) as (-> & _ & Hv & _).
  split; [reflexivity | exact Hv].
Defined.

(** X3: the password of a create request never reaches the user record: two
    requests that differ at most in the password give the same record, also
    after the creation hook, and its password hash is empty. *)
Theorem password_stays_out_of_user (a b : UserCreateRequest) :
  NName a = NName b -> NEmail a = NEmail b -> NUsername a = NUsername b ->
  NRole a = NRole b -> NBio a = NBio b -> NWebsite a = NWebsite b ->
  ToUser a = ToUser b /\
  User_BeforeCreate (ToUser a) = User_BeforeCreate (ToUser b) /\
  PasswordHash (ToUser a) = "" /\
  PasswordHash (fst (User_BeforeCreate (ToUser a))) = "".
Proof.
  intros H1 H2 H3 H4 H5 H6.
  assert (H : ToUser a = ToUser b).
  { unfold ToUser. now rewrite H1, H2, H3, H4, H5, H6. }
  split; [exact H|]. split; [now rewrite H|]. split; [reflexivity|].
  unfold User_BeforeCreate.
  now destruct (UserRole_Valid (Role (ToUser a))).
Qed.

Lemma password_stays_out_of_user_witness :
  NPassword (Tables.user_request "s3cret!!" "admin") <>
    NPassword (Tables.user_request "hunter22" "admin") /\
  ToUser (Tables.user_request "s3cret!!" "admin") =
    ToUser (Tables.user_request "hunter22" "admin").
Proof.
  split; [discriminate|].
  exact (proj1 (password_stays_out_of_user
                  (Tables.user_request "s3cret!!" "admin")
                  (Tables.user_request "hunter22" "admin")
                  eq_refl eq_refl eq_refl eq_refl eq_refl eq_refl)).
Defined.

End UserFacts.

(** ** More on the intake of prompt requests *)

Module RequestHook.

Import GoStrings GoErrors Models Derived RequestIntake.

Lemma default_status_fixed (pr : PromptRequest) :
  RequestStatus_Valid (Status pr) = true -> default_status pr = pr.
Proof. unfold default_status. now intros ->. Qed.

Lemma default_priority_fixed (pr : PromptRequest) :
  Priority_Valid (RPriority pr) = true -> default_priority pr = pr.
Proof. unfold default_priority. now intros ->. Qed.

Lemma default_difficulty_fixed (pr : PromptRequest) :
  DifficultyLevel_Valid (RequestedDifficulty pr) = true ->
  default_difficulty pr = pr.
Proof. unfold default_difficulty. now intros ->. Qed.

Lemma promote_fixed (pr : PromptRequest) :
  IsUrgent pr && String.eqb (RPriority pr) PriorityNormal = false ->
  promote pr = pr.
Proof. unfold promote. now intros ->. Qed.

(** The fields of a request after the hook. *)
Lemma hook_fields (pr : PromptRequest) :
  let pr' := fst (PromptRequest_BeforeCreate pr) in
  RequestStatus_Valid (Status pr') = true /\
  Priority_Valid (RPriority pr') = true /\
  DifficultyLevel_Valid (RequestedDifficulty pr') = true /\
  IsUrgent pr' && String.eqb (RPriority pr') PriorityNormal = false.
Proof.
  rewrite BeforeCreate_steps. cbn [fst]. cbv zeta.
  destruct (promote_fields
              (default_difficulty (default_priority (default_status pr))))
    as (S4 & P4 & D4 & U4).
  destruct (default_difficulty_fields (default_priority (default_status pr)))
    as (S3 & P3 & D3 & U3).
  destruct (default_priority_fields (default_status pr))
    as (S2 & P2 & D2 & U2).
  destruct (default_status_fields pr) as (S1 & P1 & D1 & U1).
  assert (HC : coerced_priority (default_status pr) = coerced_priority pr).
  { unfold coerced_priority. now rewrite P1. }
  rewrite S4, P4, D4, U4, S3, P3, D3, U3, S2, P2, D2, U2, S1, D1, U1, HC.
  split; [now destruct (RequestStatus_Valid (Status pr)) eqn:E|].
  split.
  { destruct (IsUrgent pr && String.eqb (coerced_priority pr) "normal");
      [reflexivity | apply coerced_priority_valid]. }
  split; [now destruct (DifficultyLevel_Valid (RequestedDifficulty pr)) eqn:E|].
  change PriorityNormal with "normal".
  destruct (IsUrgent pr); [|reflexivity]. cbn [andb].
  destruct (String.eqb (coerced_priority pr) "normal") eqn:E;
    [reflexivity | exact E].
Qed.

(** X4: the creation hook of a prompt request brings a request to a form it
    leaves unchanged: running it again changes nothing.  The form has a
    valid status, priority and difficulty, and an urgent request in it
    never has the priority [normal]. *)
Theorem request_hook_is_idempotent (pr : PromptRequest) :
  let pr' := fst (PromptRequest_BeforeCreate pr) in
  PromptRequest_BeforeCreate pr' = (pr', None) /\
  RequestStatus_Valid (Status pr') = true /\
  Priority_Valid (RPriority pr') = true /\
  DifficultyLevel_Valid (RequestedDifficulty pr') = true /\
  (IsUrgent pr' = true -> RPriority pr' <> "normal").
Proof.
  cbv zeta. destruct (hook_fields pr) as (HS & HP & HD & HU).
  set (pr' := fst (PromptRequest_BeforeCreate pr)) in *.
  split.
  - rewrite BeforeCreate_steps.
    rewrite (default_status_fixed pr' HS), (default_priority_fixed pr' HP),
      (default_difficulty_fixed pr' HD), (promote_fixed pr' HU).
    reflexivity.
  - split; [exact HS|]. split; [exact HP|]. split; [exact HD|].
    intros Hu Hn. rewrite Hu, Hn in HU. discriminate HU.
Qed.

Lemma request_hook_is_idempotent_witness :
  RPriority
    (fst (PromptRequest_BeforeCreate
            (with_Priority "" (ToPromptRequest Samples.urgent_request))))
  <> "normal".
Proof.
  exact (proj2 (proj2 (proj2 (proj2 (request_hook_is_idempotent
           (with_Priority "" (ToPromptRequest Samples.urgent_request))))))
           eq_refl).
Defined.

(** X5: a submitted form is stored with the status [pending] and with the
    priority [high] if it is urgent and [normal] if it is not; of the
    record converted from the form, the hook changes the requested
    difficulty only, and only when it is outside the enumeration. *)
Theorem submitted_form_is_stored (req : PromptRequestCreateRequest) :
  let stored := fst (PromptRequest_BeforeCreate (ToPromptRequest req)) in
  stored =
    (if DifficultyLevel_Valid (QRequestedDifficulty req)
     then ToPromptRequest req
     else with_RequestedDifficulty DifficultyBeginner (ToPromptRequest req))
  /\ Status stored = "pending" /\
  RPriority stored = (if QIsUrgent req then "high" else "normal") /\
  IsUrgent stored = QIsUrgent req /\
  AdminNotes stored = "" /\ AssignedToID stored = None.
Proof.
  unfold PromptRequest_BeforeCreate, ToPromptRequest.
  destruct (QIsUrgent req), (DifficultyLevel_Valid (QRequestedDifficulty req))
    eqn:E; simpl; rewrite ?E; simpl; repeat split.
Qed.

End RequestHook.

(** ** The other finders *)

Module FinderFacts.

Import GoStrings GoErrors Models Repositories Services Finders Tables.
Import RepositoryFacts.

Lemma insert_by_views_perm (p : Prompt) (l : list Prompt) :
  Permutation (insert_by_views p l) (p :: l).
Proof.
  induction l as [|q l IH]; simpl; [apply Permutation_refl|].
  destruct (ViewCount q <=? ViewCount p); [apply Permutation_refl|].
  eapply perm_trans; [apply perm_skip, IH | apply perm_swap].
Qed.

Lemma order_views_perm (l : list Prompt) :
  Permutation (order_view_count_desc l) l.
Proof.
  induction l as [|p l IH]; simpl; [constructor|].
  eapply perm_trans; [apply insert_by_views_perm | now apply perm_skip].
Qed.

Lemma insert_by_views_sorted (p : Prompt) (l : list Prompt) :
  StronglySorted views_desc l -> StronglySorted views_desc (insert_by_views p l).
Proof.
  induction l as [|q l IH]; intros Hs; simpl.
  - repeat constructor.
  - inversion Hs as [|? ? Hl Hq]; subst.
    destruct (ViewCount q <=? ViewCount p) eqn:E.
    + apply Z.leb_le in E. constructor; [assumption|].
      constructor; [exact E|].
      eapply Forall_impl; [|exact Hq]. unfold views_desc. intros; lia.
    + apply Z.leb_gt in E. constructor; [now apply IH|].
      apply (Permutation_Forall (Permutation_sym (insert_by_views_perm p l))).
      constructor; [unfold views_desc; lia | exact Hq].
Qed.

Lemma order_views_sorted (l : list Prompt) :
  StronglySorted views_desc (order_view_count_desc l).
Proof.
  induction l as [|p l IH]; simpl; [constructor|].
  now apply insert_by_views_sorted.
Qed.

(** In a sorted list every element of a front part is related to every
    element of the rest. *)
Lemma StronglySorted_split {A : Type} (R : A -> A -> Prop)
  (l1 l2 : list A) :
  StronglySorted R (l1 ++ l2) ->
  StronglySorted R l1 /\
  forall x y, In x l1 -> In y l2 -> R x y.
Proof.
  induction l1 as [|a l1 IH]; simpl; intros H.
  - split; [constructor | intros x y []].
  - inversion H as [|? ? Hs Ha]; subst.
    destruct (IH Hs) as [Hs1 Hr]. apply Forall_app in Ha as [Ha1 Ha2].
    split; [now constructor|].
    intros x y [<- | Hx] Hy; [|now apply Hr].
    rewrite Forall_forall in Ha2. now apply Ha2.
Qed.

Lemma Limit_length (n : Z) (l : list Prompt) :
  0 <= n -> (List.length (Limit n l) <= Z.to_nat n)%nat.
Proof.
  intros H. unfold Limit. destruct (Z.ltb_spec n 0); [lia|].
  apply firstn_le_length.
Qed.

Lemma Limit_front (n : Z) (l : list Prompt) :
  exists rest, l = (Limit n l ++ rest)%list.
Proof.
  unfold Limit. destruct (n <? 0).
  - exists []. now rewrite app_nil_r.
  - exists (skipn (Z.to_nat n) l). now rewrite firstn_skipn.
Qed.

Lemma popular_limit_bounds (limit : Z) : 1 <= popular_limit limit <= 50.
Proof.
  unfold popular_limit.
  destruct (Z.ltb_spec limit 1), (Z.ltb_spec 50 limit); simpl; lia.
Qed.

Lemma select_all (s : Store) : select [] s = live_rows s.
Proof.
  unfold select. simpl. induction (live_rows s) as [|p l IH];
    simpl; [reflexivity | now rewrite IH].
Qed.

(** X6: the popular prompts are the most viewed ones: the service answers
    with at most as many rows as the limit it applies, which is the given
    one between 1 and 50 and 10 otherwise; the rows are live rows of the
    table, ordered by view count, highest first; and no live row that is
    left out has more views than a row that is returned. *)
Theorem popular_prompts_are_most_viewed (s : Store) (limit : Z) :
  exists prompts,
    FindPopular s None (popular_limit limit) = (prompts, None) /\
    GetPopularPrompts s None limit = (map transformToResponse prompts, None)
    /\ (List.length prompts <= Z.to_nat (popular_limit limit) <= 50)%nat /\
    (forall p, In p prompts -> In p (rows s) /\ live p = true) /\
    StronglySorted views_desc prompts /\
    (forall p q, In p prompts -> In q (live_rows s) -> ~ In q prompts ->
                 ViewCount q <= ViewCount p).
Proof.
  pose proof (popular_limit_bounds limit) as Hb.
  eexists. split; [reflexivity|]. split; [reflexivity|].
  rewrite select_all.
  destruct (Limit_front (popular_limit limit)
              (order_view_count_desc (live_rows s))) as [rest Hrest].
  pose proof (order_views_sorted (live_rows s)) as Hs.
  rewrite Hrest in Hs. apply StronglySorted_split in Hs as [Hs1 Hr].
  split; [split; [apply Limit_length; lia | lia]|].
  split.
  - intros p Hp.
    assert (Hin : In p (order_view_count_desc (live_rows s))).
    { rewrite Hrest. apply in_or_app. now left. }
    apply (Permutation_in _ (order_views_perm _)) in Hin.
    unfold live_rows in Hin. now apply filter_In in Hin.
  - split; [exact Hs1|]. intros p q Hp Hq Hn. apply Hr; [exact Hp|].
    apply (Permutation_in _ (Permutation_sym (order_views_perm _))) in Hq.
    rewrite Hrest in Hq. apply in_app_or in Hq as [Hq | Hq];
      [contradiction | exact Hq].
Qed.

Lemma popular_prompts_witness :
  map PID (fst (GetPopularPrompts Tables.viewed None 3)) = [4; 3; 8] /\
  exists prompts,
    FindPopular Tables.viewed None 3 = (prompts, None) /\
    (forall p q, In p prompts -> In q (live_rows Tables.viewed) ->
                 ~ In q prompts -> ViewCount q <= ViewCount p).
Proof.
  split; [reflexivity|].
  destruct (popular_prompts_are_most_viewed Tables.viewed 3)
    as (prompts & H & _ & _ & _ & _ & Htop).
  exists prompts. split; [exact H | exact Htop].
Defined.

(** A failure of the store reaches the caller of the popular prompts
    wrapped, with no rows. *)
Lemma GetPopularPrompts_failure (s : Store) (err : error) (limit : Z) :
  GetPopularPrompts s (Some err) limit =
  ([], Some (Errorf "failed to fetch popular prompts: " err)).
Proof. reflexivity. Qed.

Lemma In_Limit (n : Z) (l : list Prompt) (p : Prompt) :
  In p (Limit n l) -> In p l.
Proof.
  unfold Limit. destruct (n <? 0); [auto | apply In_firstn].
Qed.

Lemma Sorted_Limit (n : Z) (l : list Prompt) :
  StronglySorted Spec.created_desc l ->
  StronglySorted Spec.created_desc (Limit n l).
Proof.
  intros H. destruct (Limit_front n l) as [rest Hrest].
  rewrite Hrest in H. now apply StronglySorted_split in H.
Qed.

Lemma created_desc_trans : Relations_1.Transitive Spec.created_desc.
Proof. unfold Relations_1.Transitive, Spec.created_desc. intros; lia. Qed.

Lemma order_strongly_sorted (l : list Prompt) :
  StronglySorted Spec.created_desc (order_created_at_desc l).
Proof.
  apply Sorted_StronglySorted; [exact created_desc_trans|].
  apply order_sorted.
Qed.

(** The filter that holds a language only. *)
Lemma applyFilters_language (f : PromptFilter) :
  FLanguage f <> "" -> FDifficulty f = "" -> FCategory f = "" ->
  FIsVerified f = None -> FSearch f = "" ->
  applyFilters [] f = Where [] (LanguageEq (FLanguage f)).
Proof.
  intros H1 H2 H3 H4 H5. unfold applyFilters.
  rewrite H2, H3, H4, H5. simpl.
  destruct (String.eqb_spec (FLanguage f) ""); [contradiction|reflexivity].
Qed.

Lemma applyFilters_difficulty (f : PromptFilter) :
  FLanguage f = "" -> FDifficulty f <> "" -> FCategory f = "" ->
  FIsVerified f = None -> FSearch f = "" ->
  applyFilters [] f = Where [] (DifficultyEq (FDifficulty f)).
Proof.
  intros H1 H2 H3 H4 H5. unfold applyFilters.
  rewrite H1, H3, H4, H5. simpl.
  destruct (String.eqb_spec (FDifficulty f) ""); [contradiction|reflexivity].
Qed.

(** X7: [FindByLanguage] returns live rows in the language asked for, latest
    first, and at most [limit] of them when the limit is not negative.  For
    a language that is given, it returns the rows of the first page of the
    listing filtered by that language alone. *)
Theorem find_by_language_selects (s : Store) (language : string)
  (limit : Z) :
  exists prompts,
    FindByLanguage s None language limit = (prompts, None) /\
    (forall p, In p prompts ->
       In p (rows s) /\ live p = true /\ Language p = language) /\
    StronglySorted Spec.created_desc prompts /\
    (0 <= limit -> (List.length prompts <= Z.to_nat limit)%nat) /\
    (forall f,
       FLanguage f = language -> language <> "" -> FDifficulty f = "" ->
       FCategory f = "" -> FIsVerified f = None -> FSearch f = "" ->
       fst (fst (FindAll s None None f 1 limit)) = prompts).
Proof.
  eexists. split; [reflexivity|]. split; [|split; [|split]].
  - intros p Hp. apply In_Limit in Hp.
    apply (Permutation_in _ (order_perm _)) in Hp.
    unfold select in Hp. apply filter_In in Hp as [Hl Hh].
    unfold live_rows in Hl. apply filter_In in Hl as [Hin Hl].
    unfold holds, Where in Hh. simpl in Hh. rewrite andb_true_r in Hh.
    apply String.eqb_eq in Hh. auto.
  - apply Sorted_Limit, order_strongly_sorted.
  - intros H. now apply Limit_length.
  - intros f Hf Hn H2 H3 H4 H5. subst language.
    rewrite FindAll_ok, (applyFilters_language f Hn H2 H3 H4 H5).
    reflexivity.
Qed.

Lemma find_by_language_selects_witness :
  map ID (fst (FindByLanguage Samples.gallery None "go" 3)) = [16; 12; 8] /\
  fst (fst (FindAll Samples.gallery None None (Samples.by_language "go") 1 3))
  = fst (FindByLanguage Samples.gallery None "go" 3).
Proof.
  split; [reflexivity|].
  destruct (find_by_language_selects Samples.gallery "go" 3)
    as (prompts & H & _ & _ & _ & Hall).
  rewrite H. cbn [fst].
  apply Hall; (reflexivity || discriminate).
Defined.

(** X8: [FindByDifficulty] returns live rows of the difficulty asked for,
    latest first, and at most [limit] of them when the limit is not
    negative.  In a table whose difficulties are all enumerated, asking
    for a text outside the enumeration finds nothing.  For a difficulty
    that is given, it returns the rows of the first page of the listing
    filtered by that difficulty alone. *)
Theorem find_by_difficulty_selects (s : Store)
  (difficulty : DifficultyLevel) (limit : Z) :
  exists prompts,
    FindByDifficulty s None difficulty limit = (prompts, None) /\
    (forall p, In p prompts ->
       In p (rows s) /\ live p = true /\ Difficulty p = difficulty) /\
    StronglySorted Spec.created_desc prompts /\
    (0 <= limit -> (List.length prompts <= Z.to_nat limit)%nat) /\
    (Spec.difficulties_valid s ->
     DifficultyLevel_Valid difficulty = false -> prompts = []) /\
    (forall f,
       FDifficulty f = difficulty -> difficulty <> "" -> FLanguage f = "" ->
       FCategory f = "" -> FIsVerified f = None -> FSearch f = "" ->
       fst (fst (FindAll s None None f 1 limit)) = prompts).
Proof.
  assert (Hrows : forall p,
    In p (Limit limit (order_created_at_desc
            (select (Where [] (DifficultyEq difficulty)) s))) ->
    In p (rows s) /\ live p = true /\ Difficulty p = difficulty).
  { intros p Hp. apply In_Limit in Hp.
    apply (Permutation_in _ (order_perm _)) in Hp.
    unfold select in Hp. apply filter_In in Hp as [Hl Hh].
    unfold live_rows in Hl. apply filter_In in Hl as [Hin Hl].
    unfold holds, Where in Hh. simpl in Hh. rewrite andb_true_r in Hh.
    apply String.eqb_eq in Hh. auto. }
  eexists. split; [reflexivity|]. split; [exact Hrows|].
  split; [apply Sorted_Limit, order_strongly_sorted|].
  split; [intros H; now apply Limit_length|]. split.
  - intros Hv Hd.
    destruct (Limit limit (order_created_at_desc
                (select (Where [] (DifficultyEq difficulty)) s)))
      as [|p l] eqn:E; [reflexivity|].
    destruct (Hrows p (or_introl eq_refl)) as (Hin & _ & Hp).
    unfold Spec.difficulties_valid in Hv. rewrite Forall_forall in Hv.
    specialize (Hv p Hin). rewrite Hp, Hd in Hv. discriminate Hv.
  - intros f Hf Hn H2 H3 H4 H5. subst difficulty.
    rewrite FindAll_ok, (applyFilters_difficulty f H2 Hn H3 H4 H5).
    reflexivity.
Qed.

Lemma find_by_difficulty_selects_witness :
  fst (FindByDifficulty Samples.gallery None "legendary" 5) = [] /\
  (List.length (fst (FindByDifficulty Samples.gallery None "beginner" 5))
   <= 5)%nat.
Proof.
  assert (Hv : Spec.difficulties_valid Samples.gallery).
  { unfold Spec.difficulties_valid. simpl. repeat constructor. }
  split.
  - destruct (find_by_difficulty_selects Samples.gallery "legendary" 5)
      as (prompts & H & _ & _ & _ & He & _).
    rewrite H. cbn [fst]. exact (He Hv eq_refl).
  - destruct (find_by_difficulty_selects Samples.gallery "beginner" 5)
      as (prompts & H & _ & _ & Hl & _).
    rewrite H. cbn [fst]. apply Hl. lia.
Defined.

End FinderFacts.

(** ** The table across operations *)

Module StoreFacts.

Import GoStrings GoErrors Models Repositories Services Derived Tables.
Import RepositoryFacts DeletionFacts PromptCreation.

Lemma find_app {A : Type} (g : A -> bool) (l1 l2 : list A) :
  find g (l1 ++ l2) =
  match find g l1 with Some x => Some x | None => find g l2 end.
Proof.
  induction l1 as [|x l1 IH]; simpl; [reflexivity|].
  now destruct (g x).
Qed.

Lemma filter_comm {A : Type} (g h : A -> bool) (l : list A) :
  filter g (filter h l) = filter h (filter g l).
Proof.
  induction l as [|x l IH]; simpl; [reflexivity|].
  destruct (g x) eqn:G, (h x) eqn:H; simpl; rewrite ?G, ?H, IH; reflexivity.
Qed.

Lemma ID_mark_deleted (now id : Z) (p : Prompt) :
  ID (mark_deleted now id p) = ID p.
Proof. unfold mark_deleted. now destruct (live p && (ID p =? id)). Qed.

Lemma ID_bump (id : Z) (p : Prompt) : ID (bump id p) = ID p.
Proof. unfold bump. now destruct (live p && (ID p =? id)). Qed.

Lemma live_bump (id : Z) (p : Prompt) : live (bump id p) = live p.
Proof. unfold bump. now destruct (live p && (ID p =? id)). Qed.

Lemma well_formed_map (h : Prompt -> Prompt) (s : Store) :
  (forall p, ID (h p) = ID p) ->
  well_formed s -> well_formed (mkStore (map h (rows s)) (next_id s)).
Proof.
  intros Hh (H0 & Hr & Hn). unfold well_formed. simpl.
  split; [exact H0|]. split.
  - apply Forall_map. eapply Forall_impl; [|exact Hr].
    intros p Hp. now rewrite Hh.
  - rewrite map_map. erewrite map_ext; [exact Hn|]. exact Hh.
Qed.

Lemma well_formed_append (s : Store) (p : Prompt) :
  ID p = next_id s ->
  well_formed s -> well_formed (mkStore (rows s ++ [p]) (next_id s + 1)).
Proof.
  intros Hp (H0 & Hr & Hn). unfold well_formed. simpl.
  split; [lia|]. split.
  - apply Forall_app. split.
    + eapply Forall_impl; [|exact Hr]. intros q Hq. simpl in Hq. lia.
    + constructor; [lia | constructor].
  - rewrite map_app. simpl.
    apply (Permutation_NoDup (Permutation_cons_append _ _)).
    constructor; [|exact Hn]. rewrite Hp. intros Hin.
    apply in_map_iff in Hin as (q & Hq & Hin).
    rewrite Forall_forall in Hr. specialize (Hr q Hin). lia.
Qed.

Lemma ID_stored_row (s : Store) (now : Z) (req : PromptCreateRequest) :
  ID (stored_row s now req) = next_id s.
Proof. reflexivity. Qed.

Lemma DeletePrompt_success (s s' : Store) (now : Z)
  (fexists fdelete : Fault) (id : Z) :
  DeletePrompt s now fexists fdelete id = (s', None) ->
  id <> 0 /\ Spec.present s id = true /\
  s' = mkStore (map (mark_deleted now id) (rows s)) (next_id s).
Proof.
  unfold DeletePrompt, Exists, Delete.
  destruct (Z.eqb_spec id 0); [discriminate|].
  destruct fexists; [discriminate|]. rewrite affected_present.
  destruct (Spec.present s id); [|discriminate].
  destruct fdelete; [discriminate|].
  destruct (Nat.eqb (affected s id) 0); [discriminate|].
  intros H. injection H as <-. auto.
Qed.

(** X9: the service keeps the table well formed: creating, deleting and
    counting a view leave the ids of the rows positive, below the next
    value of the sequence and pairwise different; and the id a creation
    returns is the next value of the sequence, which no row had before. *)
Theorem service_keeps_ids_unique (s : Store) (now : Z) (f : Fault) :
  well_formed s ->
  (forall req, well_formed (fst (fst (CreatePrompt s now f req)))) /\
  (forall fdelete id,
     well_formed (fst (DeletePrompt s now f fdelete id))) /\
  (forall g, well_formed (run s f g)) /\
  (forall req s' r,
     CreatePrompt s now f req = (s', Some r, None) ->
     PID r = next_id s /\ next_id s' = next_id s + 1 /\
     forall p, In p (rows s) -> ID p <> PID r).
Proof.
  intros Hw. split; [|split; [|split]].
  - intros req. unfold CreatePrompt.
    destruct (validateCreateRequest req); [exact Hw|].
    destruct f; [exact Hw|]. simpl.
    now apply well_formed_append.
  - intros fdelete id.
    destruct (DeletePrompt s now f fdelete id) as [s' [e|]] eqn:E.
    + unfold DeletePrompt, Exists, Delete in E.
      destruct (id =? 0); [now injection E as <-|].
      destruct f; [now injection E as <-|].
      destruct (Nat.ltb 0 (affected s id)); [|now injection E as <-].
      destruct fdelete; [now injection E as <-|].
      destruct (Nat.eqb (affected s id) 0); injection E as <-;
        (apply well_formed_map; [apply ID_mark_deleted | exact Hw]).
    + apply DeletePrompt_success in E as (_ & _ & ->).
      apply well_formed_map; [apply ID_mark_deleted | exact Hw].
  - intros [id]. unfold run, IncrementViewCount.
    destruct f; [exact Hw|]. simpl.
    apply (well_formed_map (bump id)); [apply ID_bump | exact Hw].
  - intros req s' r H. unfold CreatePrompt in H.
    destruct (validateCreateRequest req); [discriminate|].
    destruct f; [discriminate|]. simpl in H. injection H as <- <-.
    split; [reflexivity|]. split; [reflexivity|].
    intros p Hin. destruct Hw as (_ & Hr & _).
    rewrite Forall_forall in Hr. specialize (Hr p Hin). simpl. lia.
Qed.

Lemma service_keeps_ids_unique_witness :
  well_formed
    (fst (fst (CreatePrompt Samples.gallery 7 None
                 (Samples.create_request "two sum" "expert")))) /\
  well_formed (fst (DeletePrompt Samples.gallery 7 None None 3)).
Proof.
  assert (Hw : well_formed Samples.gallery).
  { unfold well_formed. split; [reflexivity|]. split.
    - simpl. repeat constructor.
    - simpl. repeat constructor; simpl; intuition discriminate. }
  destruct (service_keeps_ids_unique Samples.gallery 7 None Hw)
    as (HC & HD & _).
  split; [apply HC | apply HD].
Defined.

(** X10: the requests the validation accepts are those whose required fields
    are filled in, whose title has at most 200 bytes, and whose difficulty
    is empty or enumerated; with a store that carries the insertion out,
    these are the requests for which a creation succeeds. *)
Theorem validation_accepts_exactly (req : PromptCreateRequest) :
  (validateCreateRequest req = None <->
   Spec.required_present req /\
   (CDifficulty req = "" \/
    DifficultyLevel_Valid (CDifficulty req) = true)) /\
  (forall s now,
     validateCreateRequest req = None <->
     exists s' r, CreatePrompt s now None req = (s', Some r, None)).
Proof.
  assert (H1 : validateCreateRequest req = None <->
               Spec.required_present req /\
               (CDifficulty req = "" \/
                DifficultyLevel_Valid (CDifficulty req) = true)).
  { split.
    - intros H. unfold validateCreateRequest in H.
      destruct (String.eqb_spec (CTitle req) ""); [discriminate|].
      destruct (Z.ltb_spec 200 (len (CTitle req))); [discriminate|].
      destruct (String.eqb_spec (CDescription req) ""); [discriminate|].
      destruct (String.eqb_spec (CLanguage req) ""); [discriminate|].
      destruct (String.eqb_spec (CCategory req) ""); [discriminate|].
      destruct (String.eqb_spec (CProblemStatement req) "");
        [discriminate|].
      split; [unfold Spec.required_present; auto 10|].
      destruct (String.eqb_spec (CDifficulty req) ""); [now left|].
      destruct (DifficultyLevel_Valid (CDifficulty req));
        [now right | discriminate].
    - intros [Hp Hd]. rewrite (validate_present req Hp).
      destruct Hd as [-> | ->]; [reflexivity|].
      now rewrite andb_false_r. }
  split; [exact H1|]. intros s now. split.
  - intros H. rewrite (CreatePrompt_stored s now req H). eauto.
  - intros (s' & r & H). unfold CreatePrompt in H.
    destruct (validateCreateRequest req); [discriminate | reflexivity].
Qed.

Lemma validation_accepts_exactly_witness :
  validateCreateRequest (Samples.create_request "two sum" "expert") = None /\
  exists s' r,
    CreatePrompt Samples.single 7 None
      (Samples.create_request "two sum" "expert") = (s', Some r, None).
Proof.
  assert (H : validateCreateRequest
                (Samples.create_request "two sum" "expert") = None).
  { apply (proj1 (validation_accepts_exactly
                    (Samples.create_request "two sum" "expert"))).
    unfold Spec.required_present, len. simpl.
    split; [repeat split; (discriminate || lia) | now right]. }
  split; [exact H|].
  exact (proj1 (proj2 (validation_accepts_exactly
           (Samples.create_request "two sum" "expert")) Samples.single 7) H).
Defined.

Lemma stored_row_fields (s : Store) (now : Z) (req : PromptCreateRequest) :
  let p := stored_row s now req in
  ID p = next_id s /\ CreatedAt p = now /\ UpdatedAt p = now /\
  DeletedAt p = None /\ Title p = CTitle req /\
  Description p = CDescription req /\ Language p = CLanguage req /\
  Category p = CCategory req /\
  ProblemStatement p = CProblemStatement req /\ Tags p = CTags req /\
  AuthorName p = CAuthorName req /\ AuthorEmail p = CAuthorEmail req /\
  IsVerified p = false /\ ViewCount p = 0 /\ LikeCount p = 0.
Proof.
  unfold stored_row, Prompt_BeforeCreate, defaulted. cbv zeta.
  destruct (String.eqb (Difficulty (ToPrompt req)) "");
    match goal with
    | |- context [DifficultyLevel_Valid ?d] =>
        destruct (DifficultyLevel_Valid d)
    end; simpl; repeat split.
Qed.

Lemma stored_row_given_difficulty (s : Store) (now : Z)
  (req : PromptCreateRequest) :
  validateCreateRequest req = None ->
  Difficulty (stored_row s now req) =
  if String.eqb (CDifficulty req) "" then "beginner" else CDifficulty req.
Proof.
  intros H. apply (proj1 (validation_accepts_exactly req)) in H as [_ Hd].
  unfold stored_row, Prompt_BeforeCreate, defaulted. cbv zeta.
  change (Difficulty (ToPrompt req)) with (CDifficulty req).
  destruct (String.eqb_spec (CDifficulty req) "") as [E|E]; [reflexivity|].
  destruct Hd as [Hd | Hd]; [contradiction|].
  change (Difficulty (ToPrompt req)) with (CDifficulty req).
  now rewrite Hd.
Qed.

(** X11: what is created can be fetched: in a well-formed table, the response
    of a successful creation carries the fields of the request, a fresh
    id, the instant of the creation and no views, the difficulty being
    [beginner] when the request gives none; and fetching the returned id
    right after gives the same response and starts one view count. *)
Theorem created_prompt_is_fetched (s s' : Store) (now : Z)
  (req : PromptCreateRequest) (r : PromptResponse) :
  well_formed s ->
  CreatePrompt s now None req = (s', Some r, None) ->
  GetPromptByID s' None (PID r) =
    (Some r, None, [GoIncrementViewCount (PID r)]) /\
  Spec.present s' (PID r) = true /\
  PID r = next_id s /\ PCreatedAt r = now /\
  PTitle r = CTitle req /\ PDescription r = CDescription req /\
  PLanguage r = CLanguage req /\ PCategory r = CCategory req /\
  PProblemStatement r = CProblemStatement req /\ PTags r = CTags req /\
  PAuthorName r = CAuthorName req /\
  PDifficulty r =
    (if String.eqb (CDifficulty req) "" then "beginner"
     else CDifficulty req) /\
  PIsVerified r = false /\ PViewCount r = 0.
Proof.
  intros Hw H.
  assert (Hv : validateCreateRequest req = None).
  { unfold CreatePrompt in H.
    destruct (validateCreateRequest req); [discriminate | reflexivity]. }
  rewrite (CreatePrompt_stored s now req Hv) in H. injection H as <- <-.
  destruct (stored_row_fields s now req)
    as (F1 & F2 & F3 & F4 & F5 & F6 & F7 & F8 & F9 & F10 & F11 & F12 & F13
        & F14 & F15).
  pose proof (stored_row_given_difficulty s now req Hv) as FD.
  set (p := stored_row s now req) in *.
  assert (Hl : live p = true) by (unfold live; now rewrite F4).
  assert (Hnone : find (fun q => ID q =? next_id s) (live_rows s) = None).
  { apply find_existsb. apply not_true_is_false. intros He.
    apply existsb_exists in He as (q & Hq & Hid).
    unfold live_rows in Hq. apply filter_In in Hq as [Hq _].
    destruct Hw as (_ & Hr & _). rewrite Forall_forall in Hr.
    specialize (Hr q Hq). apply Z.eqb_eq in Hid. lia. }
  assert (Hfind : find (fun q => ID q =? next_id s)
                    (live_rows (mkStore (rows s ++ [p]) (next_id s + 1)))
                  = Some p).
  { unfold live_rows. cbn [rows]. rewrite filter_app, find_app.
    fold (live_rows s). rewrite Hnone. cbn [filter]. rewrite Hl.
    cbn [find]. now rewrite F1, Z.eqb_refl. }
  split.
  - unfold GetPromptByID, FindByID.
    change (PID (transformToResponse p)) with (ID p). rewrite F1.
    destruct (Z.eqb_spec (next_id s) 0) as [E|E];
      [destruct Hw as (H0 & _); lia|].
    now rewrite Hfind.
  - split.
    + unfold Spec.present.
      change (PID (transformToResponse p)) with (ID p). rewrite F1.
      apply existsb_exists. exists p. split.
      * apply find_some in Hfind. apply Hfind.
      * now rewrite F1, Z.eqb_refl.
    + simpl. repeat split; assumption.
Qed.

Lemma created_prompt_is_fetched_witness :
  exists s' r,
    CreatePrompt Samples.gallery 7 None
      (Samples.create_request "two sum" "") = (s', Some r, None) /\
    GetPromptByID s' None (PID r) =
      (Some r, None, [GoIncrementViewCount (PID r)]) /\
    PDifficulty r = "beginner".
Proof.
  assert (Hw : well_formed Samples.gallery).
  { unfold well_formed. split; [reflexivity|]. split.
    - simpl. repeat constructor.
    - simpl. repeat constructor; simpl; intuition discriminate. }
  assert (H : exists s' r,
    CreatePrompt Samples.gallery 7 None
      (Samples.create_request "two sum" "") = (s', Some r, None)).
  { eexists. eexists. reflexivity. }
  destruct H as (s' & r & H). exists s', r. split; [exact H|].
  destruct (created_prompt_is_fetched _ _ _ _ _ Hw H)
    as (Hf & _ & _ & _ & _ & _ & _ & _ & _ & _ & _ & Hd & _).
  split; [exact Hf | exact Hd].
Defined.

End StoreFacts.

(** ** Operations in sequence *)

Module SequenceFacts.

Import GoStrings GoErrors Models Repositories Services Derived Tables.
Import RepositoryFacts DeletionFacts PromptCreation StoreFacts.

Lemma live_rows_after_delete (s : Store) (now id : Z) :
  live_rows (mkStore (map (mark_deleted now id) (rows s)) (next_id s)) =
  filter (fun p => negb (ID p =? id)) (live_rows s).
Proof. unfold live_rows. simpl. apply live_mark_deleted. Qed.

Lemma select_after_delete (q : Query) (s : Store) (now id : Z) :
  select q (mkStore (map (mark_deleted now id) (rows s)) (next_id s)) =
  filter (fun p => negb (ID p =? id)) (select q s).
Proof.
  unfold select. rewrite live_rows_after_delete. apply filter_comm.
Qed.

Lemma unique_id_once (id : Z) (l : list Prompt) :
  NoDup (map ID l) ->
  (List.length (filter (fun p => Z.eqb (ID p) id) l) <= 1)%nat.
Proof.
  induction l as [|p l IH]; simpl; intros H; [lia|].
  inversion H as [|? ? Hn Hd]; subst. specialize (IH Hd).
  destruct (Z.eqb_spec (ID p) id) as [E|E]; [|lia]. simpl.
  assert (Hz : filter (fun p => ID p =? id) l = []).
  { destruct (filter (fun p => ID p =? id) l) as [|q l'] eqn:F;
      [reflexivity|].
    assert (Hq : In q (filter (fun p => ID p =? id) l))
      by (rewrite F; now left).
    apply filter_In in Hq as [Hq Hi]. apply Z.eqb_eq in Hi.
    exfalso. apply Hn. rewrite E, <- Hi. now apply in_map. }
  rewrite Hz. simpl. lia.
Qed.

Lemma NoDup_filter_ids (g : Prompt -> bool) (l : list Prompt) :
  NoDup (map ID l) -> NoDup (map ID (filter g l)).
Proof.
  induction l as [|p l IH]; simpl; intros H; [constructor|].
  inversion H as [|? ? Hn Hd]; subst.
  destruct (g p); simpl; [|now apply IH].
  constructor; [|now apply IH]. intros Hin. apply Hn.
  apply in_map_iff in Hin as (q & Hq & Hin). apply filter_In in Hin as [Hin _].
  rewrite <- Hq. now apply in_map.
Qed.

(** X12: a deleted prompt is gone for every reader: after a successful
    deletion no listing, whatever its filter, page and limit, returns a row
    with the deleted id, the rows with another id are selected as before,
    and in a well-formed table the number of live rows drops by exactly
    one. *)
Theorem deleted_prompt_is_never_listed (s s' : Store) (now : Z)
  (fexists fdelete : Fault) (id : Z) :
  DeletePrompt s now fexists fdelete id = (s', None) ->
  (forall q, select q s' =
             filter (fun p => negb (ID p =? id)) (select q s)) /\
  (forall f page limit p,
     In p (fst (fst (FindAll s' None None f page limit))) -> ID p <> id) /\
  (forall f page limit,
     snd (fst (FindAll s' None None f page limit)) <=
     snd (fst (FindAll s None None f page limit))) /\
  (well_formed s ->
   (List.length (live_rows s') + 1 = List.length (live_rows s))%nat).
Proof.
  intros H. apply DeletePrompt_success in H as (H0 & Hp & ->).
  split; [intros q; apply select_after_delete|]. split; [|split].
  - intros f page limit p Hin. rewrite FindAll_ok in Hin. cbn [fst] in Hin.
    apply In_Limit_Offset in Hin.
    apply (Permutation_in _ (order_perm _)) in Hin.
    rewrite select_after_delete in Hin. apply filter_In in Hin as [_ Hn].
    apply negb_true_iff, Z.eqb_neq in Hn. exact Hn.
  - intros f page limit. rewrite !FindAll_ok. cbn [fst snd].
    rewrite select_after_delete. apply Nat2Z.inj_le, filter_length_le.
  - intros (_ & _ & Hn). rewrite live_rows_after_delete.
    pose proof (filter_length (fun p => ID p =? id) (live_rows s)) as Hlen.
    pose proof (unique_id_once id (live_rows s)
                  (NoDup_filter_ids live (rows s) Hn)) as H1.
    rewrite <- affected_present in Hp. unfold affected in Hp.
    apply Nat.ltb_lt in Hp. lia.
Qed.

Lemma deleted_prompt_is_never_listed_witness :
  exists s',
    DeletePrompt Samples.gallery 7 None None 3 = (s', None) /\
    (forall p,
       In p (fst (fst (FindAll s' None None (Samples.by_language "python")
                         1 100))) -> ID p <> 3) /\
    (List.length (live_rows s') + 1 = 16)%nat.
Proof.
  assert (Hw : well_formed Samples.gallery).
  { unfold well_formed. split; [reflexivity|]. split.
    - simpl. repeat constructor.
    - simpl. repeat constructor; simpl; intuition discriminate. }
  assert (H : exists s',
            DeletePrompt Samples.gallery 7 None None 3 = (s', None)).
  { eexists. reflexivity. }
  destruct H as (s' & H). exists s'. split; [exact H|].
  destruct (deleted_prompt_is_never_listed _ _ _ _ _ _ H)
    as (_ & Hl & _ & Hn).
  split; [apply Hl | exact (Hn Hw)].
Defined.

(** X13: deleting twice: once a deletion has succeeded, a second deletion of the
    same id, with a store that answers, is refused with [prompt not found]
    and leaves the table as the first deletion left it. *)
Theorem second_delete_finds_nothing (s s' : Store) (now now' : Z)
  (fexists fdelete fdelete' : Fault) (id : Z) :
  DeletePrompt s now fexists fdelete id = (s', None) ->
  DeletePrompt s' now' None fdelete' id =
    (s', Some (New "prompt not found")).
Proof.
  intros H. apply DeletePrompt_success in H as (H0 & _ & ->).
  unfold DeletePrompt, Exists.
  destruct (Z.eqb_spec id 0); [contradiction|].
  now rewrite affected_present, present_after_delete.
Qed.

Lemma second_delete_finds_nothing_witness :
  exists s',
    DeletePrompt Samples.gallery 7 None None 3 = (s', None) /\
    DeletePrompt s' 8 None None 3 = (s', Some (New "prompt not found")).
Proof.
  assert (H : exists s',
            DeletePrompt Samples.gallery 7 None None 3 = (s', None)).
  { eexists. reflexivity. }
  destruct H as (s' & H). exists s'. split; [exact H|].
  exact (second_delete_finds_nothing _ _ 7 8 _ _ None _ H).
Defined.

(** X14: a service call that ends in an error has written nothing: a creation
    or a deletion that returns an error returns the table it was given. *)
Theorem failed_call_writes_nothing (s s' : Store) (now : Z) (e : error) :
  (forall f req r,
     CreatePrompt s now f req = (s', r, Some e) -> s' = s /\ r = None) /\
  (forall fexists fdelete id,
     DeletePrompt s now fexists fdelete id = (s', Some e) -> s' = s).
Proof.
  split.
  - intros f req r H. unfold CreatePrompt in H.
    destruct (validateCreateRequest req); [now injection H as <- <-|].
    destruct f; simpl in H; [now injection H as <- <-|discriminate].
  - intros fexists fdelete id H. unfold DeletePrompt, Exists, Delete in H.
    destruct (id =? 0); [now injection H as <-|].
    destruct fexists; [now injection H as <-|].
    destruct (Nat.ltb 0 (affected s id)) eqn:E; [|now injection H as <-].
    destruct fdelete; [now injection H as <-|].
    apply Nat.ltb_lt in E.
    destruct (Nat.eqb_spec (affected s id) 0); [lia | discriminate].
Qed.

Lemma failed_call_writes_nothing_witness :
  fst (DeletePrompt Samples.gallery 7 None (Some (New "connection refused"))
         3) = Samples.gallery.
Proof.
  refine (proj2 (failed_call_writes_nothing Samples.gallery _ 7 _)
            None (Some (New "connection refused")) 3 _).
  reflexivity.
Defined.

Lemma select_after_create (q : Query) (s : Store) (p : Prompt) (n : Z) :
  live p = true ->
  select q (mkStore (rows s ++ [p]) n) =
  (select q s ++ (if holds q p then [p] else []))%list.
Proof.
  intros Hl. unfold select, live_rows. simpl.
  rewrite !filter_app. simpl. rewrite Hl. simpl. reflexivity.
Qed.

(** X15: what is created is listed: after a successful creation, a listing
    counts one row more if the new row satisfies its query and as many rows
    as before if it does not, and the rows it selected before are still
    selected. *)
Theorem created_prompt_is_listed (s s' : Store) (now : Z)
  (req : PromptCreateRequest) (r : PromptResponse) (f : PromptFilter)
  (page limit : Z) :
  CreatePrompt s now None req = (s', Some r, None) ->
  exists p,
    r = transformToResponse p /\
    select (applyFilters [] f) s' =
      (select (applyFilters [] f) s ++
       (if holds (applyFilters [] f) p then [p] else []))%list /\
    snd (fst (FindAll s' None None f page limit)) =
      snd (fst (FindAll s None None f page limit)) +
      (if holds (applyFilters [] f) p then 1 else 0).
Proof.
  intros H.
  assert (Hv : validateCreateRequest req = None).
  { unfold CreatePrompt in H.
    destruct (validateCreateRequest req); [discriminate | reflexivity]. }
  rewrite (CreatePrompt_stored s now req Hv) in H. injection H as <- <-.
  exists (stored_row s now req). split; [reflexivity|].
  assert (Hl : live (stored_row s now req) = true).
  { destruct (stored_row_fields s now req) as (_ & _ & _ & F4 & _).
    unfold live. now rewrite F4. }
  split; [now apply select_after_create|].
  rewrite !FindAll_ok. cbn [fst snd].
  rewrite (select_after_create _ s _ _ Hl), length_app.
  destruct (holds (applyFilters [] f) (stored_row s now req)); simpl; lia.
Qed.

Lemma created_prompt_is_listed_witness :
  snd (fst (FindAll
              (fst (fst (CreatePrompt Samples.gallery 7 None
                           (Samples.create_request "two sum" ""))))
              None None (Samples.by_language "go") 1 10)) = 5.
Proof.
  assert (H : exists s' r,
    CreatePrompt Samples.gallery 7 None
      (Samples.create_request "two sum" "") = (s', Some r, None)).
  { eexists. eexists. reflexivity. }
  destruct H as (s' & r & H). rewrite H. cbn [fst].
  destruct (created_prompt_is_listed _ _ _ _ _ (Samples.by_language "go")
              1 10 H) as (p & Hr & Hs & Ht).
  rewrite Ht. injection H as <- <-.
  apply (f_equal PLanguage) in Hr. simpl in Hr.
  assert (Hh : holds (applyFilters [] (Samples.by_language "go")) p = true).
  { unfold holds. simpl. now rewrite <- Hr. }
  rewrite Hh. reflexivity.
Defined.

End SequenceFacts.

(** ** Views and pages *)

Module ViewFacts.

Import GoStrings GoErrors Models Repositories Services Derived Tables.
Import IntFacts RepositoryFacts ListingFacts DeletionFacts StoreFacts.

Lemma filter_map_swap {A : Type} (g : A -> bool) (h : A -> A)
  (l : list A) :
  (forall x, g (h x) = g x) -> filter g (map h l) = map h (filter g l).
Proof.
  intros H. induction l as [|x l IH]; simpl; [reflexivity|].
  rewrite H. destruct (g x); simpl; now rewrite IH.
Qed.

Lemma find_map_swap {A : Type} (g : A -> bool) (h : A -> A) (l : list A) :
  (forall x, g (h x) = g x) -> find g (map h l) = option_map h (find g l).
Proof.
  intros H. induction l as [|x l IH]; simpl; [reflexivity|].
  rewrite H. now destruct (g x).
Qed.

Lemma run_rows (s : Store) (id : Z) :
  run s None (GoIncrementViewCount id) =
  mkStore (map (bump id) (rows s)) (next_id s).
Proof. reflexivity. Qed.

Lemma with_ViewCount_same (p : Prompt) (n : Z) :
  n = ViewCount p -> with_ViewCount n p = p.
Proof. intros ->. now destruct p. Qed.

Lemma find_after_run (s : Store) (id : Z) (p : Prompt) :
  find (fun q => ID q =? id) (live_rows s) = Some p ->
  find (fun q => ID q =? id)
    (live_rows (run s None (GoIncrementViewCount id))) =
  Some (with_ViewCount (ViewCount p + 1) p).
Proof.
  intros H. rewrite run_rows. unfold live_rows. cbn [rows].
  rewrite (filter_map_swap live (bump id)) by apply live_bump.
  rewrite (find_map_swap (fun q => ID q =? id) (bump id))
    by (intros x; now rewrite ID_bump).
  fold (live_rows s). rewrite H. cbn [option_map].
  apply find_some in H as [Hin Hid]. unfold live_rows in Hin.
  apply filter_In in Hin as [_ Hl]. unfold bump. now rewrite Hl, Hid.
Qed.

Lemma find_after_run_all (n : nat) (s : Store) (id : Z) (p : Prompt) :
  find (fun q => ID q =? id) (live_rows s) = Some p ->
  find (fun q => ID q =? id) (live_rows (run_all s id n)) =
  Some (with_ViewCount (ViewCount p + Z.of_nat n) p).
Proof.
  revert s p. induction n as [|n IH]; intros s p H.
  - cbn [run_all]. rewrite H. f_equal. symmetry.
    apply with_ViewCount_same. simpl. lia.
  - cbn [run_all]. rewrite (IH _ _ (find_after_run s id p H)).
    replace (ViewCount p + Z.of_nat (S n))
      with (ViewCount p + 1 + Z.of_nat n) by lia.
    reflexivity.
Qed.

Lemma rows_after_run_all (n : nat) (s : Store) (id : Z) (q : Prompt) :
  In q (rows s) -> ID q <> id -> In q (rows (run_all s id n)).
Proof.
  revert s. induction n as [|n IH]; intros s Hin Hid; [exact Hin|].
  cbn [run_all]. apply IH; [|exact Hid]. rewrite run_rows. cbn [rows].
  apply in_map_iff. exists q. split; [|exact Hin].
  unfold bump. apply Z.eqb_neq in Hid. now rewrite Hid, andb_false_r.
Qed.

Lemma run_absent (s : Store) (id : Z) :
  Spec.present s id = false -> run s None (GoIncrementViewCount id) = s.
Proof.
  intros H. rewrite run_rows. destruct s as [l n]. cbn [rows next_id].
  f_equal. unfold Spec.present, live_rows in H. cbn [rows] in H.
  induction l as [|p l IH]; [reflexivity|]. simpl in H |- *.
  unfold bump at 1. destruct (live p) eqn:Hl; simpl in H |- *.
  - apply orb_false_iff in H as [Hp Hr]. rewrite Hp. now rewrite IH.
  - now rewrite IH.
Qed.

(** X16: views add up: when [n] view counts of a live prompt have run with a
    store that carries them out, fetching the prompt shows [n] views more
    and nothing else of it changed; the rows with another id are as they
    were; and a view count for an id that no live row carries changes
    nothing. *)
Theorem views_add_up (s : Store) (id : Z) (n : nat) :
  (forall p,
     find (fun q => ID q =? id) (live_rows s) = Some p ->
     FindByID (run_all s id n) None id =
       (Some (with_ViewCount (ViewCount p + Z.of_nat n) p), None) /\
     (id <> 0 ->
      fst (fst (GetPromptByID (run_all s id n) None id)) =
      Some (transformToResponse
              (with_ViewCount (ViewCount p + Z.of_nat n) p)))) /\
  (forall q, In q (rows s) -> ID q <> id -> In q (rows (run_all s id n))) /\
  (Spec.present s id = false -> run_all s id n = s).
Proof.
  split; [|split].
  - intros p H. pose proof (find_after_run_all n s id p H) as Hf.
    split.
    + unfold FindByID. now rewrite Hf.
    + intros H0. unfold GetPromptByID, FindByID.
      destruct (Z.eqb_spec id 0); [contradiction|]. now rewrite Hf.
  - intros q. apply rows_after_run_all.
  - intros H. induction n as [|n IH]; [reflexivity|].
    cbn [run_all]. now rewrite (run_absent s id H).
Qed.

Lemma views_add_up_witness :
  option_map PViewCount
    (fst (fst (GetPromptByID (run_all Tables.viewed 3 4) None 3))) = Some 7 /\
  run_all Tables.viewed 40 4 = Tables.viewed.
Proof.
  destruct (views_add_up Tables.viewed 3 4) as (H & _ & _).
  destruct (H (with_ViewCount 3 (Samples.prompt 3 "go" "sum")) eq_refl)
    as (_ & Hg).
  split.
  - rewrite (Hg ltac:(discriminate)). reflexivity.
  - exact (proj2 (proj2 (views_add_up Tables.viewed 40 4)) eq_refl).
Defined.

(** *** Pages *)





(** X18: the pages that hold rows are the pages up to the page count: on a
    successful listing of a countable table whose offset is within the
    range of [int], the page returned is non-empty exactly when the page
    number is at most [total_pages], and every page before the last one is
    full. *)
Theorem page_is_filled_up_to_total_pages (s : Store) (fcount ffind : Fault)
  (f : PromptFilter) (page limit : Z) (r : PaginationPromptResponse) :
  Spec.countable s ->
  (applied_page page - 1) * applied_limit limit <= GoInt.MaxInt64 ->
  GetAllPrompts s fcount ffind f page limit = (Some r, None) ->
  (Data r <> [] <-> Page r <= TotalPages r) /\
  (Page r < TotalPages r -> Z.of_nat (List.length (Data r)) = PLimit r) /\
  (TotalPages r = 0 <-> Total r = 0).
Proof.
  intros Hc Hr H.
  destruct (GetAllPrompts_success _ _ _ _ _ _ _ H) as (-> & -> & Hd).
  rewrite GetAllPrompts_ok in H by assumption. injection H as <-.
  cbn [PLimit Total TotalPages Data Page].
  pose proof (applied_limit_bounds limit) as Hl.
  pose proof (applied_page_ge page) as Hp.
  pose proof (select_length_le (applyFilters [] f) s) as Hn.
  unfold Spec.countable in Hc.
  assert (HB := total_pages_bounds
                  (Z.of_nat (List.length (select (applyFilters [] f) s)))
                  (applied_limit limit) ltac:(lia) Hl).
  cbv zeta in HB.
  set (TP := GoInt.div _ _) in *.
  set (L := applied_limit limit) in *. set (P := applied_page page) in *.
  assert (Hw : GoInt.mul (GoInt.sub P 1) L = (P - 1) * L).
  { unfold GoInt.sub, GoInt.mul.
    rewrite (wrap_small (P - 1)), wrap_small; [reflexivity| |].
    - unfold GoInt.in_range, GoInt.MinInt64. nia.
    - unfold GoInt.in_range, GoInt.MinInt64, GoInt.MaxInt64 in *. nia. }
  rewrite Hw, Limit_Offset_window by lia. unfold Spec.page_of.
  set (sorted := order_created_at_desc (select (applyFilters [] f) s)).
  assert (Hlen : List.length sorted =
                 List.length (select (applyFilters [] f) s))
    by apply (Permutation_length (order_perm _)).
  rewrite <- Hlen in *.
  assert (Hcount : List.length
            (map transformToResponse
               (firstn (Z.to_nat L) (skipn (Z.to_nat ((P - 1) * L)) sorted)))
          = Nat.min (Z.to_nat L)
              (List.length sorted - Z.to_nat ((P - 1) * L))).
  { now rewrite length_map, length_firstn, length_skipn. }
  set (D := map transformToResponse _) in *.
  assert (Hoff : 0 <= (P - 1) * L) by nia.
  split; [|split].
  - split.
    + intros Hne. assert (List.length D <> 0)%nat
        by (destruct D; [contradiction | discriminate]).
      assert ((P - 1) * L < Z.of_nat (List.length sorted)) by lia. nia.
    + intros Hle.
      assert ((P - 1) * L < Z.of_nat (List.length sorted)) by nia.
      intros ->. simpl in Hcount. lia.
  - intros Hlt.
    assert (P * L <= Z.of_nat (List.length sorted)) by nia.
    assert ((P - 1) * L + L = P * L) by ring. lia.
  - split; intros H0; nia.
Qed.

Lemma page_is_filled_witness :
  exists r,
    GetAllPrompts Samples.gallery None None (Samples.by_language "python")
      3 5 = (Some r, None) /\
    Data r <> [] /\ Page r <= TotalPages r.
Proof.
  assert (H : exists r,
    GetAllPrompts Samples.gallery None None (Samples.by_language "python")
      3 5 = (Some r, None) /\ Page r <= TotalPages r).
  { eexists. split; [reflexivity|]. vm_compute. discriminate. }
  destruct H as (r & H & Hle). exists r. split; [exact H|].
  assert (Hc : Spec.countable Samples.gallery).
  { unfold Spec.countable. vm_compute. discriminate. }
  assert (Hr : (applied_page 3 - 1) * applied_limit 5 <= GoInt.MaxInt64).
  { vm_compute. discriminate. }
  split; [|exact Hle].
  exact (proj2 (proj1 (page_is_filled_up_to_total_pages _ _ _ _ _ _ r Hc Hr
                         H)) Hle).
Defined.

End ViewFacts.

(** ** Requests over HTTP *)

Module HandlerFacts.

Import GoStrings GoErrors Models Repositories Handlers Derived Tables.
Import ListingFacts PromptCreation.

Lemma digits_all (str : string) (acc v : Z) :
  0 <= acc -> digits str acc = Some v ->
  all_digits str = true /\ 0 <= v.
Proof.
  revert acc. induction str as [|c str IH]; intros acc Ha H.
  - injection H as <-. split; [reflexivity | exact Ha].
  - unfold all_digits. cbn [digits list_ascii_of_string forallb] in H |- *.
    destruct (digit c) as [d|] eqn:E; [|discriminate].
    assert (0 <= d).
    { unfold digit in E.
      destruct ((48 <=? Z.of_N (N_of_ascii c)) &&
                (Z.of_N (N_of_ascii c) <=? 57)) eqn:B; [|discriminate].
      injection E as <-. apply andb_true_iff in B as [B _].
      apply Z.leb_le in B. lia. }
    destruct (IH (10 * acc + d) ltac:(lia) H) as [Hd Hv].
    split; [exact Hd | exact Hv].
Qed.

Lemma digits_need_all (str : string) (acc : Z) :
  all_digits str = false -> digits str acc = None.
Proof.
  revert acc. induction str as [|c str IH]; intros acc H; [discriminate|].
  unfold all_digits in H. cbn [list_ascii_of_string forallb] in H.
  cbn [digits]. destruct (digit c); [|reflexivity].
  apply IH. exact H.
Qed.

Lemma decimal_all (str : string) (v : Z) :
  decimal str = Some v -> str <> "" /\ all_digits str = true /\ 0 <= v.
Proof.
  destruct str as [|c str]; [discriminate|]. unfold decimal. intros H.
  split; [discriminate|]. now apply (digits_all _ 0 v).
Qed.

Lemma digit_value (c : ascii) (d : Z) :
  digit c = Some d -> d = Z.of_N (N_of_ascii c) - 48.
Proof.
  unfold digit.
  destruct ((48 <=? Z.of_N (N_of_ascii c)) && (Z.of_N (N_of_ascii c) <=? 57));
    [|discriminate].
  now intros [= <-].
Qed.

Lemma digits_place_value (str : string) (acc v : Z) :
  digits str acc = Some v ->
  v = acc * 10 ^ Z.of_nat (String.length str) + place_value str.
Proof.
  revert acc. induction str as [|c str IH]; intros acc H.
  - injection H as <-. simpl. lia.
  - cbn [digits] in H. destruct (digit c) as [d|] eqn:E; [|discriminate].
    apply digit_value in E. rewrite (IH _ H).
    cbn [place_value String.length]. rewrite Nat2Z.inj_succ, Z.pow_succ_r by lia.
    rewrite E. ring.
Qed.

Lemma digits_of_all (str : string) (acc : Z) :
  all_digits str = true -> exists v, digits str acc = Some v.
Proof.
  revert acc. induction str as [|c str IH]; intros acc H.
  - now eexists.
  - unfold all_digits in H. cbn [list_ascii_of_string forallb] in H.
    cbn [digits]. destruct (digit c); [|discriminate].
    apply IH. exact H.
Qed.

(** X19: the id of a route is read as an unsigned 32-bit number: the
    parameters that are accepted are the non-empty texts of decimal digits
    that write a number below [2^32], and the value returned is the number
    the text writes; for an empty parameter, or one with a character that
    is no digit, fetching and deleting answer 400, touch no row and start
    no goroutine. *)
Theorem route_id_is_checked (s : Store) (now : Z) (f f' : Fault) (c : Ctx) :
  (forall param v,
     parseUintParam c param = inl v <->
     Params c param <> "" /\ all_digits (Params c param) = true /\
     place_value (Params c param) < 2 ^ 32 /\
     v = place_value (Params c param)) /\
  (forall param v,
     parseUintParam c param = inl v ->
     Params c param <> "" /\ all_digits (Params c param) = true /\
     0 <= v < 2 ^ 32) /\
  (Params c "id" = "" \/ all_digits (Params c "id") = false ->
   GetPromptByID s f c =
     (mkReply 400 (mkAPIResponse "error" "" NoData "Invalid prompt ID"), [])
   /\
   DeletePrompt s now f f' c =
     (s, mkReply 400 (mkAPIResponse "error" "" NoData "Invalid prompt ID"))).
Proof.
  assert (Hin : forall param v,
    parseUintParam c param = inl v ->
    Params c param <> "" /\ all_digits (Params c param) = true /\
    0 <= v < 2 ^ 32 /\ v = place_value (Params c param)).
  { intros param v H. unfold parseUintParam in H.
    destruct (String.eqb_spec (Params c param) ""); [discriminate|].
    unfold ParseUint32 in H.
    destruct (decimal (Params c param)) as [w|] eqn:E; [|discriminate].
    destruct (Z.ltb_spec w (2 ^ 32)); [|discriminate].
    injection H as <-. pose proof E as E'.
    apply decimal_all in E as (_ & Hd & Hw).
    split; [assumption|]. split; [assumption|]. split; [lia|].
    unfold decimal in E'. destruct (Params c param); [discriminate|].
    apply digits_place_value in E'. lia. }
  split; [|split].
  - intros param v. split.
    + intros H. destruct (Hin param v H) as (H1 & H2 & H3 & H4).
      split; [assumption|]. split; [assumption|].
      split; [lia | assumption].
    + intros (H1 & H2 & H3 & ->). unfold parseUintParam.
      destruct (String.eqb_spec (Params c param) ""); [contradiction|].
      unfold ParseUint32, decimal.
      destruct (Params c param) as [|a str] eqn:P; [contradiction|].
      destruct (digits_of_all (String a str) 0 H2) as [w Hw].
      rewrite Hw. apply digits_place_value in Hw.
      assert (w = place_value (String a str)) as -> by lia.
      destruct (Z.ltb_spec (place_value (String a str)) (2 ^ 32));
        [reflexivity | lia].
  - intros param v H. destruct (Hin param v H) as (H1 & H2 & H3 & _). auto.
  - intros H.
    assert (He : exists e, parseUintParam c "id" = inr e).
    { unfold parseUintParam.
      destruct (String.eqb_spec (Params c "id") ""); [now eexists|].
      destruct H as [H | H]; [contradiction|].
      unfold ParseUint32, decimal.
      destruct (Params c "id"); [contradiction|].
      rewrite (digits_need_all _ 0 H). now eexists. }
    destruct He as [e He]. unfold GetPromptByID, DeletePrompt.
    rewrite He. split; reflexivity.
Qed.

Lemma route_id_is_checked_witness :
  parseUintParam (Samples.ctx_id "0042") "id" = inl 42 /\
  StatusCode (fst (GetPromptByID Samples.gallery None (Samples.ctx_id "-1")))
    = 400 /\
  fst (DeletePrompt Samples.gallery 7 None None (Samples.ctx_id "3a")) =
    Samples.gallery.
Proof.
  split; [|split].
  - apply (proj1 (route_id_is_checked Samples.gallery 7 None None
                    (Samples.ctx_id "0042")) "id" 42).
    split; [discriminate|]. split; [reflexivity|].
    split; [reflexivity | reflexivity].
  - rewrite (proj1 (proj2 (proj2 (route_id_is_checked Samples.gallery 7 None
                                    None (Samples.ctx_id "-1")))
                      (or_intror eq_refl))).
    reflexivity.
  - rewrite (proj2 (proj2 (proj2 (route_id_is_checked Samples.gallery 7 None
                                    None (Samples.ctx_id "3a")))
                      (or_intror eq_refl))).
    reflexivity.
Defined.

Lemma Atoi_range (str : string) (v : Z) :
  Atoi str = inl v -> GoInt.MinInt64 <= v <= GoInt.MaxInt64.
Proof.
  unfold Atoi. intros H.
  match type of H with
  | match ?o with _ => _ end = _ => destruct o as [w|]; [|discriminate]
  end.
  destruct (Z.leb_spec GoInt.MinInt64 w), (Z.leb_spec w GoInt.MaxInt64);
    simpl in H; try discriminate.
  injection H as <-. lia.
Qed.

(** X20: a numeric query parameter never reads below 1: with a default between
    1 and the largest [int], the value read is in that range too, and it
    is either the default or the number written in the parameter. *)
Theorem query_number_is_positive (c : Ctx) (key : string)
  (defaultValue : Z) :
  (parseIntQuery c key defaultValue = defaultValue \/
   Atoi (QueryParam c key) = inl (parseIntQuery c key defaultValue)) /\
  (QueryParam c key = "" -> parseIntQuery c key defaultValue = defaultValue)
  /\
  (1 <= defaultValue <= GoInt.MaxInt64 ->
   1 <= parseIntQuery c key defaultValue <= GoInt.MaxInt64).
Proof.
  unfold parseIntQuery.
  destruct (String.eqb_spec (QueryParam c key) "") as [E|E].
  - split; [now left|]. split; [reflexivity | auto].
  - destruct (Atoi (QueryParam c key)) as [v|e] eqn:A.
    + destruct (Z.ltb_spec v 1).
      * split; [now left|]. split; [contradiction | auto].
      * split; [now right|]. split; [contradiction|].
        intros _. apply Atoi_range in A. lia.
    + split; [now left|]. split; [contradiction | auto].
Qed.

Lemma query_number_is_positive_witness :
  parseIntQuery (Samples.ctx_query "-4" "0" "") "page" 1 = 1 /\
  1 <= parseIntQuery (Samples.ctx_query "-4" "500" "") "limit" 10
    <= GoInt.MaxInt64.
Proof.
  split; [reflexivity|].
  apply (proj2 (proj2 (query_number_is_positive
                         (Samples.ctx_query "-4" "500" "") "limit" 10))).
  split; [lia | vm_compute; discriminate].
Defined.

Lemma ParseBool_literal (str : string) :
  bool_literal str = true <-> exists b, ParseBool str = inl b.
Proof.
  unfold bool_literal, ParseBool.
  change ["1"; "t"; "T"; "TRUE"; "true"; "True";
          "0"; "f"; "F"; "FALSE"; "false"; "False"]
    with (["1"; "t"; "T"; "TRUE"; "true"; "True"] ++
          ["0"; "f"; "F"; "FALSE"; "false"; "False"])%list.
  rewrite existsb_app.
  destruct (existsb (String.eqb str)
              ["1"; "t"; "T"; "TRUE"; "true"; "True"]);
    [split; [now eexists | reflexivity]|].
  destruct (existsb (String.eqb str)
              ["0"; "f"; "F"; "FALSE"; "false"; "False"]);
    [split; [now eexists | reflexivity]|].
  split; [discriminate | intros [b H]; discriminate].
Qed.

Lemma parsePromptQuery_ok (c : Ctx) :
  QueryParam c "is_verified" = "" \/
  bool_literal (QueryParam c "is_verified") = true ->
  exists filter,
    parsePromptQuery c =
      (filter, parseIntQuery c "page" 1, parseIntQuery c "limit" 10, None)
    /\ FLanguage filter = QueryParam c "language" /\
    FCategory filter = QueryParam c "category" /\
    FSearch filter = QueryParam c "search" /\
    FDifficulty filter = "" /\
    (QueryParam c "is_verified" = "" -> FIsVerified filter = None) /\
    (QueryParam c "is_verified" <> "" ->
     ParseBool (QueryParam c "is_verified") = inl true \/
     ParseBool (QueryParam c "is_verified") = inl false) /\
    (forall b, ParseBool (QueryParam c "is_verified") = inl b ->
               QueryParam c "is_verified" <> "" ->
               FIsVerified filter = Some b).
Proof.
  intros H. unfold parsePromptQuery.
  destruct (String.eqb_spec (QueryParam c "is_verified") "") as [E|E].
  - eexists. cbn [negb]. split; [reflexivity|]. cbn.
    repeat split; try reflexivity; try contradiction.
  - destruct H as [H | H]; [contradiction|].
    apply ParseBool_literal in H as [b Hb]. rewrite Hb. cbn [negb].
    eexists. split; [reflexivity|]. cbn.
    repeat split; try reflexivity; try contradiction.
    + intros _. destruct b; auto.
    + intros b' Hb' _. congruence.
Qed.

Lemma parsePromptQuery_bad (c : Ctx) :
  QueryParam c "is_verified" <> "" ->
  bool_literal (QueryParam c "is_verified") = false ->
  exists filter e, parsePromptQuery c = (filter, 0, 0, Some e).
Proof.
  intros E H. unfold parsePromptQuery.
  destruct (String.eqb_spec (QueryParam c "is_verified") "");
    [contradiction|]. cbn [negb].
  destruct (ParseBool (QueryParam c "is_verified")) as [b|e] eqn:P.
  - assert (bool_literal (QueryParam c "is_verified") = true)
      by (apply ParseBool_literal; eauto). congruence.
  - eauto.
Qed.

(** X21: the listing endpoint answers 400 exactly for a verification flag that
    is given and is no boolean literal, whatever the store does; any other
    request is answered 200 when the store carries the two statements out,
    with the page read from the request, which is at least 1, a limit
    between 1 and 100 and at most that many rows; and an answer 500 tells a
    failure of the store. *)
Theorem listing_endpoint_answers (s : Store) (fcount ffind : Fault)
  (c : Ctx) :
  (QueryParam c "is_verified" <> "" ->
   bool_literal (QueryParam c "is_verified") = false ->
   StatusCode (GetPrompts s fcount ffind c) = 400) /\
  (QueryParam c "is_verified" = "" \/
   bool_literal (QueryParam c "is_verified") = true ->
   StatusCode (GetPrompts s fcount ffind c) <> 400 /\
   exists r,
     GetPrompts s None None c =
       mkReply 200
         (mkAPIResponse "success" "Prompts fetched successfully"
            (PageData r) "") /\
     Services.Page r = parseIntQuery c "page" 1 /\
     1 <= Services.Page r /\
     Services.PLimit r =
       Services.applied_limit (parseIntQuery c "limit" 10) /\
     1 <= Services.PLimit r <= 100 /\
     Z.of_nat (List.length (Services.Data r)) <= Services.PLimit r) /\
  (StatusCode (GetPrompts s fcount ffind c) = 500 ->
   fcount <> None \/ ffind <> None).
Proof.
  assert (Hok : QueryParam c "is_verified" = "" \/
                bool_literal (QueryParam c "is_verified") = true ->
    exists filter,
      parsePromptQuery c =
        (filter, parseIntQuery c "page" 1, parseIntQuery c "limit" 10, None)
      /\ difficulty_admitted filter = true).
  { intros H. destruct (parsePromptQuery_ok c H) as (filter & Hp & Hf).
    exists filter. split; [exact Hp|]. unfold difficulty_admitted.
    destruct Hf as (_ & _ & _ & -> & _). reflexivity. }
  assert (Hpage : 1 <= parseIntQuery c "page" 1 <= GoInt.MaxInt64).
  { apply query_number_is_positive. split; [lia|]. vm_compute. discriminate. }
  assert (Hstatus : QueryParam c "is_verified" = "" \/
                    bool_literal (QueryParam c "is_verified") = true ->
    (StatusCode (GetPrompts s fcount ffind c) = 200 /\
     fcount = None /\ ffind = None) \/
    (StatusCode (GetPrompts s fcount ffind c) = 500 /\
     (fcount <> None \/ ffind <> None))).
  { intros H. destruct (Hok H) as (filter & Hp & Hd).
    unfold GetPrompts. rewrite Hp.
    destruct fcount as [e|], ffind as [e'|].
    - right. split; [|left; discriminate].
      unfold Services.GetAllPrompts, FindAll.
      unfold difficulty_admitted in Hd.
      destruct (String.eqb (FDifficulty filter) ""); simpl in Hd |- *;
        [reflexivity | now rewrite Hd].
    - right. split; [|left; discriminate].
      unfold Services.GetAllPrompts, FindAll.
      unfold difficulty_admitted in Hd.
      destruct (String.eqb (FDifficulty filter) ""); simpl in Hd |- *;
        [reflexivity | now rewrite Hd].
    - right. split; [|right; discriminate].
      unfold Services.GetAllPrompts, FindAll.
      unfold difficulty_admitted in Hd.
      destruct (String.eqb (FDifficulty filter) ""); simpl in Hd |- *;
        [reflexivity | now rewrite Hd].
    - left. rewrite GetAllPrompts_ok by exact Hd. auto. }
  split; [|split].
  - intros E H. destruct (parsePromptQuery_bad c E H) as (filter & e & Hp).
    unfold GetPrompts. now rewrite Hp.
  - intros H. split.
    + destruct (Hstatus H) as [[-> _] | [-> _]]; discriminate.
    + destruct (Hok H) as (filter & Hp & Hd).
      eexists. unfold GetPrompts. rewrite Hp.
      rewrite GetAllPrompts_ok by exact Hd. split; [reflexivity|].
      cbn [Services.Page Services.PLimit Services.Data].
      pose proof (applied_limit_bounds (parseIntQuery c "limit" 10)) as Hl.
      assert (Hap : Services.applied_page (parseIntQuery c "page" 1) =
                    parseIntQuery c "page" 1).
      { unfold Services.applied_page.
        destruct (Z.ltb_spec (parseIntQuery c "page" 1) 1); [lia|].
        reflexivity. }
      rewrite Hap. split; [reflexivity|]. split; [lia|].
      split; [reflexivity|]. split; [lia|].
      rewrite length_map. unfold Limit.
      destruct (Z.ltb_spec
                  (Services.applied_limit (parseIntQuery c "limit" 10)) 0);
        [lia|].
      match goal with
      | |- Z.of_nat (List.length (firstn ?n ?l)) <= _ =>
          pose proof (firstn_le_length n l)
      end. lia.
  - intros H5.
    destruct (String.eqb_spec (QueryParam c "is_verified") "") as [E|E].
    + destruct (Hstatus (or_introl E)) as [[H2 _] | [_ Hf]];
        [congruence | exact Hf].
    + destruct (bool_literal (QueryParam c "is_verified")) eqn:B.
      * destruct (Hstatus (or_intror eq_refl)) as [[H2 _] | [_ Hf]];
          [congruence | exact Hf].
      * destruct (parsePromptQuery_bad c E B) as (filter & e & Hp).
        unfold GetPrompts in H5. rewrite Hp in H5. discriminate H5.
Qed.

Lemma listing_endpoint_answers_witness :
  StatusCode (GetPrompts Samples.gallery None None
                (Tables.ctx_verified "maybe")) = 400 /\
  StatusCode (GetPrompts Samples.gallery None None
                (Samples.ctx_query "2" "500" "")) <> 400.
Proof.
  split.
  - apply (proj1 (listing_endpoint_answers Samples.gallery None None
                    (Tables.ctx_verified "maybe")));
      [discriminate | reflexivity].
  - apply (proj1 (proj2 (listing_endpoint_answers Samples.gallery None None
                           (Samples.ctx_query "2" "500" "")))).
    now left.
Defined.

(** X22: the listing endpoint reads six query parameters and no other: two
    requests that agree on [language], [category], [search], [is_verified],
    [page] and [limit] get the same answer, so that a [difficulty]
    parameter has no effect. *)
Theorem listing_ignores_other_parameters (s : Store) (fcount ffind : Fault)
  (c c' : Ctx) :
  same_listing_query c c' ->
  parsePromptQuery c = parsePromptQuery c' /\
  GetPrompts s fcount ffind c = GetPrompts s fcount ffind c'.
Proof.
  intros (H1 & H2 & H3 & H4 & H5 & H6).
  assert (H : parsePromptQuery c = parsePromptQuery c').
  { unfold parsePromptQuery, parseIntQuery.
    now rewrite H1, H2, H3, H4, H5, H6. }
  split; [exact H|]. unfold GetPrompts. now rewrite H.
Qed.

Lemma listing_ignores_other_parameters_witness :
  GetPrompts Samples.gallery None None (Tables.ctx_difficulty "expert") =
  GetPrompts Samples.gallery None None (Tables.ctx_difficulty "legendary").
Proof.
  refine (proj2 (listing_ignores_other_parameters Samples.gallery None None
                   (Tables.ctx_difficulty "expert")
                   (Tables.ctx_difficulty "legendary") _)).
  unfold same_listing_query. simpl. repeat split.
Defined.

(** X23: the creation endpoint answers a request that the validation rejects
    without touching the table: with 500 and the message [Failed to create
    prompt] when the title is given and longer than 200 bytes, and with 400
    and the message of the validation in every other case. *)
Theorem rejected_creation_is_answered (s : Store) (now : Z) (f : Fault)
  (c : Ctx) (req : PromptCreateRequest) (e : error) :
  BodyParser c = inl req ->
  Services.validateCreateRequest req = Some e ->
  (CTitle req <> "" /\ 200 < len (CTitle req) ->
   CreatePrompt s now f c =
     (s, mkReply 500
           (mkAPIResponse "error" "" NoData "Failed to create prompt"))) /\
  (CTitle req = "" \/ len (CTitle req) <= 200 ->
   CreatePrompt s now f c =
     (s, mkReply 400 (mkAPIResponse "error" "" NoData (Error e)))).
Proof.
  intros Hb Hv. unfold CreatePrompt.
  rewrite Hb, (CreatePrompt_rejected s now f req e Hv).
  unfold Services.validateCreateRequest in Hv.
  destruct (String.eqb_spec (CTitle req) "") as [E|E].
  { injection Hv as <-. split; [intros [? _]; contradiction|].
    reflexivity. }
  destruct (Z.ltb_spec 200 (len (CTitle req))) as [T|T].
  { injection Hv as <-. split; [reflexivity|].
    intros [? | ?]; [contradiction | lia]. }
  split; [intros [_ ?]; lia | intros _].
  destruct (String.eqb (CDescription req) ""); [now injection Hv as <-|].
  destruct (String.eqb (CLanguage req) ""); [now injection Hv as <-|].
  destruct (String.eqb (CCategory req) ""); [now injection Hv as <-|].
  destruct (String.eqb (CProblemStatement req) "");
    [now injection Hv as <-|].
  destruct (negb (String.eqb (CDifficulty req) "") &&
            negb (DifficultyLevel_Valid (CDifficulty req)));
    [now injection Hv as <- | discriminate].
Qed.

Lemma rejected_creation_is_answered_witness :
  StatusCode (snd (CreatePrompt Samples.gallery 7 None
                     (Samples.ctx_body
                        (Samples.create_request Tables.long_title ""))))
    = 500 /\
  StatusCode (snd (CreatePrompt Samples.gallery 7 None
                     (Samples.ctx_body
                        (Samples.create_request "two sum" "legendary"))))
    = 400.
Proof.
  split.
  - rewrite (proj1 (rejected_creation_is_answered Samples.gallery 7 None
                      (Samples.ctx_body
                         (Samples.create_request Tables.long_title ""))
                      _ _ eq_refl eq_refl));
      [reflexivity|].
    split; [discriminate | vm_compute; reflexivity].
  - rewrite (proj2 (rejected_creation_is_answered Samples.gallery 7 None
                      (Samples.ctx_body
                         (Samples.create_request "two sum" "legendary"))
                      _ _ eq_refl eq_refl));
      [reflexivity|].
    right. vm_compute. discriminate.
Defined.

End HandlerFacts.

(** ** Configuration *)

Module ConfigFacts.

Import Config.

Lemma getEnv_filled (env : Environ) (key defaultValue : string) :
  defaultValue <> "" -> getEnv env key defaultValue <> "".
Proof.
  intros H. unfold getEnv.
  destruct (String.eqb_spec (env key) ""); simpl; assumption.
Qed.

Lemma getEnv_cases (env : Environ) (key defaultValue : string) :
  (env key = "" -> getEnv env key defaultValue = defaultValue) /\
  (env key <> "" -> getEnv env key defaultValue = env key).
Proof.
  unfold getEnv.
  destruct (String.eqb_spec (env key) ""); simpl; split; intros;
    (reflexivity || contradiction).
Qed.

Lemma LoadConfig_loaded (env : Environ) :
  LoadConfig true env =
  if String.eqb (env "DATABASE_URL") "" then inr "DATABASE_URL is not set"
  else inl {| Port := getEnv env "PORT" "8080";
              DatabaseURL := env "DATABASE_URL";
              Environment := getEnv env "ENVIRONMENT" "development" |}.
Proof.
  unfold LoadConfig. cbn [negb DatabaseURL].
  destruct (getEnv_cases env "DATABASE_URL" "") as [H0 H1].
  destruct (String.eqb_spec (env "DATABASE_URL") "") as [E|E].
  - rewrite (H0 E). reflexivity.
  - rewrite (H1 E).
    destruct (String.eqb_spec (env "DATABASE_URL") "");
      [contradiction | reflexivity].
Qed.

(** X24: a configuration is loaded exactly when the [.env] file could be loaded
    and the database address is set to a non-empty text; none of its three
    fields is empty then, the address is the one of the environment, and a
    variable set to the empty text counts as unset: the port and the
    environment name fall back to [8080] and [development]. *)
Theorem loaded_config_is_complete (loaded : bool) (env : Environ) :
  ((exists config, LoadConfig loaded env = inl config) <->
   loaded = true /\ env "DATABASE_URL" <> "") /\
  (forall config,
     LoadConfig loaded env = inl config ->
     Port config <> "" /\ DatabaseURL config <> "" /\
     Environment config <> "" /\
     DatabaseURL config = env "DATABASE_URL" /\
     (env "PORT" = "" -> Port config = "8080") /\
     (env "PORT" <> "" -> Port config = env "PORT") /\
     (env "ENVIRONMENT" = "" -> Environment config = "development") /\
     (env "ENVIRONMENT" <> "" -> Environment config = env "ENVIRONMENT")).
Proof.
  destruct loaded.
  - rewrite LoadConfig_loaded.
    destruct (String.eqb_spec (env "DATABASE_URL") "") as [E|E].
    + split.
      * split; [intros [? H]; discriminate | intros [_ H]; contradiction].
      * intros config H. discriminate.
    + split.
      * split; [auto | intros _; now eexists].
      * intros config H. injection H as <-.
        cbn [Port DatabaseURL Environment].
        destruct (getEnv_cases env "PORT" "8080") as [P0 P1].
        destruct (getEnv_cases env "ENVIRONMENT" "development") as [E0 E1].
        split; [apply getEnv_filled; discriminate|].
        split; [exact E|].
        split; [apply getEnv_filled; discriminate|].
        split; [reflexivity|]. auto.
  - split.
    + split; [intros [? H]; discriminate | intros [H _]; discriminate].
    + intros config H. discriminate.
Qed.

Lemma loaded_config_is_complete_witness :
  exists config,
    LoadConfig true (Tables.environ "postgres://db/prompts") = inl config /\
    Port config = "8080" /\ Environment config = "development".
Proof.
  assert (H : exists config,
    LoadConfig true (Tables.environ "postgres://db/prompts") = inl config).
  { apply (proj1 (loaded_config_is_complete true
                    (Tables.environ "postgres://db/prompts"))).
    split; [reflexivity | discriminate]. }
  destruct H as (config & H). exists config. split; [exact H|].
  destruct (proj2 (loaded_config_is_complete true
                     (Tables.environ "postgres://db/prompts")) config H)
    as (_ & _ & _ & _ & Hp & _ & He & _).
  split; [exact (Hp eq_refl) | exact (He eq_refl)].
Defined.

End ConfigFacts.

(** ** The claim on the counting of views *)

Module ViewClaim.

Import GoStrings GoErrors Models Repositories Services Derived Tables.
Import ViewCounting ViewFacts.

(** C9 fails on the code: the update that counts a view may fail, and its
    error is dropped.  After a fetch whose update the store refuses, the
    view count is what it was, not one more. *)
Lemma failed_update_counts_no_view :
  ~ (forall (s : Store) (f : Fault) (id : Z) (p : Prompt) (g : Goroutine),
       id <> 0 ->
       find (fun q => ID q =? id) (live_rows s) = Some p ->
       In g (snd (GetPromptByID s None id)) ->
       FindByID (run s f g) None id =
         (Some (with_ViewCount (ViewCount p + 1) p), None)).
Proof.
  intros H.
  specialize (H Samples.gallery (Some (New "connection refused")) 3
                (Samples.prompt 3 "python" "sum") (GoIncrementViewCount 3)
                ltac:(discriminate) eq_refl (or_introl eq_refl)).
  discriminate H.
Qed.

(** C9, amended: a successful fetch answers with the row as read, without
    error, and starts exactly one goroutine, the view count of the fetched
    id, which it does not wait for.  Once that goroutine has run on the
    table the fetch read, the stored view count of the prompt is one more
    if the store carried the update out, nothing else of the prompt has
    changed and the rows with another id are as they were; if the update
    failed, the table is as it was, the prompt keeps its view count, and
    the error of the update reaches nobody. *)
Theorem view_count_follows_fetch (s : Store) (id : Z) (p : Prompt) :
  id <> 0 ->
  find (fun q => ID q =? id) (live_rows s) = Some p ->
  GetPromptByID s None id =
    (Some (transformToResponse p), None, [GoIncrementViewCount id]) /\
  PViewCount (transformToResponse p) = ViewCount p /\
  FindByID (run s None (GoIncrementViewCount id)) None id =
    (Some (with_ViewCount (ViewCount p + 1) p), None) /\
  (forall q, In q (rows s) -> ID q <> id ->
             In q (rows (run s None (GoIncrementViewCount id)))) /\
  (forall err,
     IncrementViewCount s (Some err) id = (s, Some err) /\
     run s (Some err) (GoIncrementViewCount id) = s /\
     FindByID (run s (Some err) (GoIncrementViewCount id)) None id =
       (Some p, None)).
Proof.
  intros H0 Hf. split; [now apply GetPromptByID_found|].
  split; [reflexivity|]. split.
  - unfold FindByID. now rewrite (find_after_run s id p Hf).
  - split.
    + intros q. apply (rows_after_run_all 1).
    + intros err. split; [reflexivity|]. split; [reflexivity|].
      unfold FindByID. cbn [run IncrementViewCount fst]. now rewrite Hf.
Qed.

Lemma view_count_follows_fetch_witness :
  GetPromptByID Tables.viewed None 3 =
    (Some (transformToResponse
             (with_ViewCount 3 (Samples.prompt 3 "go" "sum"))), None,
     [GoIncrementViewCount 3]) /\
  option_map ViewCount
    (fst (FindByID (run Tables.viewed None (GoIncrementViewCount 3)) None 3))
  = Some 4 /\
  option_map ViewCount
    (fst (FindByID (run Tables.viewed (Some (New "connection refused"))
                      (GoIncrementViewCount 3)) None 3))
  = Some 3.
Proof.
  destruct (view_count_follows_fetch Tables.viewed 3
              (with_ViewCount 3 (Samples.prompt 3 "go" "sum"))
              ltac:(discriminate) eq_refl)
    as (Hg & _ & Hr & _ & He).
  split; [exact Hg|]. split.
  - rewrite Hr. reflexivity.
  - destruct (He (New "connection refused")) as (_ & _ & Hk).
    rewrite Hk. reflexivity.
Defined.

End ViewClaim.
